(** * Ipopt: the optimality-error convergence check

    A shallow embedding of [OptimalityErrorConvergenceCheck]
    (src/Ipopt/src/Algorithm/IpOptErrorConvCheck.cpp): the registration of its
    options, [InitializeImpl], [CheckConvergence] and [CurrentIsAcceptable],
    followed by the properties of the termination decision.

    The C++ members of the checker become the fields of a record that is
    passed in and returned; the objects the checker talks to ([IpData()],
    [IpCq()], [IpNLP()], the clock) become the fields of the state of one
    call.  Journal output ([Jnlst().Printf]) changes no value that is read
    back and is left out. *)

From Stdlib Require Import ZArith QArith Bool List String Floats Lia.
Import ListNotations.

Set Warnings "-inexact-float".
Local Open Scope Z_scope.

(** ** Numbers

    [Number] is a typedef of the source (IpTypes.hpp, [double] in the default
    build).  The checker only compares numbers, subtracts and divides them and
    takes absolute values, so the embedding is written once over these
    operations and run at IEEE binary64: the kernel's primitive floats, what
    the compiled code computes, rounding, NaN and infinities included.  A
    decimal literal of the source is written [Num q] for the rational [q] it
    spells. *)

Class NumberOps (Number : Type) : Type := {
  (** the value a decimal literal of the source denotes *)
  num_of_Q : Q -> Number;
  (** [a <= b] *)
  num_leb : Number -> Number -> bool;
  (** [a < b] *)
  num_ltb : Number -> Number -> bool;
  (** [a - b] *)
  num_sub : Number -> Number -> Number;
  (** [a / b] *)
  num_div : Number -> Number -> Number;
  (** [fabs(a)] *)
  fabs : Number -> Number
}.

Declare Scope num_scope.
Delimit Scope num_scope with num.
Notation "a <=? b" := (num_leb a b) : num_scope.
Notation "a <? b" := (num_ltb a b) : num_scope.
Notation "a >? b" := (num_ltb b a) : num_scope.
Notation "a - b" := (num_sub a b) : num_scope.
Notation "a / b" := (num_div a b) : num_scope.

Definition Num {Number : Type} {ops : NumberOps Number} (q : Q) : Number :=
  num_of_Q q.
Arguments Num {Number ops} q%_Q.

(** [Index] is [int] in the source.  Signed overflow is undefined in C++, and
    the counters here stay far from the bounds, so [Index] is [Z]. *)
Definition Index : Type := Z.

(** IEEE binary64.  A decimal literal [n/d] is rounded to nearest: numerator
    and denominator are rounded and divided, which is the correctly rounded
    literal whenever the two are representable or the denominator is one (all
    literals of this file; [float_literals] compares them with the kernel's
    own reading). *)
Definition float_of_Z (z : Z) : float :=
  SF2Prim (binary_normalize prec emax z 0 false).

Definition float_of_Q (q : Q) : float :=
  PrimFloat.div (float_of_Z (Qnum q)) (float_of_Z (Zpos (Qden q))).

#[export] Instance float_NumberOps : NumberOps float := {
  num_of_Q := float_of_Q;
  num_leb := PrimFloat.leb;
  num_ltb := PrimFloat.ltb;
  num_sub := PrimFloat.sub;
  num_div := PrimFloat.div;
  fabs := PrimFloat.abs
}.

(** ** The termination status *)

(** Modelled from the spec: the enumeration [ConvergenceCheck::ConvergenceStatus]
    is declared in IpConvCheck.hpp, which is not among the sources; the spec's
    data model lists its values. *)
Inductive ConvergenceStatus : Type :=
| CONTINUE
| CONVERGED
| CONVERGED_TO_ACCEPTABLE_POINT
| MAXITER_EXCEEDED
| CPUTIME_EXCEEDED
| DIVERGING
| RESTORATION_FAILURE
| USER_STOP.

Inductive ENormType : Type := NORM_1 | NORM_2 | NORM_MAX.

Inductive AlgorithmMode : Type := RegularMode | RestorationPhaseMode.

Section Checker.

Context {Number : Type} {ops : NumberOps Number}.

(** Modelled from the spec: [Max] (IpUtils.hpp) is not among the sources; it is
    the spec's maximum of two numbers, taken with one comparison. *)
Definition Max (a b : Number) : Number := if (a >? b)%num then a else b.

(** ** The objects the checker reads *)

(** What the checker observes of an [Ipopt::Vector]: its dimension and its
    max-norm. *)
Record Vector : Type := mkVector {
  Dim : Index;
  Amax : Number
}.

(** The search direction [IpData().delta()]: its components are smart
    pointers, [None] where [IsValid] is false. *)
Record IteratesVector : Type := mkIteratesVector {
  delta_x : option Vector;
  delta_s : option Vector
}.

(** [IpoptData], as far as the checker uses it.  [curr()], [curr()->x()] and
    [curr()->y_c()] are dereferenced without a test in the source: the current
    iterate exists whenever the check runs. *)
Record IpoptData : Type := mkIpoptData {
  iter_count : Index;
  tol : Number;
  curr_mu : Number;
  curr_x : Vector;
  curr_y_c : Vector;
  delta : option IteratesVector;
  info_alpha_primal : Number;
  info_alpha_dual : Number;
  info_regu_x : Number;
  info_ls_count : Index;
  info_string : string;
  cpu_time_start : Number
}.

Definition Append_info_string (d : IpoptData) (add : string) : IpoptData :=
  mkIpoptData (iter_count d) (tol d) (curr_mu d) (curr_x d) (curr_y_c d)
    (delta d) (info_alpha_primal d) (info_alpha_dual d) (info_regu_x d)
    (info_ls_count d) (info_string d ++ add) (cpu_time_start d).

(** [IpoptCalculatedQuantities]: the quantities of the current iterate. *)
Record IpoptCalculatedQuantities : Type := mkIpoptCq {
  curr_primal_infeasibility : ENormType -> Number;
  curr_dual_infeasibility : ENormType -> Number;
  curr_f : Number;
  unscaled_curr_f : Number;
  curr_nlp_error : Number;
  unscaled_curr_dual_infeasibility : ENormType -> Number;
  unscaled_curr_nlp_constraint_violation : ENormType -> Number;
  unscaled_curr_complementarity : Number -> ENormType -> Number
}.

(** The scalars handed to the intermediate callback, in the order of the call. *)
Record CallBackInfo : Type := mkCallBackInfo {
  cb_mode : AlgorithmMode;
  cb_iter : Index;
  cb_obj_value : Number;
  cb_inf_pr : Number;
  cb_inf_du : Number;
  cb_mu : Number;
  cb_d_norm : Number;
  cb_regularization_size : Number;
  cb_alpha_du : Number;
  cb_alpha_pr : Number;
  cb_ls_trials : Index
}.

(** The user's side of the reverse call: the callback sees the scalars and
    the two objects, answers whether to go on, and may change state of its
    own. *)
Variable UserState : Type.

Record IpoptNLP : Type := mkIpoptNLP {
  IntermediateCallBack :
    CallBackInfo -> IpoptData -> IpoptCalculatedQuantities ->
    UserState -> bool * UserState
}.

(** The user's state together with the record of the reverse calls made so
    far, oldest first. *)
Record NLPState : Type := mkNLPState {
  user_state : UserState;
  callback_calls : list CallBackInfo
}.

(** ** The checker *)

Record OptimalityErrorConvergenceCheck : Type := mkChecker {
  max_iterations_ : Index;
  max_cpu_time_ : Number;
  dual_inf_tol_ : Number;
  constr_viol_tol_ : Number;
  compl_inf_tol_ : Number;
  acceptable_iter_ : Index;
  acceptable_tol_ : Number;
  acceptable_dual_inf_tol_ : Number;
  acceptable_constr_viol_tol_ : Number;
  acceptable_compl_inf_tol_ : Number;
  acceptable_obj_change_tol_ : Number;
  diverging_iterates_tol_ : Number;
  mu_target_ : Number;
  acceptable_counter_ : Index;
  curr_obj_val_ : Number;
  last_obj_val_ : Number;
  last_obj_val_iter_ : Index
}.

Definition set_primary_tols (c : OptimalityErrorConvergenceCheck)
    (dual_inf compl_inf : Number) : OptimalityErrorConvergenceCheck :=
  mkChecker (max_iterations_ c) (max_cpu_time_ c) dual_inf
    (constr_viol_tol_ c) compl_inf (acceptable_iter_ c) (acceptable_tol_ c)
    (acceptable_dual_inf_tol_ c) (acceptable_constr_viol_tol_ c)
    (acceptable_compl_inf_tol_ c) (acceptable_obj_change_tol_ c)
    (diverging_iterates_tol_ c) (mu_target_ c) (acceptable_counter_ c)
    (curr_obj_val_ c) (last_obj_val_ c) (last_obj_val_iter_ c).

Definition set_acceptable_tols (c : OptimalityErrorConvergenceCheck)
    (dual_inf compl_inf : Number) : OptimalityErrorConvergenceCheck :=
  mkChecker (max_iterations_ c) (max_cpu_time_ c) (dual_inf_tol_ c)
    (constr_viol_tol_ c) (compl_inf_tol_ c) (acceptable_iter_ c)
    (acceptable_tol_ c) dual_inf (acceptable_constr_viol_tol_ c) compl_inf
    (acceptable_obj_change_tol_ c) (diverging_iterates_tol_ c) (mu_target_ c)
    (acceptable_counter_ c) (curr_obj_val_ c) (last_obj_val_ c)
    (last_obj_val_iter_ c).

Definition set_acceptable_counter (c : OptimalityErrorConvergenceCheck)
    (n : Index) : OptimalityErrorConvergenceCheck :=
  mkChecker (max_iterations_ c) (max_cpu_time_ c) (dual_inf_tol_ c)
    (constr_viol_tol_ c) (compl_inf_tol_ c) (acceptable_iter_ c)
    (acceptable_tol_ c) (acceptable_dual_inf_tol_ c)
    (acceptable_constr_viol_tol_ c) (acceptable_compl_inf_tol_ c)
    (acceptable_obj_change_tol_ c) (diverging_iterates_tol_ c) (mu_target_ c)
    n (curr_obj_val_ c) (last_obj_val_ c) (last_obj_val_iter_ c).

Definition set_obj_vals (c : OptimalityErrorConvergenceCheck)
    (curr last : Number) (iter : Index) : OptimalityErrorConvergenceCheck :=
  mkChecker (max_iterations_ c) (max_cpu_time_ c) (dual_inf_tol_ c)
    (constr_viol_tol_ c) (compl_inf_tol_ c) (acceptable_iter_ c)
    (acceptable_tol_ c) (acceptable_dual_inf_tol_ c)
    (acceptable_constr_viol_tol_ c) (acceptable_compl_inf_tol_ c)
    (acceptable_obj_change_tol_ c) (diverging_iterates_tol_ c) (mu_target_ c)
    (acceptable_counter_ c) curr last iter.

(** The state of one call: the checker itself and the objects behind
    [IpData()], [IpCq()], [CpuTime()] and [IpNLP()]. *)
Record CheckState : Type := mkCheckState {
  checker : OptimalityErrorConvergenceCheck;
  IpData : IpoptData;
  IpCq : IpoptCalculatedQuantities;
  CpuTime : Number;
  IpNLP : NLPState
}.

(** ** Options *)

(** [OptionsList] (IpOptionsList.hpp) is not among the sources.  The checker
    only asks it for the value of a tag under a prefix, so it is taken as the
    two lookups. *)
Record OptionsList : Type := mkOptionsList {
  GetIntegerValue : string -> string -> Index;
  GetNumericValue : string -> string -> Number
}.

(** Modelled from the spec: [RegisteredOptions] (IpRegOptions.hpp) is not among
    the sources.  An option is registered with its name, its bounds (a bound
    may be strict) and its default; the spec: an out-of-range option is
    rejected at initialization, before iterating. *)
Inductive RegisteredOption : Type :=
| OT_Integer (name : string) (lower upper : option Index) (default : Index)
| OT_Number (name : string) (lower upper : option (Number * bool))
    (default : Number).

Definition RegisteredOptions : Type := list RegisteredOption.

Definition option_name (o : RegisteredOption) : string :=
  match o with
  | OT_Integer name _ _ _ => name
  | OT_Number name _ _ _ => name
  end.

Definition AddLowerBoundedIntegerOption (roptions : RegisteredOptions)
    (name : string) (lower default : Index) : RegisteredOptions :=
  roptions ++ [OT_Integer name (Some lower) None default].

Definition AddLowerBoundedNumberOption (roptions : RegisteredOptions)
    (name : string) (lower : Number) (strict : bool) (default : Number)
    : RegisteredOptions :=
  roptions ++ [OT_Number name (Some (lower, strict)) None default].

Fixpoint GetOption (roptions : RegisteredOptions) (name : string)
    : option RegisteredOption :=
  match roptions with
  | [] => None
  | o :: rest =>
      if String.eqb (option_name o) name then Some o else GetOption rest name
  end.

(** Modelled from the spec: the range test of a registered numeric option,
    which IpRegOptions.cpp (not among the sources) performs when a value is
    set.  A value is in range when it is above the lower bound and below the
    upper bound, strictly where the bound is strict. *)
Definition IsValidNumberSetting (o : RegisteredOption) (value : Number) : bool :=
  match o with
  | OT_Number _ lower upper _ =>
      match lower with
      | Some (l, strict) => if strict then (l <? value)%num else (l <=? value)%num
      | None => true
      end
      &&
      match upper with
      | Some (u, strict) => if strict then (value <? u)%num else (value <=? u)%num
      | None => true
      end
  | OT_Integer _ _ _ _ => false
  end.

(** Modelled from the spec: setting a numeric option at initialization is
    accepted when the option is registered and the value is in its range, and
    rejected (a configuration error) otherwise. *)
Definition SetNumericValue_accepted (roptions : RegisteredOptions)
    (name : string) (value : Number) : bool :=
  match GetOption roptions name with
  | Some o => IsValidNumberSetting o value
  | None => false
  end.

Definition DefaultNumber (roptions : RegisteredOptions) (name : string)
    : option Number :=
  match GetOption roptions name with
  | Some (OT_Number _ _ _ default) => Some default
  | _ => None
  end.

Definition DefaultInteger (roptions : RegisteredOptions) (name : string)
    : option Index :=
  match GetOption roptions name with
  | Some (OT_Integer _ _ _ default) => Some default
  | _ => None
  end.

(** The descriptions, which are documentation, are not carried. *)
Definition RegisterOptions (roptions : RegisteredOptions) : RegisteredOptions :=
  let roptions := AddLowerBoundedIntegerOption roptions "max_iter" 0 3000 in
  let roptions :=
    AddLowerBoundedNumberOption roptions "max_cpu_time" (Num 0.0) true (Num 1e6) in
  let roptions :=
    AddLowerBoundedNumberOption roptions "dual_inf_tol" (Num 0) true (Num 1) in
  let roptions :=
    AddLowerBoundedNumberOption roptions "constr_viol_tol" (Num 0.0) true (Num 1e-4) in
  let roptions :=
    AddLowerBoundedNumberOption roptions "compl_inf_tol" (Num 0) true (Num 1e-4) in
  let roptions :=
    AddLowerBoundedNumberOption roptions "acceptable_tol" (Num 0) true (Num 1e-6) in
  let roptions := AddLowerBoundedIntegerOption roptions "acceptable_iter" 0 15 in
  let roptions :=
    AddLowerBoundedNumberOption roptions "acceptable_dual_inf_tol" (Num 0) true
      (Num 1e10) in
  let roptions :=
    AddLowerBoundedNumberOption roptions "acceptable_constr_viol_tol" (Num 0) true
      (Num 1e-2) in
  let roptions :=
    AddLowerBoundedNumberOption roptions "acceptable_compl_inf_tol" (Num 0) true
      (Num 1e-2) in
  let roptions :=
    AddLowerBoundedNumberOption roptions "acceptable_obj_change_tol" (Num 0) false
      (Num 1e20) in
  let roptions :=
    AddLowerBoundedNumberOption roptions "diverging_iterates_tol" (Num 0) true
      (Num 1e20) in
  AddLowerBoundedNumberOption roptions "mu_target" (Num 0) false (Num 0).

(** [last_obj_val_] is not assigned: it keeps whatever it held. *)
Definition InitializeImpl (options : OptionsList) (prefix : string)
    (this : OptimalityErrorConvergenceCheck)
    : bool * OptimalityErrorConvergenceCheck :=
  let max_iterations := GetIntegerValue options "max_iter" prefix in
  let max_cpu_time := GetNumericValue options "max_cpu_time" prefix in
  let dual_inf_tol := GetNumericValue options "dual_inf_tol" prefix in
  let constr_viol_tol := GetNumericValue options "constr_viol_tol" prefix in
  let compl_inf_tol := GetNumericValue options "compl_inf_tol" prefix in
  let acceptable_iter := GetIntegerValue options "acceptable_iter" prefix in
  let acceptable_tol := GetNumericValue options "acceptable_tol" prefix in
  let acceptable_dual_inf_tol :=
    GetNumericValue options "acceptable_dual_inf_tol" prefix in
  let acceptable_constr_viol_tol :=
    GetNumericValue options "acceptable_constr_viol_tol" prefix in
  let acceptable_compl_inf_tol :=
    GetNumericValue options "acceptable_compl_inf_tol" prefix in
  let acceptable_obj_change_tol :=
    GetNumericValue options "acceptable_obj_change_tol" prefix in
  let diverging_iterates_tol :=
    GetNumericValue options "diverging_iterates_tol" prefix in
  let mu_target := GetNumericValue options "mu_target" prefix in
  (true,
   mkChecker max_iterations max_cpu_time dual_inf_tol constr_viol_tol
     compl_inf_tol acceptable_iter acceptable_tol acceptable_dual_inf_tol
     acceptable_constr_viol_tol acceptable_compl_inf_tol
     acceptable_obj_change_tol diverging_iterates_tol mu_target
     0 (Num (-1e50)) (last_obj_val_ this) (-1)).

(** ** The intermediate callback *)

(** The step norm reported to the user: zero while no search direction has
    been computed. *)
Definition dnrm (IpData : IpoptData) : Number :=
  match delta IpData with
  | Some d =>
      match delta_x d, delta_s d with
      | Some dx, Some ds => Max (Amax dx) (Amax ds)
      | _, _ => Num 0
      end
  | None => Num 0
  end.

(** The information also used in the iteration output. *)
Definition intermediate_info (IpData : IpoptData)
    (IpCq : IpoptCalculatedQuantities) : CallBackInfo :=
  let mode := RegularMode in
  let iter := iter_count IpData in
  let inf_pr := curr_primal_infeasibility IpCq NORM_MAX in
  let inf_du := curr_dual_infeasibility IpCq NORM_MAX in
  let mu := curr_mu IpData in
  let alpha_primal := info_alpha_primal IpData in
  let alpha_dual := info_alpha_dual IpData in
  let regu_x := info_regu_x IpData in
  let unscaled_f := unscaled_curr_f IpCq in
  let ls_count := info_ls_count IpData in
  mkCallBackInfo mode iter unscaled_f inf_pr inf_du mu (dnrm IpData) regu_x
    alpha_dual alpha_primal ls_count.

(** [request_stop = !IpNLP().IntermediateCallBack(...)]: the reverse call is
    recorded, the user's state is whatever the callback leaves. *)
Definition request_stop (nlp : IpoptNLP) (st : CheckState) : bool * NLPState :=
  let info := intermediate_info (IpData st) (IpCq st) in
  let '(go_on, user) :=
    IntermediateCallBack nlp info (IpData st) (IpCq st) (user_state (IpNLP st)) in
  (negb go_on, mkNLPState user (callback_calls (IpNLP st) ++ [info])).

(** ** The two tests *)

(** The problem is square: as many variables as equality constraints. *)
Definition square (IpData : IpoptData) : bool :=
  Dim (curr_x IpData) =? Dim (curr_y_c IpData).

Definition CurrentIsAcceptable (this : OptimalityErrorConvergenceCheck)
    (IpData : IpoptData) (IpCq : IpoptCalculatedQuantities)
    : bool * OptimalityErrorConvergenceCheck :=
  let overall_error := curr_nlp_error IpCq in
  let dual_inf := unscaled_curr_dual_infeasibility IpCq NORM_MAX in
  let constr_viol := unscaled_curr_nlp_constraint_violation IpCq NORM_MAX in
  let compl_inf := unscaled_curr_complementarity IpCq (mu_target_ this) NORM_MAX in
  let this :=
    if negb (iter_count IpData =? last_obj_val_iter_ this)
    then set_obj_vals this (curr_f IpCq) (curr_obj_val_ this) (iter_count IpData)
    else this in
  let this :=
    if square IpData
    then set_acceptable_tols this (Num 1e300) (Num 1e300)
    else this in
  ((overall_error <=? acceptable_tol_ this)%num
   && (dual_inf <=? acceptable_dual_inf_tol_ this)%num
   && (constr_viol <=? acceptable_constr_viol_tol_ this)%num
   && (compl_inf <=? acceptable_compl_inf_tol_ this)%num
   && (fabs (curr_obj_val_ this - last_obj_val_ this)
         / Max (Num 1) (fabs (curr_obj_val_ this))
       <=? acceptable_obj_change_tol_ this)%num,
   this).

Definition CheckConvergence (nlp : IpoptNLP) (call_intermediate_callback : bool)
    (st : CheckState) : ConvergenceStatus * CheckState :=
  let this := checker st in
  let '(stop, nlp_state) :=
    if call_intermediate_callback then request_stop nlp st else (false, IpNLP st) in
  if stop
  then (USER_STOP, mkCheckState this (IpData st) (IpCq st) (CpuTime st) nlp_state)
  else
    let overall_error := curr_nlp_error (IpCq st) in
    let dual_inf := unscaled_curr_dual_infeasibility (IpCq st) NORM_MAX in
    let constr_viol := unscaled_curr_nlp_constraint_violation (IpCq st) NORM_MAX in
    let compl_inf :=
      unscaled_curr_complementarity (IpCq st) (mu_target_ this) NORM_MAX in
    let this :=
      if square (IpData st)
      then set_primary_tols this (Num 1e300) (Num 1e300)
      else this in
    if (overall_error <=? tol (IpData st))%num
       && (dual_inf <=? dual_inf_tol_ this)%num
       && (constr_viol <=? constr_viol_tol_ this)%num
       && (compl_inf <=? compl_inf_tol_ this)%num
    then (CONVERGED, mkCheckState this (IpData st) (IpCq st) (CpuTime st) nlp_state)
    else
      let '(acceptable, this) :=
        if acceptable_iter_ this >? 0
        then CurrentIsAcceptable this (IpData st) (IpCq st)
        else (false, this) in
      let '(reached, this, data) :=
        if acceptable
        then
          let data := Append_info_string (IpData st) "A" in
          let this := set_acceptable_counter this (acceptable_counter_ this + 1) in
          (acceptable_counter_ this >=? acceptable_iter_ this, this, data)
        else (false, set_acceptable_counter this 0, IpData st) in
      let out := mkCheckState this data (IpCq st) (CpuTime st) nlp_state in
      if reached then (CONVERGED_TO_ACCEPTABLE_POINT, out)
      else if (Amax (curr_x data) >? diverging_iterates_tol_ this)%num
      then (DIVERGING, out)
      else if iter_count data >=? max_iterations_ this
      then (MAXITER_EXCEEDED, out)
      else
        let curr_cpu_time := CpuTime st in
        if (max_cpu_time_ this <? Num 999999)%num
           && (curr_cpu_time - cpu_time_start data >? max_cpu_time_ this)%num
        then (CPUTIME_EXCEEDED, out)
        else (CONTINUE, out).

(** ** A solve as a sequence of calls

    Between two calls the algorithm moves on: every call sees the data,
    quantities and clock of its own iteration, while the checker and the
    user's side persist. *)
Record Iteration : Type := mkIteration {
  it_callback : bool;
  it_data : IpoptData;
  it_cq : IpoptCalculatedQuantities;
  it_cpu_time : Number
}.

Definition enter (this : OptimalityErrorConvergenceCheck) (n : NLPState)
    (it : Iteration) : CheckState :=
  mkCheckState this (it_data it) (it_cq it) (it_cpu_time it) n.

Fixpoint CheckConvergence_calls (nlp : IpoptNLP)
    (this : OptimalityErrorConvergenceCheck) (n : NLPState)
    (its : list Iteration)
    : list ConvergenceStatus * OptimalityErrorConvergenceCheck * NLPState :=
  match its with
  | [] => ([], this, n)
  | it :: rest =>
      let '(status, st) := CheckConvergence nlp (it_callback it) (enter this n it) in
      let '(statuses, this', n') :=
        CheckConvergence_calls nlp (checker st) (IpNLP st) rest in
      (status :: statuses, this', n')
  end.

End Checker.

Arguments Vector Number : clear implicits.
Arguments IteratesVector Number : clear implicits.
Arguments IpoptData Number : clear implicits.
Arguments IpoptCalculatedQuantities Number : clear implicits.
Arguments CallBackInfo Number : clear implicits.
Arguments IpoptNLP Number UserState : clear implicits.
Arguments NLPState Number UserState : clear implicits.
Arguments OptimalityErrorConvergenceCheck Number : clear implicits.
Arguments CheckState Number UserState : clear implicits.
Arguments OptionsList Number : clear implicits.
Arguments RegisteredOption Number : clear implicits.
Arguments RegisteredOptions Number : clear implicits.
Arguments Iteration Number : clear implicits.
Arguments mkIpoptNLP {Number UserState} _.
Arguments IntermediateCallBack {Number UserState} _ _ _ _ _.
Arguments mkNLPState {Number UserState} _ _.
Arguments user_state {Number UserState} _.
Arguments callback_calls {Number UserState} _.
Arguments mkCheckState {Number UserState} _ _ _ _ _.
Arguments checker {Number UserState} _.
Arguments IpData {Number UserState} _.
Arguments IpCq {Number UserState} _.
Arguments CpuTime {Number UserState} _.
Arguments IpNLP {Number UserState} _.
Arguments request_stop {Number ops UserState} nlp st.
Arguments CheckConvergence {Number ops UserState} nlp call_intermediate_callback st.
Arguments enter {Number UserState} this n it.
Arguments CheckConvergence_calls {Number ops UserState} nlp this n its.

(** * What a call observes

    The conditions of [CheckConvergence] by name, each the expression the
    function evaluates at that place. *)

Section Observations.

Context {Number : Type} {ops : NumberOps Number} {UserState : Type}.

Local Abbreviation Checker := (OptimalityErrorConvergenceCheck Number).
Local Abbreviation State := (CheckState Number UserState).

(** The callback is called and asks to stop. *)
Definition callback_stops (nlp : IpoptNLP Number UserState) (flag : bool)
    (st : State) : bool :=
  if flag then fst (request_stop nlp st) else false.

(** The user's side after the callback block. *)
Definition nlp_after (nlp : IpoptNLP Number UserState) (flag : bool)
    (st : State) : NLPState Number UserState :=
  if flag then snd (request_stop nlp st) else IpNLP st.

(** The checker as the primary test reads it: on a square problem the two
    tolerances have just been overwritten. *)
Definition primary_checker (st : State) : Checker :=
  if square (IpData st)
  then set_primary_tols (checker st) (Num 1e300) (Num 1e300)
  else checker st.

(** The primary convergence test: the four quantities against the tolerances
    in force. *)
Definition primary_test (st : State) : bool :=
  (curr_nlp_error (IpCq st) <=? tol (IpData st))%num
  && (unscaled_curr_dual_infeasibility (IpCq st) NORM_MAX
      <=? dual_inf_tol_ (primary_checker st))%num
  && (unscaled_curr_nlp_constraint_violation (IpCq st) NORM_MAX
      <=? constr_viol_tol_ (primary_checker st))%num
  && (unscaled_curr_complementarity (IpCq st) (mu_target_ (checker st)) NORM_MAX
      <=? compl_inf_tol_ (primary_checker st))%num.

(** The acceptable test of a call: [None] when the call does not evaluate it
    (it stops or converges before, or the heuristic is disabled), otherwise
    what [CurrentIsAcceptable] answers. *)
Definition acceptable_test (nlp : IpoptNLP Number UserState) (flag : bool)
    (st : State) : option bool :=
  if callback_stops nlp flag st then None
  else if primary_test st then None
  else if acceptable_iter_ (checker st) >? 0
  then Some (fst (CurrentIsAcceptable (primary_checker st) (IpData st) (IpCq st)))
  else None.

(** The relative change of the objective held by a checker, as the acceptable
    test computes it. *)
Definition obj_change (this : Checker) : Number :=
  (fabs (curr_obj_val_ this - last_obj_val_ this)
   / Max (Num 1) (fabs (curr_obj_val_ this)))%num.

(** The CPU time spent since the solve started. *)
Definition elapsed (st : State) : Number :=
  (CpuTime st - cpu_time_start (IpData st))%num.

(** The outcomes of the acceptable test along a sequence of calls. *)
Fixpoint acceptable_tests (nlp : IpoptNLP Number UserState) (this : Checker)
    (n : NLPState Number UserState) (its : list (Iteration Number))
    : list (option bool) :=
  match its with
  | [] => []
  | it :: rest =>
      let st := enter this n it in
      let st' := snd (CheckConvergence nlp (it_callback it) st) in
      acceptable_test nlp (it_callback it) st
      :: acceptable_tests nlp (checker st') (IpNLP st') rest
  end.

(** The three limits, tested in this order once neither test has ended the
    call. *)
Definition limits (st : State) : ConvergenceStatus :=
  if (Amax (curr_x (IpData st)) >? diverging_iterates_tol_ (checker st))%num
  then DIVERGING
  else if iter_count (IpData st) >=? max_iterations_ (checker st)
  then MAXITER_EXCEEDED
  else if (max_cpu_time_ (checker st) <? Num 999999)%num
          && (elapsed st >? max_cpu_time_ (checker st))%num
  then CPUTIME_EXCEEDED
  else CONTINUE.

(** Two states offer the same inputs to the tests: the four error quantities,
    the objective value, the primary tolerance, whether the problem is square,
    the max-norm of the primal iterate, the iteration count and the elapsed
    time agree. *)
Definition same_inputs (st1 st2 : State) : Prop :=
  curr_nlp_error (IpCq st1) = curr_nlp_error (IpCq st2)
  /\ unscaled_curr_dual_infeasibility (IpCq st1) NORM_MAX
     = unscaled_curr_dual_infeasibility (IpCq st2) NORM_MAX
  /\ unscaled_curr_nlp_constraint_violation (IpCq st1) NORM_MAX
     = unscaled_curr_nlp_constraint_violation (IpCq st2) NORM_MAX
  /\ unscaled_curr_complementarity (IpCq st1) (mu_target_ (checker st1)) NORM_MAX
     = unscaled_curr_complementarity (IpCq st2) (mu_target_ (checker st2)) NORM_MAX
  /\ curr_f (IpCq st1) = curr_f (IpCq st2)
  /\ tol (IpData st1) = tol (IpData st2)
  /\ square (IpData st1) = square (IpData st2)
  /\ Amax (curr_x (IpData st1)) = Amax (curr_x (IpData st2))
  /\ iter_count (IpData st1) = iter_count (IpData st2)
  /\ elapsed st1 = elapsed st2.

(** The same state with another checker. *)
Definition with_checker (st : State) (this : Checker) : State :=
  mkCheckState this (IpData st) (IpCq st) (CpuTime st) (IpNLP st).

End Observations.

(** * Concrete inputs

    The states the statements below are run on, written once for every
    number type. *)

Section Scenarios.

Context {Number : Type} {ops : NumberOps Number}.

(** An options list in which the user has set nothing: every lookup gives
    the registered default. *)
Definition default_options : OptionsList Number :=
  mkOptionsList
    (fun tag _ =>
       match DefaultInteger (RegisterOptions []) tag with
       | Some v => v
       | None => 0
       end)
    (fun tag _ =>
       match DefaultNumber (RegisterOptions []) tag with
       | Some v => v
       | None => Num 0
       end).

(** A checker before [InitializeImpl]: nothing in it is meaningful yet. *)
Definition blank_checker : OptimalityErrorConvergenceCheck Number :=
  mkChecker 0 (Num 0) (Num 0) (Num 0) (Num 0) 0 (Num 0) (Num 0) (Num 0) (Num 0)
    (Num 0) (Num 0) (Num 0) 0 (Num 0) (Num 0) 0.

(** The checker of a solve with the default options. *)
Definition default_checker : OptimalityErrorConvergenceCheck Number :=
  snd (InitializeImpl default_options "" blank_checker).

(** The default checker with another CPU time limit. *)
Definition checker_with_cpu_limit (limit : Number)
    : OptimalityErrorConvergenceCheck Number :=
  let c := default_checker in
  mkChecker (max_iterations_ c) limit (dual_inf_tol_ c) (constr_viol_tol_ c)
    (compl_inf_tol_ c) (acceptable_iter_ c) (acceptable_tol_ c)
    (acceptable_dual_inf_tol_ c) (acceptable_constr_viol_tol_ c)
    (acceptable_compl_inf_tol_ c) (acceptable_obj_change_tol_ c)
    (diverging_iterates_tol_ c) (mu_target_ c) (acceptable_counter_ c)
    (curr_obj_val_ c) (last_obj_val_ c) (last_obj_val_iter_ c).

(** Iteration [iter] of a problem with [n] variables, [m] equality
    constraints and the primary tolerance 1e-8; the solve started at time
    zero and no search direction is stored. *)
Definition data_at (n m : Index) (iter : Index) : IpoptData Number :=
  mkIpoptData iter (Num 1e-8) (Num 0.1) (mkVector n (Num 3)) (mkVector m (Num 0))
    None (Num 1) (Num 1) (Num 0) 1 "" (Num 0).

(** Iteration 1 of the same problem with a search direction whose parts
    have the max-norms [nx] and [ns], after another barrier update and three
    line-search trials. *)
Definition data_with_direction (nx ns : Number) : IpoptData Number :=
  mkIpoptData 1 (Num 1e-8) (Num 0.5) (mkVector 5 (Num 3)) (mkVector 2 (Num 0))
    (Some (mkIteratesVector (Some (mkVector 5 nx)) (Some (mkVector 3 ns))))
    (Num 1) (Num 1) (Num 0) 3 "" (Num 0).

(** The quantities of an iterate with objective value [f]. *)
Definition quantities (overall_error dual_inf constr_viol compl_inf f : Number)
    : IpoptCalculatedQuantities Number :=
  mkIpoptCq (fun _ => constr_viol) (fun _ => dual_inf) f f overall_error
    (fun _ => dual_inf) (fun _ => constr_viol) (fun _ _ => compl_inf).

(** A callback that lets the solve go on, and one that asks to stop; the
    user's state counts the calls. *)
Definition nlp_go : IpoptNLP Number nat :=
  mkIpoptNLP (fun _ _ _ calls => (true, S calls)).

Definition nlp_stop : IpoptNLP Number nat :=
  mkIpoptNLP (fun _ _ _ calls => (false, S calls)).

Definition no_calls : NLPState Number nat := mkNLPState 0%nat [].

(** Scenario 1 of the spec, at iteration [iter]: every quantity is 1e-9, the
    tolerances are the defaults, the problem is not square. *)
Definition scenario1 (iter : Index) : CheckState Number nat :=
  mkCheckState default_checker (data_at 5 2 iter)
    (quantities (Num 1e-9) (Num 1e-9) (Num 1e-9) (Num 1e-9) (Num 2))
    (Num 10) no_calls.

(** Scenario 1 at iteration 1 with a search direction stored, whose parts
    have the max-norms 2 and 7, and another barrier parameter. *)
Definition scenario1_with_direction : CheckState Number nat :=
  mkCheckState default_checker (data_with_direction (Num 2) (Num 7))
    (quantities (Num 1e-9) (Num 1e-9) (Num 1e-9) (Num 1e-9) (Num 2))
    (Num 10) no_calls.

(** An iterate that passes neither test (overall error 1e-5), looked at when
    the clock shows [now], by a checker with the CPU time limit [limit]. *)
Definition slow_state (limit now : Number) : CheckState Number nat :=
  mkCheckState (checker_with_cpu_limit limit) (data_at 5 2 7)
    (quantities (Num 1e-5) (Num 1e-9) (Num 1e-9) (Num 1e-9) (Num 2))
    now no_calls.

(** A square problem (3 variables, 3 equality constraints) whose dual
    infeasibility and complementarity, both 5, are far above their
    tolerances. *)
Definition square_state : CheckState Number nat :=
  mkCheckState default_checker (data_at 3 3 7)
    (quantities (Num 1e-9) (Num 5) (Num 1e-9) (Num 5) (Num 2))
    (Num 10) no_calls.

(** An iterate that is acceptable but not converged (overall error 1e-7),
    with objective value 2, at iteration [iter]. *)
Definition acceptable_iteration (iter : Index) : Iteration Number :=
  mkIteration true (data_at 5 2 iter)
    (quantities (Num 1e-7) (Num 1e-9) (Num 1e-9) (Num 1e-9) (Num 2))
    (Num 10).

(** Fifteen such iterations, numbered 1 to 15. *)
Definition fifteen_acceptable : list (Iteration Number) :=
  map (fun k => acceptable_iteration (Z.of_nat k)) (seq 1 15).

(** The checker after the first call of a solve, made at iteration 0 on an
    acceptable iterate. *)
Definition after_first_call : CheckState Number nat :=
  snd (CheckConvergence nlp_go true
         (enter default_checker no_calls (acceptable_iteration 0))).

End Scenarios.

(** * Further concrete inputs *)

Section MoreScenarios.

Context {Number : Type} {ops : NumberOps Number}.

(** Iteration [iter] of the problem of [data_at 5 2] with an iterate whose
    largest component has magnitude [amax]. *)
Definition data_with_norm (amax : Number) (iter : Index) : IpoptData Number :=
  mkIpoptData iter (Num 1e-8) (Num 0.1) (mkVector 5 amax) (mkVector 2 (Num 0))
    None (Num 1) (Num 1) (Num 0) 1 "" (Num 0).

(** Scenario 4 of the spec, made harder: a component of the iterate has
    reached 2e20, the iteration count is 5000, above [max_iter], and 200
    seconds have passed under a limit of 100. *)
Definition diverging_state : CheckState Number nat :=
  mkCheckState (checker_with_cpu_limit (Num 100)) (data_with_norm (Num 2e20) 5000)
    (quantities (Num 1e-5) (Num 1e-9) (Num 1e-9) (Num 1e-9) (Num 2))
    (Num 200) no_calls.

(** Scenario 5 of the spec, made harder: iteration 3000, the default
    [max_iter], 200 seconds after the start under a limit of 100. *)
Definition maxiter_state : CheckState Number nat :=
  mkCheckState (checker_with_cpu_limit (Num 100)) (data_at 5 2 3000)
    (quantities (Num 1e-5) (Num 1e-9) (Num 1e-9) (Num 1e-9) (Num 2))
    (Num 200) no_calls.

(** Scenario 2 of the spec: the overall error 1e-5 misses both tolerances,
    iteration 7, 10 seconds after the start. *)
Definition scenario2 : CheckState Number nat :=
  mkCheckState default_checker (data_at 5 2 7)
    (quantities (Num 1e-5) (Num 1e-9) (Num 1e-9) (Num 1e-9) (Num 2))
    (Num 10) no_calls.

(** The default checker with the acceptable heuristic disabled
    ([acceptable_iter] set to zero). *)
Definition checker_without_heuristic : OptimalityErrorConvergenceCheck Number :=
  let c := default_checker in
  mkChecker (max_iterations_ c) (max_cpu_time_ c) (dual_inf_tol_ c)
    (constr_viol_tol_ c) (compl_inf_tol_ c) 0 (acceptable_tol_ c)
    (acceptable_dual_inf_tol_ c) (acceptable_constr_viol_tol_ c)
    (acceptable_compl_inf_tol_ c) (acceptable_obj_change_tol_ c)
    (diverging_iterates_tol_ c) (mu_target_ c) 4
    (curr_obj_val_ c) (last_obj_val_ c) (last_obj_val_iter_ c).

(** An acceptable iterate looked at by a checker whose heuristic is
    disabled. *)
Definition disabled_state : CheckState Number nat :=
  enter checker_without_heuristic no_calls (acceptable_iteration 3).

(** An acceptable iterate of a square problem at iteration [iter], with the
    callback enabled or not. *)
Definition square_iteration (flag : bool) (iter : Index) : Iteration Number :=
  mkIteration flag (data_at 3 3 iter)
    (quantities (Num 1e-7) (Num 5) (Num 1e-9) (Num 5) (Num 2))
    (Num 10).

(** The state in which [after_first_call] looks at iteration [iter]. *)
Definition second_call_state (iter : Index) : CheckState Number nat :=
  enter (checker after_first_call) (IpNLP after_first_call)
    (acceptable_iteration iter).

(** A checker that has already counted 14 acceptable iterates in a row, and
    the state in which it looks at the acceptable iteration 20. *)
Definition fourteen_counted : OptimalityErrorConvergenceCheck Number :=
  set_acceptable_counter (checker after_first_call) 14.

Definition fifteenth_state : CheckState Number nat :=
  enter fourteen_counted no_calls (acceptable_iteration 20).

(** The options list in which nothing is set, except that it holds the number
    5 under a tag that is not registered. *)
Definition options_with_stray_tag : OptionsList Number :=
  mkOptionsList (GetIntegerValue default_options)
    (fun tag prefix =>
       if String.eqb tag "no_such_option" then Num 5
       else GetNumericValue default_options tag prefix).

End MoreScenarios.

(** * The BLAS wrappers

    [IpBlasDdot], [IpBlasDcopy] and [IpBlasDaxpy] (IpBlas.cpp) call the
    Fortran routine when the strides allow it and run a loop of their own
    otherwise; the loops are what is embedded, the Fortran routines are
    taken as given. *)

(** The arithmetic the loops need besides [NumberOps]. *)
Class NumberArith (Number : Type) : Type := {
  (** [a + b] *)
  num_add : Number -> Number -> Number;
  (** [a * b] *)
  num_mul : Number -> Number -> Number
}.

Notation "a + b" := (num_add a b) : num_scope.
Notation "a * b" := (num_mul a b) : num_scope.

#[export] Instance float_NumberArith : NumberArith float := {
  num_add := PrimFloat.add;
  num_mul := PrimFloat.mul
}.

Section Blas.

Context {Number : Type} {ops : NumberOps Number} {arith : NumberArith Number}.

(** Memory holds one number per address; a [Number*] is an address, and
    adding an [Index] to it moves it by that many numbers. *)
Definition Memory : Type := Z -> Number.

Definition store (mem : Memory) (p : Z) (v : Number) : Memory :=
  fun a => if a =? p then v else mem a.

(** The Fortran routines DDOT, DCOPY and DAXPY, which are not part of the
    sources. *)
Record F77 : Type := mkF77 {
  ddot : Z -> Memory -> Z -> Z -> Z -> Z -> Number;
  dcopy : Z -> Memory -> Z -> Z -> Z -> Z -> Memory;
  daxpy : Z -> Number -> Memory -> Z -> Z -> Z -> Z -> Memory
}.

(** [for( ; size; --size, x += incX, y += incY ) s += *x * *y;] with [size]
    iterations left. *)
Fixpoint Ddot_loop (size : nat) (mem : Memory) (x incX y incY : Z)
    (s : Number) : Number :=
  match size with
  | O => s
  | S size' =>
      Ddot_loop size' mem (x + incX) incX (y + incY) incY
        (s + mem x * mem y)%num
  end.

(** [for( ; size; --size, y += incY ) *y = *x;] *)
Fixpoint Dcopy_loop (size : nat) (mem : Memory) (x y incY : Z) : Memory :=
  match size with
  | O => mem
  | S size' => Dcopy_loop size' (store mem y (mem x)) x (y + incY) incY
  end.

(** [for( ; size; --size, y += incY ) *y += alpha * *x;] *)
Fixpoint Daxpy_loop (size : nat) (alpha : Number) (mem : Memory)
    (x y incY : Z) : Memory :=
  match size with
  | O => mem
  | S size' =>
      Daxpy_loop size' alpha (store mem y (mem y + alpha * mem x)%num)
        x (y + incY) incY
  end.

(** The loops count [size] down to zero.  From a negative [size] they do not
    get there (the decrement overflows first, which is undefined), so the
    call has no result: [None]. *)
Definition IpBlasDdot (f77 : F77) (mem : Memory) (size : Index) (x : Z)
    (incX : Index) (y : Z) (incY : Index) : option Number :=
  if (incX >? 0) && (incY >? 0)
  then Some (ddot f77 size mem x incX y incY)
  else if size <? 0 then None
  else Some (Ddot_loop (Z.to_nat size) mem x incX y incY (Num 0.0)).

Definition IpBlasDcopy (f77 : F77) (mem : Memory) (size : Index) (x : Z)
    (incX : Index) (y : Z) (incY : Index) : option Memory :=
  if incX >? 0
  then Some (dcopy f77 size mem x incX y incY)
  else if size <? 0 then None
  else if incY =? 1
  then Some (Dcopy_loop (Z.to_nat size) mem x y 1)
  else Some (Dcopy_loop (Z.to_nat size) mem x y incY).

Definition IpBlasDaxpy (f77 : F77) (mem : Memory) (size : Index)
    (alpha : Number) (x : Z) (incX : Index) (y : Z) (incY : Index)
    : option Memory :=
  if incX >? 0
  then Some (daxpy f77 size alpha mem x incX y incY)
  else if size <? 0 then None
  else if incY =? 1
  then Some (Daxpy_loop (Z.to_nat size) alpha mem x y 1)
  else Some (Daxpy_loop (Z.to_nat size) alpha mem x y incY).

(** The address [a] is one of the [size] addresses [y], [y + incY], ... *)
Fixpoint strided (size : nat) (y incY a : Z) : bool :=
  match size with
  | O => false
  | S size' => (a =? y) || strided size' (y + incY) incY a
  end.

(** A memory with the numbers 1 to 5 at the addresses 10 to 14 and the
    number 7 at address 0. *)
Definition sample_memory : Memory :=
  fun a =>
    if a =? 0 then Num 7
    else if (10 <=? a) && (a <=? 14) then Num (inject_Z (a - 9))
    else Num 0.

(** A memory with the number 0.1 at address 0 and the numbers 1e16, 1, -1e16
    and 3 at the addresses 10 to 13. *)
Definition rounding_memory : Memory :=
  fun a =>
    if a =? 0 then Num 0.1
    else if a =? 10 then Num 1e16
    else if a =? 11 then Num 1
    else if a =? 12 then Num (-1e16)
    else if a =? 13 then Num 3
    else Num 0.

(** A Fortran library that is never reached in the branches below. *)
Definition no_f77 : F77 :=
  mkF77 (fun _ _ _ _ _ _ => Num 0) (fun _ mem _ _ _ _ => mem)
    (fun _ _ mem _ _ _ _ => mem).

End Blas.

Arguments Memory Number : clear implicits.
Arguments F77 Number : clear implicits.

(** * What a sequence of calls leaves *)

Section MoreObservations.

Context {Number : Type} {ops : NumberOps Number} {UserState : Type}.

(** The statuses of a sequence of calls, and the checker and the user's side
    it leaves. *)
Definition statuses_of (nlp : IpoptNLP Number UserState)
    (this : OptimalityErrorConvergenceCheck Number)
    (n : NLPState Number UserState) (its : list (Iteration Number))
    : list ConvergenceStatus :=
  fst (fst (CheckConvergence_calls nlp this n its)).

Definition checker_after (nlp : IpoptNLP Number UserState)
    (this : OptimalityErrorConvergenceCheck Number)
    (n : NLPState Number UserState) (its : list (Iteration Number))
    : OptimalityErrorConvergenceCheck Number :=
  snd (fst (CheckConvergence_calls nlp this n its)).

Definition nlp_after_calls (nlp : IpoptNLP Number UserState)
    (this : OptimalityErrorConvergenceCheck Number)
    (n : NLPState Number UserState) (its : list (Iteration Number))
    : NLPState Number UserState :=
  snd (CheckConvergence_calls nlp this n its).

(** The user's state once the callback has been applied, in the order of the
    calls, to the scalars and objects of every call that enables it. *)
Fixpoint callbacks_applied (nlp : IpoptNLP Number UserState) (user : UserState)
    (its : list (Iteration Number)) : UserState :=
  match its with
  | [] => user
  | it :: rest =>
      let user' :=
        if it_callback it
        then snd (IntermediateCallBack nlp
                    (intermediate_info (it_data it) (it_cq it))
                    (it_data it) (it_cq it) user)
        else user in
      callbacks_applied nlp user' rest
  end.

(** Two options lists give every registered option the same value under a
    prefix, each looked up with the type it was registered with. *)
Definition same_registered_values (roptions : RegisteredOptions Number)
    (prefix : string) (o1 o2 : OptionsList Number) : Prop :=
  Forall
    (fun r : RegisteredOption Number =>
       match r with
       | OT_Integer name _ _ _ =>
           GetIntegerValue o1 name prefix = GetIntegerValue o2 name prefix
       | OT_Number name _ _ _ =>
           GetNumericValue o1 name prefix = GetNumericValue o2 name prefix
       end)
    roptions.

(** Two checkers hold the same options, the two pairs of tolerances that a
    square problem overwrites apart. *)
Definition same_options (c c' : OptimalityErrorConvergenceCheck Number) : Prop :=
  max_iterations_ c' = max_iterations_ c
  /\ max_cpu_time_ c' = max_cpu_time_ c
  /\ constr_viol_tol_ c' = constr_viol_tol_ c
  /\ acceptable_iter_ c' = acceptable_iter_ c
  /\ acceptable_tol_ c' = acceptable_tol_ c
  /\ acceptable_constr_viol_tol_ c' = acceptable_constr_viol_tol_ c
  /\ acceptable_obj_change_tol_ c' = acceptable_obj_change_tol_ c
  /\ diverging_iterates_tol_ c' = diverging_iterates_tol_ c
  /\ mu_target_ c' = mu_target_ c.

(** Two checkers hold the same record of the objective. *)
Definition same_objective_record (c c' : OptimalityErrorConvergenceCheck Number)
    : Prop :=
  curr_obj_val_ c' = curr_obj_val_ c
  /\ last_obj_val_ c' = last_obj_val_ c
  /\ last_obj_val_iter_ c' = last_obj_val_iter_ c.

End MoreObservations.

(** * Properties *)

(** Projections and field updates only: the literals stay folded. *)
Ltac fields :=
  cbn [fst snd negb andb orb
       checker IpData IpCq CpuTime IpNLP user_state callback_calls
       max_iterations_ max_cpu_time_ dual_inf_tol_ constr_viol_tol_
       compl_inf_tol_ acceptable_iter_ acceptable_tol_
       acceptable_dual_inf_tol_ acceptable_constr_viol_tol_
       acceptable_compl_inf_tol_ acceptable_obj_change_tol_
       diverging_iterates_tol_ mu_target_ acceptable_counter_ curr_obj_val_
       last_obj_val_ last_obj_val_iter_
       set_primary_tols set_acceptable_tols set_acceptable_counter set_obj_vals
       iter_count tol curr_mu curr_x curr_y_c delta info_alpha_primal
       info_alpha_dual info_regu_x info_ls_count info_string cpu_time_start
       Append_info_string enter it_callback it_data it_cq it_cpu_time] in *.

Section Properties.

Context {Number : Type} {ops : NumberOps Number} {UserState : Type}.

Local Abbreviation Checker := (OptimalityErrorConvergenceCheck Number).
Local Abbreviation State := (CheckState Number UserState).

(** ** The shape of a call *)

Lemma primary_checker_fields (st : State) :
  max_iterations_ (primary_checker st) = max_iterations_ (checker st)
  /\ max_cpu_time_ (primary_checker st) = max_cpu_time_ (checker st)
  /\ constr_viol_tol_ (primary_checker st) = constr_viol_tol_ (checker st)
  /\ acceptable_iter_ (primary_checker st) = acceptable_iter_ (checker st)
  /\ acceptable_counter_ (primary_checker st) = acceptable_counter_ (checker st)
  /\ mu_target_ (primary_checker st) = mu_target_ (checker st)
  /\ diverging_iterates_tol_ (primary_checker st)
     = diverging_iterates_tol_ (checker st)
  /\ curr_obj_val_ (primary_checker st) = curr_obj_val_ (checker st)
  /\ last_obj_val_iter_ (primary_checker st) = last_obj_val_iter_ (checker st).
Proof.
  unfold primary_checker. destruct (square (IpData st)); fields; repeat split.
Qed.

Lemma CurrentIsAcceptable_fields (this : Checker) (d : IpoptData Number)
    (q : IpoptCalculatedQuantities Number) :
  let this' := snd (CurrentIsAcceptable this d q) in
  max_iterations_ this' = max_iterations_ this
  /\ max_cpu_time_ this' = max_cpu_time_ this
  /\ acceptable_iter_ this' = acceptable_iter_ this
  /\ acceptable_counter_ this' = acceptable_counter_ this
  /\ diverging_iterates_tol_ this' = diverging_iterates_tol_ this
  /\ acceptable_obj_change_tol_ this' = acceptable_obj_change_tol_ this.
Proof.
  unfold CurrentIsAcceptable. fields.
  destruct (negb (iter_count d =? last_obj_val_iter_ this));
    destruct (square d); fields; repeat split.
Qed.

(** A stop request ends the call at once. *)
Lemma CheckConvergence_stop (nlp : IpoptNLP Number UserState) (flag : bool)
    (st : State) :
  callback_stops nlp flag st = true ->
  CheckConvergence nlp flag st
  = (USER_STOP,
     mkCheckState (checker st) (IpData st) (IpCq st) (CpuTime st)
       (nlp_after nlp flag st)).
Proof.
  unfold callback_stops, nlp_after, CheckConvergence. destruct flag.
  - destruct (request_stop nlp st) as [stop n]. fields. intros ->. reflexivity.
  - discriminate.
Qed.

(** Without a stop request, a passing primary test ends the call. *)
Lemma CheckConvergence_converged (nlp : IpoptNLP Number UserState) (flag : bool)
    (st : State) :
  callback_stops nlp flag st = false ->
  primary_test st = true ->
  CheckConvergence nlp flag st
  = (CONVERGED,
     mkCheckState (primary_checker st) (IpData st) (IpCq st) (CpuTime st)
       (nlp_after nlp flag st)).
Proof.
  unfold callback_stops, nlp_after, primary_test, primary_checker,
    CheckConvergence.
  destruct flag.
  - destruct (request_stop nlp st) as [stop n]. fields. intros -> H.
    destruct (square (IpData st)); fields; rewrite H; reflexivity.
  - intros _ H. destruct (square (IpData st)); fields; rewrite H; reflexivity.
Qed.

(** The status of a call, condition by condition, in the order of the source. *)
Lemma CheckConvergence_status (nlp : IpoptNLP Number UserState) (flag : bool)
    (st : State) :
  fst (CheckConvergence nlp flag st)
  = if callback_stops nlp flag st then USER_STOP
    else if primary_test st then CONVERGED
    else match acceptable_test nlp flag st with
         | Some true =>
             if acceptable_counter_ (checker st) + 1 >=? acceptable_iter_ (checker st)
             then CONVERGED_TO_ACCEPTABLE_POINT
             else limits st
         | _ => limits st
         end.
Proof.
  destruct (callback_stops nlp flag st) eqn:Hstop.
  { rewrite (CheckConvergence_stop _ _ _ Hstop). reflexivity. }
  destruct (primary_test st) eqn:Hprim.
  { rewrite (CheckConvergence_converged _ _ _ Hstop Hprim). reflexivity. }
  unfold acceptable_test. rewrite Hstop, Hprim.
  destruct (primary_checker_fields st)
    as (Hmi & Hmc & _ & Hai & Hac & Hmu & Hdt & _ & _).
  assert (Hcode :
    (curr_nlp_error (IpCq st) <=? tol (IpData st))%num
    && (unscaled_curr_dual_infeasibility (IpCq st) NORM_MAX
        <=? dual_inf_tol_ (primary_checker st))%num
    && (unscaled_curr_nlp_constraint_violation (IpCq st) NORM_MAX
        <=? constr_viol_tol_ (primary_checker st))%num
    && (unscaled_curr_complementarity (IpCq st) (mu_target_ (checker st)) NORM_MAX
        <=? compl_inf_tol_ (primary_checker st))%num = false) by exact Hprim.
  assert (Hflag :
    (if flag then request_stop nlp st else (false, IpNLP st))
    = (false, nlp_after nlp flag st)).
  { unfold callback_stops, nlp_after in *. destruct flag; [|reflexivity].
    destruct (request_stop nlp st); fields; subst; reflexivity. }
  unfold CheckConvergence. rewrite Hflag. cbv beta iota zeta.
  change (if square (IpData st)
          then set_primary_tols (checker st) (Num 1e300) (Num 1e300)
          else checker st) with (primary_checker st).
  rewrite Hcode. rewrite Hai.
  unfold limits, elapsed.
  destruct (acceptable_iter_ (checker st) >? 0).
  - pose proof (CurrentIsAcceptable_fields (primary_checker st) (IpData st) (IpCq st))
      as (Fmi & Fmc & Fai & Fac & Fdt & _).
    destruct (CurrentIsAcceptable (primary_checker st) (IpData st) (IpCq st))
      as [acc this']. fields.
    rewrite Hmi in Fmi. rewrite Hmc in Fmc. rewrite Hai in Fai.
    rewrite Hac in Fac. rewrite Hdt in Fdt.
    destruct acc; fields; rewrite ?Fmi, ?Fmc, ?Fai, ?Fac, ?Fdt.
    + destruct (acceptable_counter_ (checker st) + 1 >=? acceptable_iter_ (checker st));
        [reflexivity|].
      destruct (Amax (curr_x (IpData st)) >? diverging_iterates_tol_ (checker st))%num;
        [reflexivity|].
      destruct (iter_count (IpData st) >=? max_iterations_ (checker st));
        [reflexivity|].
      destruct ((max_cpu_time_ (checker st) <? Num 999999)%num
                && (CpuTime st - cpu_time_start (IpData st)
                    >? max_cpu_time_ (checker st))%num); reflexivity.
    + destruct (Amax (curr_x (IpData st)) >? diverging_iterates_tol_ (checker st))%num;
        [reflexivity|].
      destruct (iter_count (IpData st) >=? max_iterations_ (checker st));
        [reflexivity|].
      destruct ((max_cpu_time_ (checker st) <? Num 999999)%num
                && (CpuTime st - cpu_time_start (IpData st)
                    >? max_cpu_time_ (checker st))%num); reflexivity.
  - fields. rewrite ?Hmi, ?Hmc, ?Hdt.
    destruct (Amax (curr_x (IpData st)) >? diverging_iterates_tol_ (checker st))%num;
      [reflexivity|].
    destruct (iter_count (IpData st) >=? max_iterations_ (checker st));
      [reflexivity|].
    destruct ((max_cpu_time_ (checker st) <? Num 999999)%num
              && (CpuTime st - cpu_time_start (IpData st)
                  >? max_cpu_time_ (checker st))%num); reflexivity.
Qed.

(** The state a call leaves: the checker, the data and the user's side. *)
Lemma CheckConvergence_state (nlp : IpoptNLP Number UserState) (flag : bool)
    (st : State) :
  let st' := snd (CheckConvergence nlp flag st) in
  let after := snd (CurrentIsAcceptable (primary_checker st) (IpData st) (IpCq st)) in
  checker st'
  = (if callback_stops nlp flag st then checker st
     else if primary_test st then primary_checker st
     else match acceptable_test nlp flag st with
          | Some true =>
              set_acceptable_counter after (acceptable_counter_ (checker st) + 1)
          | Some false => set_acceptable_counter after 0
          | None => set_acceptable_counter (primary_checker st) 0
          end)
  /\ IpData st'
     = (if callback_stops nlp flag st then IpData st
        else if primary_test st then IpData st
        else match acceptable_test nlp flag st with
             | Some true => Append_info_string (IpData st) "A"
             | _ => IpData st
             end)
  /\ IpCq st' = IpCq st
  /\ CpuTime st' = CpuTime st
  /\ IpNLP st' = nlp_after nlp flag st.
Proof.
  cbv zeta.
  destruct (callback_stops nlp flag st) eqn:Hstop.
  { rewrite (CheckConvergence_stop _ _ _ Hstop). fields. repeat split. }
  destruct (primary_test st) eqn:Hprim.
  { rewrite (CheckConvergence_converged _ _ _ Hstop Hprim). fields.
    repeat split. }
  unfold acceptable_test. rewrite Hstop, Hprim.
  destruct (primary_checker_fields st)
    as (_ & _ & _ & Hai & Hac & _ & _ & _ & _).
  assert (Hcode :
    (curr_nlp_error (IpCq st) <=? tol (IpData st))%num
    && (unscaled_curr_dual_infeasibility (IpCq st) NORM_MAX
        <=? dual_inf_tol_ (primary_checker st))%num
    && (unscaled_curr_nlp_constraint_violation (IpCq st) NORM_MAX
        <=? constr_viol_tol_ (primary_checker st))%num
    && (unscaled_curr_complementarity (IpCq st) (mu_target_ (checker st)) NORM_MAX
        <=? compl_inf_tol_ (primary_checker st))%num = false) by exact Hprim.
  assert (Hflag :
    (if flag then request_stop nlp st else (false, IpNLP st))
    = (false, nlp_after nlp flag st)).
  { unfold callback_stops, nlp_after in *. destruct flag; [|reflexivity].
    destruct (request_stop nlp st); fields; subst; reflexivity. }
  unfold CheckConvergence. rewrite Hflag. cbv beta iota zeta.
  change (if square (IpData st)
          then set_primary_tols (checker st) (Num 1e300) (Num 1e300)
          else checker st) with (primary_checker st).
  rewrite Hcode. rewrite Hai.
  destruct (acceptable_iter_ (checker st) >? 0).
  - pose proof (CurrentIsAcceptable_fields (primary_checker st) (IpData st) (IpCq st))
      as (_ & _ & _ & Fac & _ & _).
    destruct (CurrentIsAcceptable (primary_checker st) (IpData st) (IpCq st))
      as [acc this']. fields. rewrite Hac in Fac.
    destruct acc; fields; rewrite ?Fac;
      repeat match goal with
        | |- context [if ?b then _ else _] => destruct b
        end; fields; repeat split.
  - repeat match goal with
      | |- context [if ?b then _ else _] => destruct b
      end; fields; repeat split.
Qed.

(** ** The user's stop request *)

(** C7: when [CheckConvergence] is called with the intermediate callback
    enabled and the callback answers that the solve shall not go on, the call
    returns USER_STOP at once.  The state it leaves is the state it found,
    except for the user's side: the checker (acceptable counter, stored
    objective values, every tolerance) and the data are untouched, the user's
    state is the one the callback left, and the one reverse call is on
    record.  This holds whatever the convergence quantities and tolerances
    are: none of them is looked at. *)
Theorem C7_user_stop_is_immediate (nlp : IpoptNLP Number UserState) (st : State) :
  let info := intermediate_info (IpData st) (IpCq st) in
  let answer :=
    IntermediateCallBack nlp info (IpData st) (IpCq st) (user_state (IpNLP st)) in
  fst answer = false ->
  CheckConvergence nlp true st
  = (USER_STOP,
     mkCheckState (checker st) (IpData st) (IpCq st) (CpuTime st)
       (mkNLPState (snd answer) (callback_calls (IpNLP st) ++ [info]))).
Proof.
  intros info answer Hanswer.
  assert (Hreq : request_stop nlp st
                 = (true, mkNLPState (snd answer) (callback_calls (IpNLP st) ++ [info]))).
  { unfold request_stop. fold info. fold answer.
    destruct answer as [go_on user]. fields. subst go_on. reflexivity. }
  rewrite (CheckConvergence_stop nlp true st).
  - unfold nlp_after. rewrite Hreq. reflexivity.
  - unfold callback_stops. rewrite Hreq. reflexivity.
Qed.

Lemma same_inputs_tests (st1 st2 : State) :
  checker st1 = checker st2 ->
  same_inputs st1 st2 ->
  primary_checker st1 = primary_checker st2
  /\ primary_test st1 = primary_test st2
  /\ CurrentIsAcceptable (primary_checker st1) (IpData st1) (IpCq st1)
     = CurrentIsAcceptable (primary_checker st2) (IpData st2) (IpCq st2)
  /\ limits st1 = limits st2.
Proof.
  intros Hc (He & Hd & Hv & Hm & Hf & Ht & Hs & Ha & Hi & Hel).
  assert (Hp : primary_checker st1 = primary_checker st2).
  { unfold primary_checker. rewrite Hs, Hc. reflexivity. }
  split; [exact Hp|]. split; [|split].
  - unfold primary_test. rewrite Hp, He, Hd, Hv, Hm, Ht. reflexivity.
  - unfold CurrentIsAcceptable. rewrite <- Hp.
    replace (mu_target_ (primary_checker st1)) with (mu_target_ (checker st1))
      by (symmetry; apply primary_checker_fields).
    rewrite He, Hd, Hv, Hf, Hs, Hi.
    replace (unscaled_curr_complementarity (IpCq st2) (mu_target_ (checker st1)) NORM_MAX)
      with (unscaled_curr_complementarity (IpCq st1) (mu_target_ (checker st1)) NORM_MAX);
      [reflexivity|].
    rewrite Hm, Hc. reflexivity.
  - unfold limits. rewrite Ha, Hi, Hel, Hc. reflexivity.
Qed.

(** C9: called with [call_intermediate_callback = false], [CheckConvergence]
    never returns USER_STOP and makes no reverse call (the record of calls and
    the user's state are as before, and the callback could be any other
    without changing anything).  Its status and the checker it leaves are
    then fixed by the checker and the inputs of the tests: two states with
    the same checker, error quantities, objective, tolerance, shape,
    iterate norm, iteration count and elapsed time give the same result,
    whatever else differs (the barrier parameter, the search direction, the
    step sizes and the other diagnostics gathered for the callback). *)
Theorem C9_without_callback (nlp : IpoptNLP Number UserState) (st : State) :
  fst (CheckConvergence nlp false st) <> USER_STOP
  /\ IpNLP (snd (CheckConvergence nlp false st)) = IpNLP st
  /\ (forall nlp' : IpoptNLP Number UserState,
        CheckConvergence nlp' false st = CheckConvergence nlp false st)
  /\ (forall (nlp2 : IpoptNLP Number UserState) (st2 : State),
        checker st2 = checker st ->
        same_inputs st2 st ->
        fst (CheckConvergence nlp2 false st2) = fst (CheckConvergence nlp false st)
        /\ checker (snd (CheckConvergence nlp2 false st2))
           = checker (snd (CheckConvergence nlp false st))).
Proof.
  split; [|split; [|split]].
  - rewrite CheckConvergence_status. unfold callback_stops.
    destruct (primary_test st); [discriminate|].
    assert (Hl : limits st <> USER_STOP).
    { unfold limits.
      repeat match goal with
        | |- context [if ?b then _ else _] => destruct b
        end; discriminate. }
    destruct (acceptable_test nlp false st) as [[|]|]; try exact Hl.
    destruct (acceptable_counter_ (checker st) + 1 >=? acceptable_iter_ (checker st));
      [discriminate|exact Hl].
  - apply (CheckConvergence_state nlp false st).
  - intros nlp'. reflexivity.
  - intros nlp2 st2 Hc Hin.
    destruct (same_inputs_tests st2 st Hc Hin) as (Hp & Ht & Ha & Hl).
    assert (Hacc : acceptable_test nlp2 false st2 = acceptable_test nlp false st).
    { unfold acceptable_test, callback_stops. rewrite Ht, Ha, Hc. reflexivity. }
    split.
    + rewrite !CheckConvergence_status. unfold callback_stops.
      rewrite Ht, Hacc, Hl, Hc. reflexivity.
    + destruct (CheckConvergence_state nlp2 false st2) as (-> & _).
      destruct (CheckConvergence_state nlp false st) as (-> & _).
      unfold callback_stops. rewrite Ht, Hacc, Ha, Hp, Hc. reflexivity.
Qed.


(** ** The primary test *)

(** C1 (as amended): whenever the primary convergence test holds and the
    iteration count is at or above [max_iter], [CheckConvergence] does not
    return MAXITER_EXCEEDED, and it returns CONVERGED provided the
    intermediate callback is not called or does not ask to stop (the stop
    request is tested before anything else). *)
Theorem C1_converged_before_maxiter (nlp : IpoptNLP Number UserState)
    (flag : bool) (st : State) :
  primary_test st = true ->
  max_iterations_ (checker st) <= iter_count (IpData st) ->
  fst (CheckConvergence nlp flag st) <> MAXITER_EXCEEDED
  /\ (callback_stops nlp flag st = false ->
      fst (CheckConvergence nlp flag st) = CONVERGED).
Proof.
  intros Hprim _. rewrite CheckConvergence_status, Hprim.
  destruct (callback_stops nlp flag st); split; congruence.
Qed.

(** C5 (as amended): when the intermediate callback is not called or does not
    ask to stop, and the overall error is at most the primary tolerance, the
    unscaled dual infeasibility at most [dual_inf_tol], the unscaled
    constraint violation at most [constr_viol_tol] and the unscaled
    complementarity at most [compl_inf_tol], the two relaxed tolerances being
    read as the test reads them (1e300 on a square problem),
    [CheckConvergence] returns CONVERGED. *)
Theorem C5_within_tolerances_converged (nlp : IpoptNLP Number UserState)
    (flag : bool) (st : State) :
  callback_stops nlp flag st = false ->
  (curr_nlp_error (IpCq st) <=? tol (IpData st))%num = true ->
  (unscaled_curr_dual_infeasibility (IpCq st) NORM_MAX
   <=? (if square (IpData st) then Num 1e300 else dual_inf_tol_ (checker st)))%num
  = true ->
  (unscaled_curr_nlp_constraint_violation (IpCq st) NORM_MAX
   <=? constr_viol_tol_ (checker st))%num = true ->
  (unscaled_curr_complementarity (IpCq st) (mu_target_ (checker st)) NORM_MAX
   <=? (if square (IpData st) then Num 1e300 else compl_inf_tol_ (checker st)))%num
  = true ->
  fst (CheckConvergence nlp flag st) = CONVERGED.
Proof.
  intros Hstop He Hd Hv Hc.
  rewrite (CheckConvergence_converged nlp flag st Hstop); [reflexivity|].
  unfold primary_test, primary_checker.
  destruct (square (IpData st)); fields; rewrite He, Hd, Hv, Hc; reflexivity.
Qed.

(** ** The time limit *)

(** The time test as the source guards it: a maximum CPU time below 999999 is
    enforced when no earlier condition ends the call; with a maximum that is
    not below 999999 the call never returns CPUTIME_EXCEEDED. *)
Lemma cputime_test_is_guarded (nlp : IpoptNLP Number UserState) (flag : bool)
    (st : State) :
  ((max_cpu_time_ (checker st) <? Num 999999)%num = true ->
   callback_stops nlp flag st = false ->
   primary_test st = false ->
   (acceptable_test nlp flag st = Some true ->
    acceptable_counter_ (checker st) + 1 < acceptable_iter_ (checker st)) ->
   (Amax (curr_x (IpData st)) >? diverging_iterates_tol_ (checker st))%num = false ->
   iter_count (IpData st) < max_iterations_ (checker st) ->
   (elapsed st >? max_cpu_time_ (checker st))%num = true ->
   fst (CheckConvergence nlp flag st) = CPUTIME_EXCEEDED)
  /\ ((max_cpu_time_ (checker st) <? Num 999999)%num = false ->
      fst (CheckConvergence nlp flag st) <> CPUTIME_EXCEEDED).
Proof.
  split.
  - intros Hmax Hstop Hprim Hacc Hdiv Hiter Htime.
    rewrite CheckConvergence_status, Hstop, Hprim.
    assert (Hl : limits st = CPUTIME_EXCEEDED).
    { unfold limits. rewrite Hdiv, Hmax, Htime.
      destruct (iter_count (IpData st) >=? max_iterations_ (checker st)) eqn:E;
        [|reflexivity].
      rewrite Z.geb_le in E. lia. }
    destruct (acceptable_test nlp flag st) as [[|]|]; try exact Hl.
    specialize (Hacc eq_refl).
    destruct (acceptable_counter_ (checker st) + 1 >=? acceptable_iter_ (checker st))
      eqn:E; [|exact Hl].
    rewrite Z.geb_le in E. lia.
  - intros Hmax. rewrite CheckConvergence_status.
    assert (Hl : limits st <> CPUTIME_EXCEEDED).
    { unfold limits. rewrite Hmax. cbn [andb].
      repeat match goal with
        | |- context [if ?b then _ else _] => destruct b
        end; discriminate. }
    destruct (callback_stops nlp flag st); [discriminate|].
    destruct (primary_test st); [discriminate|].
    destruct (acceptable_test nlp flag st) as [[|]|]; try exact Hl.
    destruct (acceptable_counter_ (checker st) + 1 >=? acceptable_iter_ (checker st));
      [discriminate|exact Hl].
Qed.

(** ** Square problems *)

Lemma limits_not_converged (st : State) :
  limits st <> CONVERGED /\ limits st <> CONVERGED_TO_ACCEPTABLE_POINT.
Proof.
  unfold limits.
  repeat match goal with
    | |- context [if ?b then _ else _] => destruct b
    end; split; discriminate.
Qed.

(** Without a stop request the call returns CONVERGED exactly when the
    primary test holds. *)
Lemma converged_iff_primary_test (nlp : IpoptNLP Number UserState) (flag : bool)
    (st : State) :
  callback_stops nlp flag st = false ->
  fst (CheckConvergence nlp flag st) = CONVERGED <-> primary_test st = true.
Proof.
  intros Hstop. rewrite CheckConvergence_status, Hstop.
  destruct (primary_test st); [tauto|].
  destruct (limits_not_converged st) as [Hl _].
  split; [|discriminate]. intros H. exfalso.
  destruct (acceptable_test nlp flag st) as [[|]|]; try (apply Hl; exact H).
  destruct (acceptable_counter_ (checker st) + 1 >=? acceptable_iter_ (checker st));
    [discriminate|apply Hl; exact H].
Qed.

Lemma square_primary_checker (st : State) (t1 t2 : Number) :
  square (IpData st) = true ->
  primary_checker (with_checker st (set_primary_tols (checker st) t1 t2))
  = primary_checker st.
Proof.
  intros Hsq. unfold primary_checker, with_checker. fields. rewrite Hsq.
  reflexivity.
Qed.

(** C3: on a square problem (as many variables as equality multipliers) the
    dual infeasibility and the complementarity are no termination criteria,
    neither in the primary test of [CheckConvergence] nor in the acceptable
    test of [CurrentIsAcceptable]: their tolerances are overwritten by 1e300.
    (1) The status does not depend on the configured [dual_inf_tol] and
    [compl_inf_tol], and (2) the answer of [CurrentIsAcceptable] does not
    depend on the configured acceptable tolerances of the two.  (3) The call
    returns CONVERGED exactly when the four quantities are within the
    primary tolerance, 1e300, [constr_viol_tol] and 1e300, and (4) the
    acceptable test compares the two quantities with 1e300 as well.  (5) So,
    for dual infeasibility and complementarity not beyond 1e300, the primary
    test is decided by the overall error and the constraint violation, and
    the acceptable test by these two and the objective-change condition. *)
Theorem C3_square_ignores_dual_inf_and_compl (nlp : IpoptNLP Number UserState)
    (flag : bool) (st : State) :
  square (IpData st) = true ->
  let overall_error := curr_nlp_error (IpCq st) in
  let dual_inf := unscaled_curr_dual_infeasibility (IpCq st) NORM_MAX in
  let constr_viol := unscaled_curr_nlp_constraint_violation (IpCq st) NORM_MAX in
  let compl_inf (this : Checker) :=
    unscaled_curr_complementarity (IpCq st) (mu_target_ this) NORM_MAX in
  let acceptable (this : Checker) :=
    CurrentIsAcceptable this (IpData st) (IpCq st) in
  (forall t1 t2 : Number,
     fst (CheckConvergence nlp flag
            (with_checker st (set_primary_tols (checker st) t1 t2)))
     = fst (CheckConvergence nlp flag st))
  /\ (forall (this : Checker) (a1 a2 : Number),
        acceptable (set_acceptable_tols this a1 a2) = acceptable this)
  /\ (callback_stops nlp flag st = false ->
      (fst (CheckConvergence nlp flag st) = CONVERGED
       <-> (overall_error <=? tol (IpData st))%num
           && (dual_inf <=? Num 1e300)%num
           && (constr_viol <=? constr_viol_tol_ (checker st))%num
           && (compl_inf (checker st) <=? Num 1e300)%num = true))
  /\ (forall this : Checker,
        fst (acceptable this)
        = (overall_error <=? acceptable_tol_ this)%num
          && (dual_inf <=? Num 1e300)%num
          && (constr_viol <=? acceptable_constr_viol_tol_ this)%num
          && (compl_inf this <=? Num 1e300)%num
          && (obj_change (snd (acceptable this))
              <=? acceptable_obj_change_tol_ this)%num)
  /\ ((dual_inf <=? Num 1e300)%num = true ->
      (forall this : Checker,
         (compl_inf this <=? Num 1e300)%num = true ->
         fst (acceptable this)
         = (overall_error <=? acceptable_tol_ this)%num
           && (constr_viol <=? acceptable_constr_viol_tol_ this)%num
           && (obj_change (snd (acceptable this))
               <=? acceptable_obj_change_tol_ this)%num)
      /\ ((compl_inf (checker st) <=? Num 1e300)%num = true ->
          callback_stops nlp flag st = false ->
          (fst (CheckConvergence nlp flag st) = CONVERGED
           <-> (overall_error <=? tol (IpData st))%num
               && (constr_viol <=? constr_viol_tol_ (checker st))%num = true))).
Proof.
  intros Hsq overall_error dual_inf constr_viol compl_inf acceptable.
  assert (Hprim : primary_test st
                  = (overall_error <=? tol (IpData st))%num
                    && (dual_inf <=? Num 1e300)%num
                    && (constr_viol <=? constr_viol_tol_ (checker st))%num
                    && (compl_inf (checker st) <=? Num 1e300)%num).
  { unfold primary_test, primary_checker. rewrite Hsq. reflexivity. }
  assert (Hacc : forall this : Checker,
            fst (acceptable this)
            = (overall_error <=? acceptable_tol_ this)%num
              && (dual_inf <=? Num 1e300)%num
              && (constr_viol <=? acceptable_constr_viol_tol_ this)%num
              && (compl_inf this <=? Num 1e300)%num
              && (obj_change (snd (acceptable this))
                  <=? acceptable_obj_change_tol_ this)%num).
  { intros this. unfold acceptable, CurrentIsAcceptable, obj_change.
    rewrite Hsq. fields.
    destruct (negb (iter_count (IpData st) =? last_obj_val_iter_ this));
      reflexivity. }
  split; [|split; [|split; [|split; [|intros Hd; split]]]].
  - intros t1 t2.
    set (st' := with_checker st (set_primary_tols (checker st) t1 t2)).
    assert (Hp : primary_checker st' = primary_checker st)
      by (apply square_primary_checker; exact Hsq).
    assert (Ht : primary_test st' = primary_test st).
    { unfold primary_test. rewrite Hp. reflexivity. }
    assert (Hs : callback_stops nlp flag st' = callback_stops nlp flag st)
      by reflexivity.
    assert (Ha : acceptable_test nlp flag st' = acceptable_test nlp flag st).
    { unfold acceptable_test. rewrite Hs, Ht, Hp. reflexivity. }
    rewrite !CheckConvergence_status, Hs, Ht, Ha. reflexivity.
  - intros this a1 a2. unfold acceptable, CurrentIsAcceptable. rewrite Hsq.
    fields.
    destruct (negb (iter_count (IpData st) =? last_obj_val_iter_ this));
      reflexivity.
  - intros Hstop.
    rewrite (converged_iff_primary_test nlp flag st Hstop), Hprim. tauto.
  - exact Hacc.
  - intros this Hc. rewrite Hacc, Hd, Hc.
    destruct (overall_error <=? acceptable_tol_ this)%num;
      destruct (constr_viol <=? acceptable_constr_viol_tol_ this)%num;
      reflexivity.
  - intros Hc Hstop.
    rewrite (converged_iff_primary_test nlp flag st Hstop), Hprim, Hd, Hc.
    destruct (overall_error <=? tol (IpData st))%num;
      destruct (constr_viol <=? constr_viol_tol_ (checker st))%num;
      cbn [andb]; tauto.
Qed.

(** ** The consecutive-acceptable counter *)

Lemma acceptable_test_evaluated (nlp : IpoptNLP Number UserState) (flag : bool)
    (st : State) (b : bool) :
  acceptable_test nlp flag st = Some b ->
  callback_stops nlp flag st = false /\ primary_test st = false.
Proof.
  unfold acceptable_test.
  destruct (callback_stops nlp flag st); [discriminate|].
  destruct (primary_test st); [discriminate|]. auto.
Qed.

(** What one call does to the counter and to the threshold. *)
Lemma call_counter (nlp : IpoptNLP Number UserState) (flag : bool) (st : State) :
  let st' := snd (CheckConvergence nlp flag st) in
  acceptable_iter_ (checker st') = acceptable_iter_ (checker st)
  /\ acceptable_counter_ (checker st')
     = (if callback_stops nlp flag st then acceptable_counter_ (checker st)
        else if primary_test st then acceptable_counter_ (checker st)
        else match acceptable_test nlp flag st with
             | Some true => acceptable_counter_ (checker st) + 1
             | _ => 0
             end).
Proof.
  cbv zeta. destruct (CheckConvergence_state nlp flag st) as (-> & _).
  destruct (primary_checker_fields st) as (_ & _ & _ & Hai & Hac & _).
  pose proof (CurrentIsAcceptable_fields (primary_checker st) (IpData st) (IpCq st))
    as (_ & _ & Fai & _).
  cbv zeta in Fai. rewrite Hai in Fai.
  destruct (callback_stops nlp flag st); [auto|].
  destruct (primary_test st); [auto|].
  destruct (acceptable_test nlp flag st) as [[|]|]; fields; auto.
Qed.

(** A call on which the acceptable test passes. *)
Lemma call_pass (nlp : IpoptNLP Number UserState) (flag : bool) (st : State) :
  acceptable_test nlp flag st = Some true ->
  (fst (CheckConvergence nlp flag st) = CONVERGED_TO_ACCEPTABLE_POINT
   <-> acceptable_iter_ (checker st) <= acceptable_counter_ (checker st) + 1)
  /\ acceptable_counter_ (checker (snd (CheckConvergence nlp flag st)))
     = acceptable_counter_ (checker st) + 1.
Proof.
  intros Hacc. destruct (acceptable_test_evaluated _ _ _ _ Hacc) as [Hs Hp].
  split.
  - rewrite CheckConvergence_status, Hs, Hp, Hacc.
    destruct (acceptable_counter_ (checker st) + 1 >=? acceptable_iter_ (checker st))
      eqn:E.
    + rewrite Z.geb_le in E. tauto.
    + assert (~ acceptable_iter_ (checker st) <= acceptable_counter_ (checker st) + 1).
      { intros H. apply Z.geb_le in H. congruence. }
      destruct (limits_not_converged st) as [_ Hl]. tauto.
  - destruct (call_counter nlp flag st) as [_ ->]. rewrite Hs, Hp, Hacc.
    reflexivity.
Qed.

(** A run of calls on each of which the acceptable test passes: the counter
    goes up by one per call, and the call number [i] (from zero) returns
    CONVERGED_TO_ACCEPTABLE_POINT exactly when the counter reaches the
    threshold there. *)
Lemma passing_run (nlp : IpoptNLP Number UserState)
    (its : list (Iteration Number)) :
  forall (this : Checker) (n : NLPState Number UserState),
    acceptable_tests nlp this n its = repeat (Some true) (List.length its) ->
    let statuses := fst (fst (CheckConvergence_calls nlp this n its)) in
    List.length statuses = List.length its
    /\ forall (i : nat) (s : ConvergenceStatus),
         nth_error statuses i = Some s ->
         (s = CONVERGED_TO_ACCEPTABLE_POINT
          <-> acceptable_iter_ this <= acceptable_counter_ this + Z.of_nat i + 1).
Proof.
  induction its as [|it rest IH]; intros this n Hall.
  - split; [reflexivity|]. intros [|i] s H; discriminate.
  - cbn [acceptable_tests List.length repeat] in Hall.
    injection Hall as Hhead Hrest.
    cbn [CheckConvergence_calls].
    destruct (call_pass nlp (it_callback it) (enter this n it) Hhead) as [Hst Hcnt].
    destruct (call_counter nlp (it_callback it) (enter this n it)) as [Hiter _].
    cbv zeta in Hiter.
    destruct (CheckConvergence nlp (it_callback it) (enter this n it))
      as [status st'] eqn:Hcall.
    rewrite ?Hcall in Hst, Hcnt, Hiter, Hrest.
    fields. specialize (IH (checker st') (IpNLP st') Hrest).
    destruct (CheckConvergence_calls nlp (checker st') (IpNLP st') rest)
      as [[statuses this'] n'].
    cbv zeta in IH. fields. destruct IH as [Hlen Hnth].
    split; [cbn [List.length]; congruence|].
    intros [|i] s Hs.
    + injection Hs as <-. rewrite Hst. cbn [Z.of_nat]. lia.
    + cbn [nth_error] in Hs. rewrite (Hnth i s Hs), Hiter, Hcnt.
      rewrite Nat2Z.inj_succ. lia.
Qed.

Lemma acceptable_tests_length (nlp : IpoptNLP Number UserState)
    (its : list (Iteration Number)) :
  forall (this : Checker) (n : NLPState Number UserState),
    List.length (acceptable_tests nlp this n its) = List.length its.
Proof.
  induction its as [|it rest IH]; intros this n; [reflexivity|].
  cbn [acceptable_tests List.length]. rewrite IH. reflexivity.
Qed.

(** Fifteen passes from a counter at zero, with the threshold at fifteen. *)
Lemma fifteen_passes (nlp : IpoptNLP Number UserState) (this : Checker)
    (n : NLPState Number UserState) (its : list (Iteration Number)) :
  acceptable_iter_ this = 15 ->
  acceptable_counter_ this = 0 ->
  acceptable_tests nlp this n its = repeat (Some true) 15 ->
  let statuses := fst (fst (CheckConvergence_calls nlp this n its)) in
  List.length statuses = 15%nat
  /\ forall (i : nat) (s : ConvergenceStatus),
       nth_error statuses i = Some s ->
       (s = CONVERGED_TO_ACCEPTABLE_POINT <-> i = 14%nat).
Proof.
  intros Hiter Hcnt Hall.
  assert (Hlen : List.length its = 15%nat).
  { rewrite <- (acceptable_tests_length nlp its this n), Hall.
    apply repeat_length. }
  rewrite <- Hlen in Hall.
  destruct (passing_run nlp its this n Hall) as [Hl Hnth].
  cbv zeta. split; [congruence|].
  intros i s Hs.
  assert (Hi : (i < 15)%nat).
  { rewrite <- Hlen, <- Hl. apply nth_error_Some. congruence. }
  rewrite (Hnth i s Hs), Hiter, Hcnt. lia.
Qed.

(** C2: with [acceptable_iter] at 15 and the counter at zero, a sequence of
    fifteen calls on each of which the acceptable test passes returns
    CONVERGED_TO_ACCEPTABLE_POINT on the fifteenth call and on none before.
    Any call leaves the threshold as it is and the counter either unchanged,
    one higher, or at zero; a call on which the acceptable test fails leaves
    the counter at exactly zero, so after it fifteen passes in a row are
    needed again. *)
Theorem C2_fifteen_consecutive_acceptable (nlp : IpoptNLP Number UserState) :
  (forall (this : Checker) (n : NLPState Number UserState)
          (its : list (Iteration Number)),
     acceptable_iter_ this = 15 ->
     acceptable_counter_ this = 0 ->
     acceptable_tests nlp this n its = repeat (Some true) 15 ->
     let statuses := fst (fst (CheckConvergence_calls nlp this n its)) in
     List.length statuses = 15%nat
     /\ forall (i : nat) (s : ConvergenceStatus),
          nth_error statuses i = Some s ->
          (s = CONVERGED_TO_ACCEPTABLE_POINT <-> i = 14%nat))
  /\ (forall (flag : bool) (st : State),
        let st' := snd (CheckConvergence nlp flag st) in
        acceptable_iter_ (checker st') = acceptable_iter_ (checker st)
        /\ (acceptable_counter_ (checker st') = acceptable_counter_ (checker st)
            \/ acceptable_counter_ (checker st') = acceptable_counter_ (checker st) + 1
            \/ acceptable_counter_ (checker st') = 0))
  /\ (forall (flag : bool) (st : State) (its : list (Iteration Number)),
        acceptable_iter_ (checker st) = 15 ->
        acceptable_test nlp flag st = Some false ->
        let st' := snd (CheckConvergence nlp flag st) in
        acceptable_counter_ (checker st') = 0
        /\ (acceptable_tests nlp (checker st') (IpNLP st') its
            = repeat (Some true) 15 ->
            let statuses :=
              fst (fst (CheckConvergence_calls nlp (checker st') (IpNLP st') its)) in
            List.length statuses = 15%nat
            /\ forall (i : nat) (s : ConvergenceStatus),
                 nth_error statuses i = Some s ->
                 (s = CONVERGED_TO_ACCEPTABLE_POINT <-> i = 14%nat))).
Proof.
  split; [|split].
  - intros this n its. apply fifteen_passes.
  - intros flag st. destruct (call_counter nlp flag st) as [Hiter Hcnt].
    cbv zeta in *. split; [exact Hiter|]. rewrite Hcnt.
    destruct (callback_stops nlp flag st); [auto|].
    destruct (primary_test st); [auto|].
    destruct (acceptable_test nlp flag st) as [[|]|]; auto.
  - intros flag st its H15 Hfail.
    destruct (acceptable_test_evaluated _ _ _ _ Hfail) as [Hs Hp].
    destruct (call_counter nlp flag st) as [Hiter Hcnt].
    cbv zeta in *. rewrite Hs, Hp, Hfail in Hcnt.
    split; [exact Hcnt|].
    apply fifteen_passes; [congruence|exact Hcnt].
Qed.

(** ** The registered range of [dual_inf_tol] *)

(** C6 (as amended): [RegisterOptions] registers [dual_inf_tol] as a number
    with the strict lower bound 0, no upper bound and the default 1; a
    configured value is accepted exactly when it is greater than 0, and any
    other value is rejected when it is set, before iterating. *)
Theorem C6_dual_inf_tol_lower_bounded (value : Number) :
  GetOption (RegisterOptions []) "dual_inf_tol"
  = Some (OT_Number "dual_inf_tol" (Some (Num 0, true)) None (Num 1))
  /\ DefaultNumber (RegisterOptions []) "dual_inf_tol" = Some (Num 1)
  /\ SetNumericValue_accepted (RegisterOptions []) "dual_inf_tol" value
     = (Num 0 <? value)%num.
Proof.
  assert (H : GetOption (RegisterOptions []) "dual_inf_tol"
              = Some (OT_Number "dual_inf_tol" (Some (Num 0, true)) None (Num 1)))
    by reflexivity.
  unfold SetNumericValue_accepted, DefaultNumber. rewrite H.
  cbn [IsValidNumberSetting]. rewrite andb_true_r. repeat split.
Qed.

(** ** The objective-change condition *)

(** What [InitializeImpl] leaves besides the options, for every number
    type. *)
Lemma InitializeImpl_sentinel (options : OptionsList Number) (prefix : string)
    (this : Checker) :
  let this' := snd (InitializeImpl options prefix this) in
  fst (InitializeImpl options prefix this) = true
  /\ acceptable_counter_ this' = 0
  /\ curr_obj_val_ this' = Num (-1e50)
  /\ last_obj_val_iter_ this' = -1
  /\ last_obj_val_ this' = last_obj_val_ this.
Proof. repeat split. Qed.

(** The acceptable test cannot pass when its objective-change condition
    fails. *)
Lemma CurrentIsAcceptable_needs_obj_change (this : Checker)
    (d : IpoptData Number) (q : IpoptCalculatedQuantities Number) :
  let r := CurrentIsAcceptable this d q in
  (obj_change (snd r) <=? acceptable_obj_change_tol_ (snd r))%num = false ->
  fst r = false.
Proof.
  cbv zeta. unfold CurrentIsAcceptable, obj_change. fields. intros ->.
  apply andb_false_r.
Qed.

(** The first evaluation after [InitializeImpl]: the stored objective value
    becomes the last one and the current objective is stored. *)
Lemma CurrentIsAcceptable_first (this : Checker) (d : IpoptData Number)
    (q : IpoptCalculatedQuantities Number) :
  last_obj_val_iter_ this = -1 ->
  0 <= iter_count d ->
  let after := snd (CurrentIsAcceptable this d q) in
  curr_obj_val_ after = curr_f q
  /\ last_obj_val_ after = curr_obj_val_ this
  /\ acceptable_obj_change_tol_ after = acceptable_obj_change_tol_ this.
Proof.
  intros Hlast Hiter. cbv zeta. unfold CurrentIsAcceptable. fields.
  assert (E : negb (iter_count d =? last_obj_val_iter_ this) = true).
  { rewrite Hlast. apply negb_true_iff, Z.eqb_neq. lia. }
  rewrite E. destruct (square d); fields; repeat split.
Qed.

End Properties.

(** * Binary64 arithmetic

    Bounds that hold for every double are proved from the specification of
    the primitive floats ([SpecFloat], [FloatAxioms]): a double is a sign, a
    mantissa of at most 53 bits and an exponent, and the operations round to
    nearest, ties to even. *)

(** ** Binary digits *)

Lemma digits2_pos_size (p : positive) : digits2_pos p = Pos.size p.
Proof. induction p as [p IH|p IH|]; cbn; congruence. Qed.

(** A positive number in [2^(n-1), 2^n) has [n] binary digits. *)
Lemma digits2_pos_bounds (p : positive) (n : Z) :
  2 ^ (n - 1) <= Zpos p < 2 ^ n -> Zpos (digits2_pos p) = n.
Proof.
  intros [Hlo Hhi]. rewrite digits2_pos_size.
  assert (Hgt : Zpos p < 2 ^ Zpos (Pos.size p)).
  { change 2 with (Zpos 2). rewrite <- Pos2Z.inj_pow. apply Pos2Z.pos_lt_pos, Pos.size_gt. }
  assert (Hle : 2 ^ Zpos (Pos.size p) <= 2 * Zpos p).
  { change (2 ^ Zpos (Pos.size p)) with (Zpos 2 ^ Zpos (Pos.size p)).
    rewrite <- Pos2Z.inj_pow. change (2 * Zpos p) with (Zpos p~0).
    apply Pos2Z.pos_le_pos, Pos.size_le. }
  assert (Hn : 0 < n).
  { destruct (Z.lt_trichotomy n 0) as [H|[H|H]]; [|subst|exact H].
    - rewrite (Z.pow_neg_r 2 n H) in Hhi. lia.
    - cbn in Hhi. lia. }
  set (d := Zpos (Pos.size p)) in *.
  destruct (Z.lt_trichotomy d n) as [H|[H|H]]; [exfalso|exact H|exfalso].
  - assert (2 ^ d <= 2 ^ (n - 1)) by (apply Z.pow_le_mono_r; lia). lia.
  - assert (2 ^ (n + 1) <= 2 ^ d) by (apply Z.pow_le_mono_r; lia).
    rewrite Z.pow_add_r in * by lia. change (2 ^ 1) with 2 in *. lia.
Qed.

(** ** Shifting to the right

    One step halves the mantissa, keeps the bit that falls off as the round
    bit and collects the earlier ones in the sticky bit. *)

Lemma shr_1_nonneg (m : Z) (r s : bool) :
  0 <= m ->
  shr_1 {| shr_m := m; shr_r := r; shr_s := s |}
  = {| shr_m := m / 2; shr_r := Z.odd m; shr_s := r || s |}.
Proof.
  intros Hm. rewrite <- Z.div2_div.
  destruct m as [|[p|p|]|p]; try reflexivity. lia.
Qed.

Lemma iter_pos_nat {A : Type} (f : A -> A) (n : positive) :
  forall x : A, iter_pos f n x = Nat.iter (Pos.to_nat n) f x.
Proof.
  induction n as [n IH|n IH|]; intros x; cbn [iter_pos].
  - rewrite !IH, Pos2Nat.inj_xI, <- Nat.iter_add, <- Nat.iter_succ_r.
    f_equal. lia.
  - rewrite !IH, Pos2Nat.inj_xO, <- Nat.iter_add. f_equal. lia.
  - reflexivity.
Qed.

Lemma mod_pow2_succ (M i : Z) :
  0 <= M -> 0 <= i ->
  negb (M mod 2 ^ (i + 1) =? 0) = Z.odd (M / 2 ^ i) || negb (M mod 2 ^ i =? 0).
Proof.
  intros HM Hi.
  assert (Hp : 0 < 2 ^ i) by (apply Z.pow_pos_nonneg; lia).
  rewrite Z.pow_add_r by lia. change (2 ^ 1) with 2.
  rewrite Z.rem_mul_r by lia.
  pose proof (Z.mod_pos_bound M (2 ^ i) Hp) as Hb.
  rewrite (Zmod_odd (M / 2 ^ i)).
  destruct (Z.odd (M / 2 ^ i)); cbn [orb].
  - apply negb_true_iff, Z.eqb_neq. lia.
  - f_equal. f_equal. lia.
Qed.

Lemma shr_1_iter (M : Z) (i : nat) :
  0 <= M ->
  Nat.iter (S i) shr_1 {| shr_m := M; shr_r := false; shr_s := false |}
  = {| shr_m := M / 2 ^ (Z.of_nat i + 1);
       shr_r := Z.odd (M / 2 ^ Z.of_nat i);
       shr_s := negb (M mod 2 ^ Z.of_nat i =? 0) |}.
Proof.
  intros HM. induction i as [|i IH].
  - cbn [Nat.iter]. rewrite shr_1_nonneg by exact HM. cbn [Z.of_nat Z.add].
    change (2 ^ 1) with 2. change (2 ^ 0) with 1.
    rewrite Z.div_1_r, Z.mod_1_r. reflexivity.
  - change (Nat.iter (S (S i)) shr_1 ?x) with (shr_1 (Nat.iter (S i) shr_1 x)).
    rewrite IH.
    assert (Hp : 0 < 2 ^ (Z.of_nat i + 1)) by (apply Z.pow_pos_nonneg; lia).
    rewrite shr_1_nonneg by (apply Z.div_pos; lia).
    rewrite Z.div_div by lia.
    replace (Z.of_nat (S i)) with (Z.of_nat i + 1) by lia.
    rewrite <- mod_pow2_succ by lia.
    replace (2 ^ (Z.of_nat i + 1 + 1)) with (2 ^ (Z.of_nat i + 1) * 2)
      by (rewrite (Z.pow_add_r 2 (Z.of_nat i + 1) 1) by lia; reflexivity).
    reflexivity.
Qed.

(** [n] steps from an exact mantissa. *)
Lemma shr_exact (M e n : Z) :
  0 <= M -> 0 < n ->
  shr {| shr_m := M; shr_r := false; shr_s := false |} e n
  = ({| shr_m := M / 2 ^ n;
        shr_r := Z.odd (M / 2 ^ (n - 1));
        shr_s := negb (M mod 2 ^ (n - 1) =? 0) |}, e + n).
Proof.
  intros HM Hn. destruct n as [|p|p]; try lia. cbn [shr].
  rewrite iter_pos_nat.
  destruct (Pos.to_nat p) as [|i] eqn:E; [lia|].
  rewrite shr_1_iter by exact HM.
  replace (Z.of_nat i + 1) with (Zpos p) by lia.
  replace (Z.of_nat i) with (Zpos p - 1) by lia.
  reflexivity.
Qed.

(** ** Rounding to nearest *)

Lemma fexp_eq (z : Z) : fexp prec emax z = Z.max (z - 53) (-1074).
Proof. reflexivity. Qed.

Lemma loc_of_shr_record_of_loc (m : Z) (l : location) :
  loc_of_shr_record (shr_record_of_loc m l) = l
  /\ shr_m (shr_record_of_loc m l) = m.
Proof. destruct l as [|[| |]]; split; reflexivity. Qed.

Lemma shr_record_of_loc_eta (m : Z) (l : location) :
  shr_record_of_loc m l
  = {| shr_m := m; shr_r := shr_r (shr_record_of_loc m l);
       shr_s := shr_s (shr_record_of_loc m l) |}.
Proof. destruct l as [|[| |]]; reflexivity. Qed.

Lemma round_nearest_even_bounds (m : Z) (l : location) :
  m <= round_nearest_even m l <= m + 1.
Proof.
  destruct l as [|[| |]]; cbn [round_nearest_even];
    try destruct (Z.even m); lia.
Qed.

(** The second half of [binary_round_aux]: a mantissa of 53 bits stays, the
    mantissa 2^53 becomes 2^52 one exponent higher. *)
Lemma renormalize (m e : Z) :
  4503599627370496 <= m <= 9007199254740992 ->
  -1074 <= e <= 970 ->
  exists (m' : positive) (e' : Z),
    (let '(mrs, e'') := shr_fexp prec emax m e loc_Exact in
     match shr_m mrs with
     | Z0 => S754_zero false
     | Zpos p => if e'' <=? emax - prec then S754_finite false p e''
                 else S754_infinity false
     | Zneg _ => S754_nan
     end) = S754_finite false m' e'
    /\ (e' = e /\ Zpos m' = m \/ e' = e + 1).
Proof.
  intros Hm He. destruct m as [|p|p]; try lia.
  destruct (Z.eq_dec (Zpos p) 9007199254740992) as [E|E].
  - injection E as ->. exists 4503599627370496%positive, (e + 1).
    split; [|right; reflexivity].
    unfold shr_fexp. cbn [Zdigits2]. rewrite fexp_eq.
    change (Zpos (digits2_pos 9007199254740992)) with 54.
    replace (Z.max (54 + e - 53) (-1074) - e) with 1 by lia.
    cbn [shr_record_of_loc shr iter_pos shr_1 shr_m].
    replace (e + 1 <=? emax - prec) with true; [reflexivity|].
    symmetry. apply Z.leb_le. change (emax - prec) with 971. lia.
  - exists p, e. split; [|left; split; reflexivity].
    unfold shr_fexp. cbn [Zdigits2]. rewrite fexp_eq.
    rewrite (digits2_pos_bounds p 53)
      by (change (2 ^ (53 - 1)) with 4503599627370496;
          change (2 ^ 53) with 9007199254740992; lia).
    replace (Z.max (53 + e - 53) (-1074) - e) with 0 by lia.
    cbn [shr_record_of_loc shr shr_m].
    replace (e <=? emax - prec) with true; [reflexivity|].
    symmetry. apply Z.leb_le. change (emax - prec) with 971. lia.
Qed.

(** Rounding to nearest never goes below the mantissa it is given. *)
Lemma binary_round_aux_lower (q e : Z) (l : location) :
  4503599627370496 <= q < 18014398509481984 ->
  -1074 <= e <= 969 ->
  exists (m' : positive) (e' : Z),
    binary_round_aux prec emax false q e l = S754_finite false m' e'
    /\ (e < e' \/ e' = e /\ q <= Zpos m').
Proof.
  intros Hq He. destruct q as [|p|p]; try lia.
  unfold binary_round_aux.
  destruct (Z_lt_le_dec (Zpos p) 9007199254740992) as [Hlt|Hge].
  - assert (E : shr_fexp prec emax (Zpos p) e l
                = (shr_record_of_loc (Zpos p) l, e)).
    { unfold shr_fexp. cbn [Zdigits2]. rewrite fexp_eq.
      rewrite (digits2_pos_bounds p 53)
        by (change (2 ^ (53 - 1)) with 4503599627370496;
            change (2 ^ 53) with 9007199254740992; lia).
      replace (Z.max (53 + e - 53) (-1074) - e) with 0 by lia. reflexivity. }
    rewrite E.
    destruct (loc_of_shr_record_of_loc (Zpos p) l) as [-> ->].
    pose proof (round_nearest_even_bounds (Zpos p) l) as Hr.
    destruct (renormalize (round_nearest_even (Zpos p) l) e) as (m' & e' & -> & H);
      [lia|lia|].
    exists m', e'. split; [reflexivity|]. lia.
  - assert (E : shr_fexp prec emax (Zpos p) e l
                = (shr_1 (shr_record_of_loc (Zpos p) l), e + 1)).
    { unfold shr_fexp. cbn [Zdigits2]. rewrite fexp_eq.
      rewrite (digits2_pos_bounds p 54)
        by (change (2 ^ (54 - 1)) with 9007199254740992;
            change (2 ^ 54) with 18014398509481984; lia).
      replace (Z.max (54 + e - 53) (-1074) - e) with 1 by lia. reflexivity. }
    rewrite E. rewrite shr_record_of_loc_eta, shr_1_nonneg by lia.
    cbn [shr_m].
    set (l' := loc_of_shr_record _).
    pose proof (round_nearest_even_bounds (Zpos p / 2) l') as Hr.
    assert (Hd : 4503599627370496 <= Zpos p / 2 < 9007199254740992).
    { split.
      - apply Z.div_le_lower_bound; lia.
      - apply Z.div_lt_upper_bound; lia. }
    destruct (renormalize (round_nearest_even (Zpos p / 2) l') (e + 1))
      as (m' & e' & -> & H); [lia|lia|].
    exists m', e'. split; [reflexivity|]. lia.
Qed.

(** An integer within 2^53 of [4814824860968090 * 2^k], [k >= 67], rounds to
    the double 1e50. *)
Lemma binary_normalize_near_1e50 (P : positive) (e : Z) :
  e <= 47 ->
  4814824860968090 * 2 ^ (114 - e) - 9007199254740992 < Zpos P
  < 4814824860968090 * 2 ^ (114 - e) + 9007199254740992 ->
  binary_normalize prec emax (Zpos P) e false
  = S754_finite false 4814824860968090 114.
Proof.
  intros He HP.
  set (k := 114 - e) in *.
  assert (Hk : 67 <= k) by lia.
  assert (HT : 2 ^ 67 <= 2 ^ k) by (apply Z.pow_le_mono_r; lia).
  change (2 ^ 67) with 147573952589676412928 in HT.
  assert (Hk1 : 2 ^ k = 2 * 2 ^ (k - 1)).
  { replace k with (1 + (k - 1)) at 1 by lia.
    rewrite Z.pow_add_r by lia. reflexivity. }
  assert (Hdig : Zpos (digits2_pos P) = 53 + k).
  { apply digits2_pos_bounds.
    replace (53 + k - 1) with (52 + k) by lia.
    rewrite !Z.pow_add_r by lia.
    change (2 ^ 52) with 4503599627370496.
    change (2 ^ 53) with 9007199254740992. lia. }
  cbn [binary_normalize]. unfold binary_round, shl_align.
  rewrite Hdig, fexp_eq.
  replace (Z.max (53 + k + e - 53) (-1074) - e) with k by lia.
  destruct k as [|pk|pk] eqn:Ek; try lia. rewrite <- Ek in *.
  unfold binary_round_aux, shr_fexp. cbn [Zdigits2]. rewrite Hdig, fexp_eq.
  replace (Z.max (53 + k + e - 53) (-1074) - e) with k by lia.
  cbn [shr_record_of_loc]. rewrite shr_exact by lia.
  cbn [shr_m loc_of_shr_record].
  replace (e + k) with 114 by lia.
  set (T := 2 ^ (k - 1)) in *.
  destruct (Z_lt_le_dec (Zpos P) (4814824860968090 * 2 ^ k)) as [Hlt|Hge].
  - (* below: the quotient is one less, and more than half is left over *)
    assert (E1 : Zpos P / 2 ^ k = 4814824860968089).
    { symmetry.
      apply (Z.div_unique _ _ _ (Zpos P - 4814824860968089 * 2 ^ k)); lia. }
    assert (E2 : Zpos P / T = 9629649721936179).
    { symmetry.
      apply (Z.div_unique _ _ _ (Zpos P - 9629649721936179 * T)); lia. }
    assert (E3 : Zpos P mod T = Zpos P - 9629649721936179 * T).
    { symmetry. apply (Z.mod_unique _ _ 9629649721936179); lia. }
    rewrite E1, E2, E3.
    replace (Zpos P - 9629649721936179 * T =? 0) with false
      by (symmetry; apply Z.eqb_neq; lia).
    reflexivity.
  - assert (E1 : Zpos P / 2 ^ k = 4814824860968090).
    { symmetry.
      apply (Z.div_unique _ _ _ (Zpos P - 4814824860968090 * 2 ^ k)); lia. }
    assert (E2 : Zpos P / T = 9629649721936180).
    { symmetry.
      apply (Z.div_unique _ _ _ (Zpos P - 9629649721936180 * T)); lia. }
    rewrite E1, E2.
    destruct (Zpos P mod T =? 0); reflexivity.
Qed.

(** The double 1e50 divided by a double in [1, 2^100). *)
Lemma SFdiv_1e50 (m2 : positive) (e2 : Z) :
  4503599627370496 <= Zpos m2 < 9007199254740992 ->
  -52 <= e2 <= 47 ->
  exists l : location,
    SFdiv prec emax (S754_finite false 4814824860968090 114)
      (S754_finite false m2 e2)
    = binary_round_aux prec emax false
        (43368086899420180669183326945280 / Zpos m2) (61 - e2) l.
Proof.
  intros Hm He.
  unfold SFdiv, SFdiv_core_binary. cbn [Zdigits2 xorb].
  change (Zpos (digits2_pos 4814824860968090)) with 53.
  rewrite (digits2_pos_bounds m2 53)
    by (change (2 ^ (53 - 1)) with 4503599627370496;
        change (2 ^ 53) with 9007199254740992; lia).
  rewrite fexp_eq.
  replace (Z.min (Z.max (53 + 114 - (53 + e2) - 53) (-1074)) (114 - e2))
    with (61 - e2) by lia.
  replace (114 - e2 - (61 - e2)) with 53 by lia.
  change (Z.shiftl 4814824860968090 53) with 43368086899420180669183326945280.
  unfold Z.div.
  destruct (IntDef.Z.div_eucl 43368086899420180669183326945280 (Zpos m2)) as [q r].
  exists (new_location (Zpos m2) r). reflexivity.
Qed.

(** ** Comparison *)

Lemma compare_cont_spec (a b : positive) :
  CompareSpec (a = b) (Zpos a < Zpos b) (Zpos b < Zpos a)
    (Pos.compare_cont Eq a b).
Proof.
  pose proof (Pos.compare_spec a b) as H. unfold Pos.compare in H.
  destruct H; constructor; lia.
Qed.

Lemma SFleb_above_1e20 (m : positive) (e : Z) (t : spec_float) :
  14 < e \/ e = 14 /\ 6103515625000000 < Zpos m ->
  SFleb t (S754_finite false 6103515625000000 14) = true ->
  SFleb (S754_finite false m e) t = false.
Proof.
  intros Hq Ht. destruct t as [s|[|]| |[|] mt et]; try reflexivity;
    try discriminate Ht.
  unfold SFleb, SFcompare in *.
  destruct (Z.compare_spec et 14) as [Het|Het|Het];
    destruct (compare_cont_spec mt 6103515625000000) as [Hm|Hm|Hm];
    try discriminate Ht;
    destruct (Z.compare_spec e et) as [He|He|He];
    destruct (compare_cont_spec m mt) as [H|H|H];
    first [reflexivity | exfalso; lia].
Qed.

Lemma digits2_pos_spec (p : positive) :
  2 ^ (Zpos (digits2_pos p) - 1) <= Zpos p < 2 ^ Zpos (digits2_pos p).
Proof.
  rewrite digits2_pos_size. split.
  - assert (Hle : 2 ^ Zpos (Pos.size p) <= 2 * Zpos p).
    { change (2 ^ Zpos (Pos.size p)) with (Zpos 2 ^ Zpos (Pos.size p)).
      rewrite <- Pos2Z.inj_pow. change (2 * Zpos p) with (Zpos p~0).
      apply Pos2Z.pos_le_pos, Pos.size_le. }
    replace (Zpos (Pos.size p)) with (1 + (Zpos (Pos.size p) - 1)) in Hle by lia.
    rewrite Z.pow_add_r in Hle by lia. change (2 ^ 1) with 2 in Hle. lia.
  - change 2 with (Zpos 2). rewrite <- Pos2Z.inj_pow.
    apply Pos2Z.pos_lt_pos, Pos.size_gt.
Qed.

(** What [valid_binary] says of a finite double. *)
Lemma bounded_spec (m : positive) (e : Z) :
  bounded prec emax m e = true ->
  Zpos m < 9007199254740992
  /\ -1074 <= e <= 971
  /\ (-1074 < e -> 4503599627370496 <= Zpos m).
Proof.
  unfold bounded, canonical_mantissa. rewrite fexp_eq.
  intros H. apply andb_true_iff in H as [Hc He].
  apply Z.eqb_eq in Hc. apply Z.leb_le in He. change (emax - prec) with 971 in He.
  pose proof (digits2_pos_spec m) as [Hlo Hhi].
  set (d := Zpos (digits2_pos m)) in *.
  assert (Hd : d <= 53) by lia.
  assert (H53 : 2 ^ d <= 2 ^ 53) by (apply Z.pow_le_mono_r; lia).
  change (2 ^ 53) with 9007199254740992 in H53.
  repeat split; try lia.
  intros Hsub. assert (E : d = 53) by lia. rewrite E in Hlo.
  change (2 ^ (53 - 1)) with 4503599627370496 in Hlo. exact Hlo.
Qed.

(** Appending [d] zero bits multiplies by [2^d]. *)
Lemma iter_xO (d p : positive) :
  Zpos (PosDef.Pos.iter xO p d) = Zpos p * 2 ^ Zpos d.
Proof.
  change (PosDef.Pos.iter xO p d) with (Pos.iter xO p d).
  induction d as [|d IH] using Pos.peano_ind.
  - change (Pos.iter xO p 1) with (p~0)%positive. change (2 ^ 1) with 2. lia.
  - rewrite Pos.iter_succ, Pos2Z.inj_succ, Z.pow_succ_r by lia.
    rewrite Pos2Z.inj_xO, IH. lia.
Qed.

(** ** The sentinel

    A double of magnitude below 2^100 minus the double -1e50 is the double
    1e50: what is added is less than a 2^14th of the last place. *)
Lemma SFsub_sentinel (s : bool) (m : positive) (e : Z) :
  Zpos m < 9007199254740992 ->
  e <= 47 ->
  SFsub prec emax (S754_finite s m e) (S754_finite true 4814824860968090 114)
  = S754_finite false 4814824860968090 114.
Proof.
  intros Hm He. unfold SFsub.
  replace (Z.min e 114) with e by lia.
  unfold shl_align. rewrite Z.sub_diag.
  destruct (e - 114) as [|d|d] eqn:Ed; try lia.
  cbn [fst cond_Zopp]. rewrite iter_xO.
  replace (Zpos d) with (114 - e) by lia.
  assert (HT : 2 ^ 67 <= 2 ^ (114 - e)) by (apply Z.pow_le_mono_r; lia).
  change (2 ^ 67) with 147573952589676412928 in HT.
  destruct (cond_Zopp s (Zpos m) - - (4814824860968090 * 2 ^ (114 - e)))
    as [|P|P] eqn:EP; [destruct s; cbn [cond_Zopp] in EP; lia | |
                       destruct s; cbn [cond_Zopp] in EP; lia].
  apply binary_normalize_near_1e50; [exact He|].
  rewrite <- EP. destruct s; cbn [cond_Zopp]; lia.
Qed.

(** The double 1e50 divided by a double in [1, 1e30) is above every number
    that is at most the double 1e20.  At the upper end the divisor is at
    most [7105427357601001 * 2^47] and the quotient at least
    [6103515625000001 * 2^14], one unit in the last place above 1e20. *)
Lemma SFdiv_sentinel (m2 : positive) (e2 : Z) (t : spec_float) :
  4503599627370496 <= Zpos m2 < 9007199254740992 ->
  -52 <= e2 <= 47 ->
  e2 < 47 \/ Zpos m2 < 7105427357601002 ->
  SFleb t (S754_finite false 6103515625000000 14) = true ->
  SFleb (SFdiv prec emax (S754_finite false 4814824860968090 114)
           (S754_finite false m2 e2)) t = false.
Proof.
  intros Hm He Hlt Ht.
  destruct (SFdiv_1e50 m2 e2 Hm He) as [l ->].
  set (q := 43368086899420180669183326945280 / Zpos m2).
  assert (Hq : 4503599627370496 <= q < 18014398509481984).
  { split.
    - apply Z.div_le_lower_bound; lia.
    - apply Z.div_lt_upper_bound; lia. }
  destruct (binary_round_aux_lower q (61 - e2) l Hq) as (m' & e' & -> & H);
    [lia|].
  apply SFleb_above_1e20; [|exact Ht].
  destruct (Z_lt_le_dec e2 47) as [He2|He2]; [left; lia|].
  assert (Hq' : 6103515625000001 <= q)
    by (apply Z.div_le_lower_bound; lia).
  lia.
Qed.

(** Both facts for a valid double [x] of magnitude below 1e30; the divisor
    is [Max(1, |x|)]. *)
Lemma sentinel_SF (x t : spec_float) :
  valid_binary x = true ->
  SFltb (SFabs x) (S754_finite false 7105427357601002 47) = true ->
  SFleb t (S754_finite false 6103515625000000 14) = true ->
  SFabs (SF64sub x (S754_finite true 4814824860968090 114))
  = S754_finite false 4814824860968090 114
  /\ SFleb
       (SF64div (S754_finite false 4814824860968090 114)
          (if SFltb (SFabs x) (S754_finite false 4503599627370496 (-52))
           then S754_finite false 4503599627370496 (-52)
           else SFabs x)) t = false.
Proof.
  intros Hv Hx Ht. unfold SF64sub, SF64div.
  destruct x as [s|s| |s m e]; try discriminate Hx.
  - split; [reflexivity|]. cbn [SFabs SFltb SFcompare].
    apply SFdiv_sentinel; [lia|lia|left; lia|exact Ht].
  - cbn [valid_binary] in Hv. apply bounded_spec in Hv as (Hm & He & Hn).
    cbn [SFabs] in *.
    assert (Hlt : e < 47 \/ e = 47 /\ Zpos m < 7105427357601002).
    { unfold SFltb, SFcompare in Hx.
      destruct (Z.compare_spec e 47) as [H|H|H]; [| |discriminate Hx].
      - destruct (compare_cont_spec m 7105427357601002) as [H'|H'|H'];
          try discriminate Hx. right. split; assumption.
      - left. exact H. }
    split.
    + rewrite SFsub_sentinel by lia. reflexivity.
    + destruct (SFltb (S754_finite false m e)
                  (S754_finite false 4503599627370496 (-52))) eqn:E.
      * apply SFdiv_sentinel; [lia|lia|left; lia|exact Ht].
      * unfold SFltb, SFcompare in E.
        destruct (Z.compare_spec e (-52)) as [H|H|H]; [|discriminate E|].
        -- destruct (compare_cont_spec m 4503599627370496) as [H'|H'|H'];
             try discriminate E;
             (apply SFdiv_sentinel; [lia|lia|lia|exact Ht]).
        -- apply SFdiv_sentinel; [|lia|lia|exact Ht].
           split; [apply Hn; lia|exact Hm].
Qed.

(** ** On the doubles of the checker *)

(** The literals of the acceptable test as sign, mantissa and exponent. *)
Lemma sentinel_literals :
  Prim2SF (Num (-1e50)) = S754_finite true 4814824860968090 114
  /\ Prim2SF (Num 1e50) = S754_finite false 4814824860968090 114
  /\ Prim2SF (Num 1e30) = S754_finite false 7105427357601002 47
  /\ Prim2SF (Num 1e20) = S754_finite false 6103515625000000 14
  /\ Prim2SF (Num 1) = S754_finite false 4503599627370496 (-52).
Proof. vm_compute. repeat split. Qed.

(** Against the stored value -1e50, for every double [f] of magnitude below
    1e30 (NaN and the infinities are not), the numerator of the relative
    change is the double 1e50 and the relative change is above every
    tolerance that is at most 1e20. *)
Lemma sentinel_obj_change (f tolerance : float) :
  (fabs f <? Num 1e30)%num = true ->
  (tolerance <=? Num 1e20)%num = true ->
  fabs (f - Num (-1e50))%num = Num 1e50
  /\ (fabs (f - Num (-1e50)) / Max (Num 1) (fabs f) <=? tolerance)%num = false.
Proof.
  destruct sentinel_literals as (Em50 & E50 & E30 & E20 & E1).
  cbn [fabs num_sub num_div num_leb num_ltb float_NumberOps].
  intros Hf Ht.
  rewrite ltb_spec, abs_spec, E30 in Hf. rewrite leb_spec, E20 in Ht.
  destruct (sentinel_SF (Prim2SF f) (Prim2SF tolerance) (Prim2SF_valid f) Hf Ht)
    as [Hnum Hdiv].
  assert (Habs : abs (f - Num (-1e50)) = Num 1e50).
  { apply Prim2SF_inj. rewrite abs_spec, sub_spec, Em50, E50. exact Hnum. }
  split; [exact Habs|].
  rewrite Habs, leb_spec, div_spec, E50.
  unfold Max. cbn [num_ltb float_NumberOps].
  rewrite ltb_spec, abs_spec, E1.
  destruct (SFltb (SFabs (Prim2SF f)) (S754_finite false 4503599627370496 (-52)));
    [rewrite E1|rewrite abs_spec]; exact Hdiv.
Qed.

(** C10: after [InitializeImpl] the stored current objective value is the
    sentinel -1e50 and the stored objective iteration is -1.  So the first
    evaluation of the acceptable test in a solve (at an iteration count that
    is not negative) measures the change of the objective [f] against the
    sentinel: the quantity is |f - (-1e50)| / Max(1, |f|).  On doubles, for
    every objective of magnitude below 1e30 the numerator is the double 1e50,
    and for every [acceptable_obj_change_tol] that is at most its default
    1e20 the objective-change condition fails there, [CurrentIsAcceptable]
    answers false, and no call of [CheckConvergence] on the freshly
    initialised checker finds the acceptable test passed. *)
Theorem C10_first_acceptable_test_fails (options : OptionsList float)
    (prefix : string) (before : OptimalityErrorConvergenceCheck float)
    (d : IpoptData float) (q : IpoptCalculatedQuantities float) :
  let this := snd (InitializeImpl options prefix before) in
  let first := CurrentIsAcceptable this d q in
  curr_obj_val_ this = Num (-1e50)
  /\ last_obj_val_iter_ this = -1
  /\ (0 <= iter_count d ->
      obj_change (snd first)
      = (fabs (curr_f q - Num (-1e50)) / Max (Num 1) (fabs (curr_f q)))%num
      /\ ((fabs (curr_f q) <? Num 1e30)%num = true ->
          obj_change (snd first)
          = (Num 1e50 / Max (Num 1) (fabs (curr_f q)))%num
          /\ ((GetNumericValue options "acceptable_obj_change_tol" prefix
               <=? Num 1e20)%num = true ->
              (obj_change (snd first) <=? acceptable_obj_change_tol_ (snd first))%num
              = false
              /\ fst first = false
              /\ forall (UserState : Type) (nlp : IpoptNLP float UserState)
                        (flag : bool) (now : float)
                        (n : NLPState float UserState),
                   acceptable_test nlp flag (mkCheckState this d q now n)
                   <> Some true))).
Proof.
  intros this first. split; [reflexivity|]. split; [reflexivity|].
  intros Hiter.
  assert (Hchange : forall c : OptimalityErrorConvergenceCheck float,
            curr_obj_val_ c = Num (-1e50) -> last_obj_val_iter_ c = -1 ->
            obj_change (snd (CurrentIsAcceptable c d q))
            = (fabs (curr_f q - Num (-1e50)) / Max (Num 1) (fabs (curr_f q)))%num
            /\ acceptable_obj_change_tol_ (snd (CurrentIsAcceptable c d q))
               = acceptable_obj_change_tol_ c).
  { intros c Hcurr Hlast.
    destruct (CurrentIsAcceptable_first c d q Hlast Hiter) as (Hc & Hl & Ht).
    unfold obj_change. rewrite Hc, Hl, Hcurr, Ht. split; reflexivity. }
  assert (Hfails : forall c : OptimalityErrorConvergenceCheck float,
            curr_obj_val_ c = Num (-1e50) -> last_obj_val_iter_ c = -1 ->
            (fabs (curr_f q) <? Num 1e30)%num = true ->
            (acceptable_obj_change_tol_ c <=? Num 1e20)%num = true ->
            (obj_change (snd (CurrentIsAcceptable c d q))
             <=? acceptable_obj_change_tol_ (snd (CurrentIsAcceptable c d q)))%num
            = false).
  { intros c Hcurr Hlast Hf Htol.
    destruct (Hchange c Hcurr Hlast) as [-> ->].
    apply sentinel_obj_change; assumption. }
  split; [apply (Hchange this); reflexivity|].
  intros Hf. split.
  { unfold first. destruct (Hchange this eq_refl eq_refl) as [-> _].
    assert (Hone : (Num 1e20 <=? Num 1e20)%num = true) by (vm_compute; reflexivity).
    destruct (sentinel_obj_change (curr_f q) (Num 1e20) Hf Hone) as [-> _].
    reflexivity. }
  intros Htol.
  split; [apply (Hfails this); [reflexivity|reflexivity|exact Hf|exact Htol]|].
  split.
  - apply CurrentIsAcceptable_needs_obj_change.
    apply (Hfails this); [reflexivity|reflexivity|exact Hf|exact Htol].
  - intros UserState nlp flag now n. unfold acceptable_test.
    destruct (callback_stops nlp flag _); [discriminate|].
    destruct (primary_test _); [discriminate|].
    destruct (_ >? 0); [|discriminate].
    set (st := mkCheckState this d q now n).
    rewrite (CurrentIsAcceptable_needs_obj_change (primary_checker st) d q);
      [discriminate|].
    apply Hfails; [| |exact Hf|].
    + unfold primary_checker. destruct (square (IpData st)); reflexivity.
    + unfold primary_checker. destruct (square (IpData st)); reflexivity.
    + unfold primary_checker. destruct (square (IpData st)); exact Htol.
Qed.

(** * The statements at concrete inputs *)

(** The literals of the source, read as binary64 by [float_of_Q], are the
    doubles the kernel reads from the same decimals. *)
Lemma float_literals :
  Num (Number:=float) 0 = 0%float
  /\ Num (Number:=float) 1 = 1%float
  /\ Num (Number:=float) 1e300 = 1e300%float
  /\ Num (Number:=float) (-1e50) = (-1e50)%float
  /\ Num (Number:=float) 999999 = 999999%float
  /\ Num (Number:=float) 1e6 = 1e6%float
  /\ Num (Number:=float) 1e-2 = 1e-2%float
  /\ Num (Number:=float) 1e-4 = 1e-4%float
  /\ Num (Number:=float) 1e-6 = 1e-6%float
  /\ Num (Number:=float) 1e-8 = 1e-8%float
  /\ Num (Number:=float) 1e-9 = 1e-9%float
  /\ Num (Number:=float) 1e10 = 1e10%float
  /\ Num (Number:=float) 1e20 = 1e20%float.
Proof. vm_compute. repeat split. Qed.

(** The first acceptable test of a solve on doubles, at an iterate that meets
    the acceptable tolerances: it fails for the objective values 0, 2 and
    plus or minus 9e29, and it passes for plus or minus 1e30. *)
Lemma first_acceptable_test_on_doubles :
  let first (f : float) :=
    CurrentIsAcceptable (Number:=float) default_checker (data_at 5 2 0)
      (quantities (Num 1e-7) (Num 1e-9) (Num 1e-9) (Num 1e-9) f) in
  fst (first 0%float) = false
  /\ fst (first 2%float) = false
  /\ fst (first 9e29%float) = false
  /\ fst (first (-9e29)%float) = false
  /\ fst (first 1e30%float) = true
  /\ fst (first (-1e30)%float) = true.
Proof. vm_compute. repeat split. Qed.

(** Scenario 1 of the spec on doubles, with a callback that lets the solve go
    on: CONVERGED, also at iteration 3000. *)
Lemma C5_witness :
  callback_stops (Number:=float) nlp_go true (scenario1 7) = false
  /\ (Num (Number:=float) 1e-9 <=? Num 1e-8)%num = true
  /\ (Num (Number:=float) 1e-9 <=? Num 1)%num = true
  /\ (Num (Number:=float) 1e-9 <=? Num 1e-4)%num = true
  /\ fst (CheckConvergence (Number:=float) nlp_go true (scenario1 7)) = CONVERGED.
Proof.
  split; [reflexivity|]. repeat (split; [vm_compute; reflexivity|]).
  apply (C5_within_tolerances_converged nlp_go true (scenario1 7));
    vm_compute; reflexivity.
Defined.

(** The same state with a callback that asks to stop: every quantity is
    within its tolerance and the call returns USER_STOP. *)
Lemma C5_counterexample :
  let st := scenario1 (Number:=float) 7 in
  (curr_nlp_error (IpCq st) <=? tol (IpData st))%num = true
  /\ (unscaled_curr_dual_infeasibility (IpCq st) NORM_MAX
      <=? dual_inf_tol_ (checker st))%num = true
  /\ (unscaled_curr_nlp_constraint_violation (IpCq st) NORM_MAX
      <=? constr_viol_tol_ (checker st))%num = true
  /\ (unscaled_curr_complementarity (IpCq st) (mu_target_ (checker st)) NORM_MAX
      <=? compl_inf_tol_ (checker st))%num = true
  /\ fst (CheckConvergence nlp_stop true st) = USER_STOP
  /\ fst (CheckConvergence nlp_stop true st) <> CONVERGED.
Proof. vm_compute. repeat split. discriminate. Qed.

Lemma C1_witness :
  let st := scenario1 (Number:=float) 3000 in
  primary_test st = true
  /\ max_iterations_ (checker st) <= iter_count (IpData st)
  /\ callback_stops nlp_go true st = false
  /\ fst (CheckConvergence nlp_go true st) = CONVERGED.
Proof.
  cbv zeta.
  assert (H1 : primary_test (scenario1 (Number:=float) 3000) = true)
    by (vm_compute; reflexivity).
  assert (H2 : max_iterations_ (checker (scenario1 (Number:=float) 3000))
               <= iter_count (IpData (scenario1 (Number:=float) 3000)))
    by (apply Z.leb_le; vm_compute; reflexivity).
  assert (H3 : callback_stops nlp_go true (scenario1 (Number:=float) 3000) = false)
    by reflexivity.
  repeat (split; [assumption|]).
  exact (proj2 (C1_converged_before_maxiter nlp_go true (scenario1 3000) H1 H2) H3).
Defined.

(** At iteration 3000, the maximum, with every quantity within its primary
    tolerance, a callback that asks to stop makes the call return
    USER_STOP. *)
Lemma C1_counterexample :
  let st := scenario1 (Number:=float) 3000 in
  primary_test st = true
  /\ (iter_count (IpData st) >=? max_iterations_ (checker st)) = true
  /\ fst (CheckConvergence nlp_stop true st) = USER_STOP
  /\ fst (CheckConvergence nlp_stop true st) <> CONVERGED.
Proof. vm_compute. repeat split. discriminate. Qed.

(** A limit of 100 seconds, 200 seconds after the start. *)
Lemma cputime_exceeded_at_100_seconds :
  let st := slow_state (Number:=float) (Num 100) (Num 200) in
  (max_cpu_time_ (checker st) <? Num 999999)%num = true
  /\ (elapsed st >? max_cpu_time_ (checker st))%num = true
  /\ fst (CheckConvergence nlp_go false st) = CPUTIME_EXCEEDED.
Proof.
  cbv zeta. split; [vm_compute; reflexivity|]. split; [vm_compute; reflexivity|].
  apply (proj1 (cputime_test_is_guarded nlp_go false
                  (slow_state (Num 100) (Num 200))));
    first [vm_compute; reflexivity | vm_compute; discriminate].
Defined.

(** C4: the code at the failing input.  [max_cpu_time] is registered with the
    description [If during the convergence check this limit is exceeded,
    Ipopt will terminate with a corresponding error message] and the default
    1e6.  With that default, 2e6 seconds after the start of the solve, at
    an iterate at which no earlier condition ends the call, the elapsed time
    exceeds the limit and [CheckConvergence] returns CONTINUE, not
    CPUTIME_EXCEEDED: the test is skipped for every limit that is not below
    999999. *)
Theorem C4_default_limit_is_not_enforced :
  let st := slow_state (Number:=float) (Num 1e6) (Num 2e6) in
  DefaultNumber (RegisterOptions (Number:=float) []) "max_cpu_time"
  = Some (max_cpu_time_ (checker st))
  /\ max_cpu_time_ (checker st) = max_cpu_time_ (default_checker (Number:=float))
  /\ callback_stops nlp_go false st = false
  /\ primary_test st = false
  /\ acceptable_test nlp_go false st = Some false
  /\ (Amax (curr_x (IpData st)) >? diverging_iterates_tol_ (checker st))%num = false
  /\ (iter_count (IpData st) >=? max_iterations_ (checker st)) = false
  /\ (elapsed st >? max_cpu_time_ (checker st))%num = true
  /\ fst (CheckConvergence nlp_go false st) = CONTINUE.
Proof. vm_compute. repeat split. Qed.

(** The value 2 is outside (0,1] and is accepted for [dual_inf_tol]. *)
Lemma C6_counterexample :
  (Num (Number:=float) 2 <=? Num 1)%num = false
  /\ SetNumericValue_accepted (Number:=float) (RegisterOptions []) "dual_inf_tol"
       (Num 2) = true.
Proof. vm_compute. split; reflexivity. Qed.

Lemma C7_witness :
  let st := scenario1 (Number:=float) 7 in
  let info := intermediate_info (IpData st) (IpCq st) in
  fst (IntermediateCallBack nlp_stop info (IpData st) (IpCq st)
         (user_state (IpNLP st))) = false
  /\ CheckConvergence nlp_stop true st
     = (USER_STOP,
        mkCheckState (checker st) (IpData st) (IpCq st) (CpuTime st)
          (mkNLPState 1%nat [info])).
Proof.
  cbv zeta. split; [reflexivity|].
  apply (C7_user_stop_is_immediate nlp_stop (scenario1 (Number:=float) 7)).
  reflexivity.
Defined.


(** Two states that differ in the stored search direction and are looked at
    through different callbacks give the same result. *)
Lemma C9_witness :
  checker (scenario1_with_direction (Number:=float)) = checker (scenario1 1)
  /\ same_inputs (scenario1_with_direction (Number:=float)) (scenario1 1)
  /\ fst (CheckConvergence nlp_stop false (scenario1_with_direction (Number:=float)))
     = fst (CheckConvergence nlp_go false (scenario1 1)).
Proof.
  assert (H1 : checker (scenario1_with_direction (Number:=float))
               = checker (scenario1 1)) by reflexivity.
  assert (H2 : same_inputs (scenario1_with_direction (Number:=float)) (scenario1 1))
    by (repeat split).
  split; [exact H1|]. split; [exact H2|].
  exact (proj1 (proj2 (proj2 (proj2 (C9_without_callback nlp_go (scenario1 1))))
                  nlp_stop scenario1_with_direction H1 H2)).
Defined.

(** On the square problem the dual infeasibility and the complementarity, 5
    each, exceed their configured tolerances, and the call returns
    CONVERGED. *)
Lemma C3_witness :
  let st := square_state (Number:=float) in
  square (IpData st) = true
  /\ (unscaled_curr_dual_infeasibility (IpCq st) NORM_MAX
      <=? dual_inf_tol_ (checker st))%num = false
  /\ fst (CheckConvergence nlp_go true st) = CONVERGED.
Proof.
  cbv zeta. split; [reflexivity|]. split; [vm_compute; reflexivity|].
  assert (Hd : (unscaled_curr_dual_infeasibility
                  (IpCq (square_state (Number:=float))) NORM_MAX
                <=? Num 1e300)%num = true) by (vm_compute; reflexivity).
  assert (Hc : (unscaled_curr_complementarity
                  (IpCq (square_state (Number:=float)))
                  (mu_target_ (checker (square_state (Number:=float)))) NORM_MAX
                <=? Num 1e300)%num = true) by (vm_compute; reflexivity).
  apply (proj2 (proj2 (proj2 (proj2 (proj2 (proj2
           (C3_square_ignores_dual_inf_and_compl nlp_go true
              (square_state (Number:=float)) eq_refl)))) Hd) Hc eq_refl)).
  vm_compute. reflexivity.
Defined.

(** A solve on doubles: the first call, at iteration 0, finds the acceptable
    test failed (the objective is compared with the sentinel); the fifteen
    calls that follow find it passed, and the fifteenth returns
    CONVERGED_TO_ACCEPTABLE_POINT. *)
Lemma C2_witness :
  let start := after_first_call (Number:=float) in
  let statuses :=
    fst (fst (CheckConvergence_calls nlp_go (checker start) (IpNLP start)
                fifteen_acceptable)) in
  acceptable_test (Number:=float) nlp_go true
    (enter default_checker no_calls (acceptable_iteration 0)) = Some false
  /\ acceptable_tests nlp_go (checker start) (IpNLP start) fifteen_acceptable
     = repeat (Some true) 15
  /\ List.length statuses = 15%nat
  /\ (forall (i : nat) (s : ConvergenceStatus),
        nth_error statuses i = Some s ->
        (s = CONVERGED_TO_ACCEPTABLE_POINT <-> i = 14%nat)).
Proof.
  cbv zeta. split; [vm_compute; reflexivity|].
  split; [vm_compute; reflexivity|].
  apply (proj1 (C2_fifteen_consecutive_acceptable (Number:=float) nlp_go));
    vm_compute; reflexivity.
Defined.

(** The first evaluation of a solve with the default options on doubles, at
    an iterate with the objective 2 that meets the acceptable tolerances. *)
Lemma C10_witness :
  let d := data_at (Number:=float) 5 2 0 in
  let q := quantities (Number:=float) (Num 1e-7) (Num 1e-9) (Num 1e-9)
             (Num 1e-9) (Num 2) in
  0 <= iter_count d
  /\ (fabs (curr_f q) <? Num 1e30)%num = true
  /\ (GetNumericValue (default_options (Number:=float))
        "acceptable_obj_change_tol" "" <=? Num 1e20)%num = true
  /\ fst (CurrentIsAcceptable (default_checker (Number:=float)) d q) = false.
Proof.
  cbv zeta.
  assert (H1 : 0 <= iter_count (data_at (Number:=float) 5 2 0))
    by (apply Z.leb_le; reflexivity).
  assert (H2 : (fabs (curr_f (quantities (Number:=float) (Num 1e-7) (Num 1e-9)
                                (Num 1e-9) (Num 1e-9) (Num 2)))
                <? Num 1e30)%num = true) by (vm_compute; reflexivity).
  assert (H3 : (GetNumericValue (default_options (Number:=float))
                  "acceptable_obj_change_tol" "" <=? Num 1e20)%num = true)
    by (vm_compute; reflexivity).
  split; [exact H1|]. split; [exact H2|]. split; [exact H3|].
  pose proof (C10_first_acceptable_test_fails default_options "" blank_checker
                (data_at 5 2 0)
                (quantities (Num 1e-7) (Num 1e-9) (Num 1e-9) (Num 1e-9) (Num 2)))
    as T.
  cbv zeta in T. destruct T as (_ & _ & T).
  destruct (T H1) as (_ & T'). destruct (T' H2) as (_ & T'').
  exact (proj1 (proj2 (T'' H3))).
Defined.

(** * Further properties of the convergence check *)

Section MoreProperties.

Context {Number : Type} {ops : NumberOps Number} {UserState : Type}.

Local Abbreviation Checker := (OptimalityErrorConvergenceCheck Number).
Local Abbreviation State := (CheckState Number UserState).

(** ** The status and its condition *)

(** What the three limits answer, and why. *)
Lemma limits_cases (st : State) :
  (limits st = DIVERGING
   /\ (Amax (curr_x (IpData st)) >? diverging_iterates_tol_ (checker st))%num = true)
  \/ (limits st = MAXITER_EXCEEDED
      /\ (Amax (curr_x (IpData st)) >? diverging_iterates_tol_ (checker st))%num
         = false
      /\ max_iterations_ (checker st) <= iter_count (IpData st))
  \/ (limits st = CPUTIME_EXCEEDED
      /\ (Amax (curr_x (IpData st)) >? diverging_iterates_tol_ (checker st))%num
         = false
      /\ iter_count (IpData st) < max_iterations_ (checker st)
      /\ (max_cpu_time_ (checker st) <? Num 999999)%num = true
      /\ (elapsed st >? max_cpu_time_ (checker st))%num = true)
  \/ (limits st = CONTINUE
      /\ (Amax (curr_x (IpData st)) >? diverging_iterates_tol_ (checker st))%num
         = false
      /\ iter_count (IpData st) < max_iterations_ (checker st)
      /\ (max_cpu_time_ (checker st) <? Num 999999)%num
         && (elapsed st >? max_cpu_time_ (checker st))%num = false).
Proof.
  unfold limits.
  destruct (Amax (curr_x (IpData st)) >? diverging_iterates_tol_ (checker st))%num;
    [left; auto|right].
  destruct (iter_count (IpData st) >=? max_iterations_ (checker st)) eqn:E.
  - left. rewrite Z.geb_le in E. auto.
  - right.
    assert (iter_count (IpData st) < max_iterations_ (checker st)).
    { destruct (Z.lt_ge_cases (iter_count (IpData st)) (max_iterations_ (checker st)))
        as [H|H]; [exact H|].
      apply Z.geb_le in H. congruence. }
    destruct ((max_cpu_time_ (checker st) <? Num 999999)%num
              && (elapsed st >? max_cpu_time_ (checker st))%num) eqn:T.
    + left. apply andb_true_iff in T. tauto.
    + right. auto.
Qed.

(** The four ways a call ends. *)
Lemma status_cases (nlp : IpoptNLP Number UserState) (flag : bool) (st : State) :
  let status := fst (CheckConvergence nlp flag st) in
  (status = USER_STOP /\ callback_stops nlp flag st = true)
  \/ (status = CONVERGED
      /\ callback_stops nlp flag st = false /\ primary_test st = true)
  \/ (status = CONVERGED_TO_ACCEPTABLE_POINT
      /\ callback_stops nlp flag st = false /\ primary_test st = false
      /\ acceptable_test nlp flag st = Some true
      /\ acceptable_iter_ (checker st) <= acceptable_counter_ (checker st) + 1)
  \/ (status = limits st
      /\ callback_stops nlp flag st = false /\ primary_test st = false
      /\ (acceptable_test nlp flag st = Some true ->
          acceptable_counter_ (checker st) + 1 < acceptable_iter_ (checker st))).
Proof.
  cbv zeta. rewrite CheckConvergence_status.
  destruct (callback_stops nlp flag st); [left; auto|right].
  destruct (primary_test st); [left; auto|right].
  destruct (acceptable_test nlp flag st) as [[|]|];
    [|right; repeat split; discriminate|right; repeat split; discriminate].
  destruct (acceptable_counter_ (checker st) + 1 >=? acceptable_iter_ (checker st))
    eqn:E.
  - left. apply Z.geb_le in E. auto.
  - right. repeat split. intros _.
    destruct (Z.lt_ge_cases (acceptable_counter_ (checker st) + 1)
                (acceptable_iter_ (checker st))) as [G|G]; [exact G|].
    apply Z.geb_le in G. congruence.
Qed.

(** X1: every status [CheckConvergence] returns is backed by its condition.
    USER_STOP: the callback was enabled and asked to stop.  CONVERGED: the
    primary test holds.  CONVERGED_TO_ACCEPTABLE_POINT: the acceptable test
    passed on this call, the threshold is positive and the counter has
    reached it.  DIVERGING: the max-norm of the iterate exceeds
    [diverging_iterates_tol].  MAXITER_EXCEEDED: the iteration count is at
    least [max_iter].  CPUTIME_EXCEEDED: the limit is below 999999 and the
    elapsed time exceeds it.  RESTORATION_FAILURE is never returned. *)
Theorem X1_status_is_justified (nlp : IpoptNLP Number UserState) (flag : bool)
    (st : State) :
  let status := fst (CheckConvergence nlp flag st) in
  (status = USER_STOP -> flag = true /\ fst (request_stop nlp st) = true)
  /\ (status = CONVERGED -> primary_test st = true)
  /\ (status = CONVERGED_TO_ACCEPTABLE_POINT ->
      acceptable_test nlp flag st = Some true
      /\ 0 < acceptable_iter_ (checker st) <= acceptable_counter_ (checker st) + 1)
  /\ (status = DIVERGING ->
      (Amax (curr_x (IpData st)) >? diverging_iterates_tol_ (checker st))%num = true)
  /\ (status = MAXITER_EXCEEDED ->
      max_iterations_ (checker st) <= iter_count (IpData st))
  /\ (status = CPUTIME_EXCEEDED ->
      (max_cpu_time_ (checker st) <? Num 999999)%num = true
      /\ (elapsed st >? max_cpu_time_ (checker st))%num = true)
  /\ status <> RESTORATION_FAILURE.
Proof.
  cbv zeta.
  assert (Hpos : acceptable_test nlp flag st = Some true ->
                 0 < acceptable_iter_ (checker st)).
  { unfold acceptable_test.
    destruct (callback_stops nlp flag st); [discriminate|].
    destruct (primary_test st); [discriminate|].
    destruct (acceptable_iter_ (checker st) >? 0) eqn:G; [|discriminate].
    intros _. apply Z.gtb_lt in G. exact G. }
  assert (Hflag : callback_stops nlp flag st = true ->
                  flag = true /\ fst (request_stop nlp st) = true).
  { unfold callback_stops. destruct flag; [auto|discriminate]. }
  destruct (status_cases nlp flag st)
    as [(-> & Hs)|[(-> & Hs & Hp)|[(-> & Hs & Hp & Ha & Hc)|(-> & Hs & Hp & Ha)]]].
  - repeat split; intros; try discriminate; apply Hflag; exact Hs.
  - repeat split; intros; try discriminate; exact Hp.
  - repeat split; intros; try discriminate; auto.
  - destruct (limits_cases st)
      as [[-> H]|[(-> & _ & H)|[(-> & _ & _ & H1 & H2)|(-> & _)]]];
      repeat split; intros; try discriminate; auto.
Qed.

(** X2: divergence is tested before the two budgets.  When the call is not
    ended by a stop request, by the primary test or by the acceptable
    counter, and the max-norm of the iterate exceeds
    [diverging_iterates_tol], it returns DIVERGING, whatever the iteration
    count and the elapsed time are. *)
Theorem X2_diverging (nlp : IpoptNLP Number UserState) (flag : bool) (st : State) :
  callback_stops nlp flag st = false ->
  primary_test st = false ->
  (acceptable_test nlp flag st = Some true ->
   acceptable_counter_ (checker st) + 1 < acceptable_iter_ (checker st)) ->
  (Amax (curr_x (IpData st)) >? diverging_iterates_tol_ (checker st))%num = true ->
  fst (CheckConvergence nlp flag st) = DIVERGING.
Proof.
  intros Hstop Hprim Hacc Hdiv.
  rewrite CheckConvergence_status, Hstop, Hprim.
  assert (Hl : limits st = DIVERGING) by (unfold limits; rewrite Hdiv; reflexivity).
  destruct (acceptable_test nlp flag st) as [[|]|]; try exact Hl.
  specialize (Hacc eq_refl).
  destruct (acceptable_counter_ (checker st) + 1 >=? acceptable_iter_ (checker st))
    eqn:E; [|exact Hl].
  rewrite Z.geb_le in E. lia.
Qed.

(** X3: the iteration budget is tested before the time budget.  When no
    earlier condition ends the call and the iterate is not diverging, an
    iteration count at or above [max_iter] gives MAXITER_EXCEEDED, whatever
    the elapsed time is. *)
Theorem X3_maxiter_exceeded (nlp : IpoptNLP Number UserState) (flag : bool)
    (st : State) :
  callback_stops nlp flag st = false ->
  primary_test st = false ->
  (acceptable_test nlp flag st = Some true ->
   acceptable_counter_ (checker st) + 1 < acceptable_iter_ (checker st)) ->
  (Amax (curr_x (IpData st)) >? diverging_iterates_tol_ (checker st))%num = false ->
  max_iterations_ (checker st) <= iter_count (IpData st) ->
  fst (CheckConvergence nlp flag st) = MAXITER_EXCEEDED.
Proof.
  intros Hstop Hprim Hacc Hdiv Hiter.
  rewrite CheckConvergence_status, Hstop, Hprim.
  assert (Hl : limits st = MAXITER_EXCEEDED).
  { unfold limits. rewrite Hdiv. apply Z.geb_le in Hiter. rewrite Hiter.
    reflexivity. }
  destruct (acceptable_test nlp flag st) as [[|]|]; try exact Hl.
  specialize (Hacc eq_refl).
  destruct (acceptable_counter_ (checker st) + 1 >=? acceptable_iter_ (checker st))
    eqn:E; [|exact Hl].
  rewrite Z.geb_le in E. lia.
Qed.

(** X4: [CheckConvergence] returns CONTINUE exactly when nothing ends the
    solve: no stop request, the primary test fails, the acceptable counter
    does not reach its threshold on this call, the iterate is not diverging,
    the iteration count is below [max_iter], and the time limit is either
    not enforced (999999 or more) or not exceeded. *)
Theorem X4_continue_iff (nlp : IpoptNLP Number UserState) (flag : bool)
    (st : State) :
  fst (CheckConvergence nlp flag st) = CONTINUE
  <-> callback_stops nlp flag st = false
      /\ primary_test st = false
      /\ (acceptable_test nlp flag st = Some true ->
          acceptable_counter_ (checker st) + 1 < acceptable_iter_ (checker st))
      /\ (Amax (curr_x (IpData st)) >? diverging_iterates_tol_ (checker st))%num
         = false
      /\ iter_count (IpData st) < max_iterations_ (checker st)
      /\ (max_cpu_time_ (checker st) <? Num 999999)%num
         && (elapsed st >? max_cpu_time_ (checker st))%num = false.
Proof.
  rewrite CheckConvergence_status.
  destruct (callback_stops nlp flag st); [split; [discriminate|intros (H & _); discriminate]|].
  destruct (primary_test st);
    [split; [discriminate|intros (_ & H & _); discriminate]|].
  assert (Hl : limits st = CONTINUE
               <-> (Amax (curr_x (IpData st)) >? diverging_iterates_tol_ (checker st))%num
                   = false
                   /\ iter_count (IpData st) < max_iterations_ (checker st)
                   /\ (max_cpu_time_ (checker st) <? Num 999999)%num
                      && (elapsed st >? max_cpu_time_ (checker st))%num = false).
  { destruct (limits_cases st)
      as [[E H]|[(E & H1 & H2)|[(E & H1 & H2 & H3 & H4)|(E & H)]]];
      rewrite E; split; try discriminate; try tauto.
    - intros (H' & _). congruence.
    - intros (_ & H' & _). lia.
    - intros (_ & _ & H'). rewrite H3, H4 in H'. discriminate. }
  destruct (acceptable_test nlp flag st) as [[|]|].
  - destruct (acceptable_counter_ (checker st) + 1 >=? acceptable_iter_ (checker st))
      eqn:E.
    + split; [discriminate|]. intros (_ & _ & H & _).
      specialize (H eq_refl). apply Z.geb_le in E. lia.
    + rewrite Hl. split; [|tauto]. intros H.
      repeat split; try tauto. intros _.
      destruct (Z.lt_ge_cases (acceptable_counter_ (checker st) + 1)
                  (acceptable_iter_ (checker st))) as [G|G]; [exact G|].
      apply Z.geb_le in G. congruence.
  - rewrite Hl. split; [|tauto]. intros H. repeat split; try tauto. discriminate.
  - rewrite Hl. split; [|tauto]. intros H. repeat split; try tauto. discriminate.
Qed.

(** ** What a call keeps *)

Lemma CurrentIsAcceptable_options (this : Checker) (d : IpoptData Number)
    (q : IpoptCalculatedQuantities Number) :
  let this' := snd (CurrentIsAcceptable this d q) in
  same_options this this'
  /\ dual_inf_tol_ this' = dual_inf_tol_ this
  /\ compl_inf_tol_ this' = compl_inf_tol_ this
  /\ acceptable_counter_ this' = acceptable_counter_ this.
Proof.
  unfold CurrentIsAcceptable, same_options. fields.
  destruct (negb (iter_count d =? last_obj_val_iter_ this));
    destruct (square d); fields; repeat split.
Qed.

Lemma primary_checker_options (st : State) :
  same_options (checker st) (primary_checker st)
  /\ same_objective_record (checker st) (primary_checker st)
  /\ acceptable_dual_inf_tol_ (primary_checker st)
     = acceptable_dual_inf_tol_ (checker st)
  /\ acceptable_compl_inf_tol_ (primary_checker st)
     = acceptable_compl_inf_tol_ (checker st)
  /\ acceptable_counter_ (primary_checker st) = acceptable_counter_ (checker st)
  /\ dual_inf_tol_ (primary_checker st)
     = (if square (IpData st) then Num 1e300 else dual_inf_tol_ (checker st))
  /\ compl_inf_tol_ (primary_checker st)
     = (if square (IpData st) then Num 1e300 else compl_inf_tol_ (checker st)).
Proof.
  unfold primary_checker, same_options, same_objective_record.
  destruct (square (IpData st)); fields; repeat split.
Qed.

Lemma same_options_trans (a b c : Checker) :
  same_options a b -> same_options b c -> same_options a c.
Proof.
  unfold same_options.
  intros (A1 & A2 & A3 & A4 & A5 & A6 & A7 & A8 & A9)
         (B1 & B2 & B3 & B4 & B5 & B6 & B7 & B8 & B9).
  repeat split; congruence.
Qed.

Lemma same_options_refl (a : Checker) : same_options a a.
Proof. unfold same_options. repeat split. Qed.

Lemma set_acceptable_counter_options (c : Checker) (k : Index) :
  same_options c (set_acceptable_counter c k)
  /\ dual_inf_tol_ (set_acceptable_counter c k) = dual_inf_tol_ c
  /\ compl_inf_tol_ (set_acceptable_counter c k) = compl_inf_tol_ c
  /\ same_objective_record c (set_acceptable_counter c k)
  /\ acceptable_dual_inf_tol_ (set_acceptable_counter c k)
     = acceptable_dual_inf_tol_ c
  /\ acceptable_compl_inf_tol_ (set_acceptable_counter c k)
     = acceptable_compl_inf_tol_ c.
Proof. unfold same_options, same_objective_record. fields. repeat split. Qed.

(** One call keeps the options, and overwrites the two primary tolerances
    with 1e300 exactly when it gets past the callback on a square problem. *)
Lemma call_options (nlp : IpoptNLP Number UserState) (flag : bool) (st : State) :
  let this' := checker (snd (CheckConvergence nlp flag st)) in
  same_options (checker st) this'
  /\ dual_inf_tol_ this'
     = (if callback_stops nlp flag st then dual_inf_tol_ (checker st)
        else if square (IpData st) then Num 1e300
        else dual_inf_tol_ (checker st))
  /\ compl_inf_tol_ this'
     = (if callback_stops nlp flag st then compl_inf_tol_ (checker st)
        else if square (IpData st) then Num 1e300
        else compl_inf_tol_ (checker st)).
Proof.
  cbv zeta. destruct (CheckConvergence_state nlp flag st) as (-> & _).
  destruct (primary_checker_options st) as (Po & _ & _ & _ & _ & Pd & Pc).
  pose proof (CurrentIsAcceptable_options (primary_checker st) (IpData st) (IpCq st))
    as (Ao & Ad & Ac & _).
  cbv zeta in Ao, Ad, Ac.
  destruct (callback_stops nlp flag st); [split; [apply same_options_refl|auto]|].
  destruct (primary_test st); [auto|].
  destruct (acceptable_test nlp flag st) as [[|]|].
  - destruct (set_acceptable_counter_options
                (snd (CurrentIsAcceptable (primary_checker st) (IpData st) (IpCq st)))
                (acceptable_counter_ (checker st) + 1)) as (So & Sd & Sc & _).
    split; [|split]; [|congruence|congruence].
    eapply same_options_trans; [exact Po|].
    eapply same_options_trans; [exact Ao|exact So].
  - destruct (set_acceptable_counter_options
                (snd (CurrentIsAcceptable (primary_checker st) (IpData st) (IpCq st)))
                0) as (So & Sd & Sc & _).
    split; [|split]; [|congruence|congruence].
    eapply same_options_trans; [exact Po|].
    eapply same_options_trans; [exact Ao|exact So].
  - destruct (set_acceptable_counter_options (primary_checker st) 0)
      as (So & Sd & Sc & _).
    split; [|split]; [|congruence|congruence].
    eapply same_options_trans; [exact Po|exact So].
Qed.

(** The checker and the user's side after one call followed by more. *)
Lemma checker_after_cons (nlp : IpoptNLP Number UserState) (this : Checker)
    (n : NLPState Number UserState) (it : Iteration Number)
    (rest : list (Iteration Number)) :
  let st' := snd (CheckConvergence nlp (it_callback it) (enter this n it)) in
  checker_after nlp this n (it :: rest)
  = checker_after nlp (checker st') (IpNLP st') rest
  /\ nlp_after_calls nlp this n (it :: rest)
     = nlp_after_calls nlp (checker st') (IpNLP st') rest
  /\ statuses_of nlp this n (it :: rest)
     = fst (CheckConvergence nlp (it_callback it) (enter this n it))
       :: statuses_of nlp (checker st') (IpNLP st') rest.
Proof.
  unfold checker_after, nlp_after_calls, statuses_of.
  cbn [CheckConvergence_calls].
  destruct (CheckConvergence nlp (it_callback it) (enter this n it)) as [s st'].
  fields.
  destruct (CheckConvergence_calls nlp (checker st') (IpNLP st') rest)
    as [[ss c'] n']. fields. repeat split.
Qed.

Lemma calls_same_options (nlp : IpoptNLP Number UserState)
    (its : list (Iteration Number)) (this : Checker)
    (n : NLPState Number UserState) :
  same_options this (checker_after nlp this n its).
Proof.
  revert this n. induction its as [|it rest IH]; intros this n.
  - apply same_options_refl.
  - destruct (checker_after_cons nlp this n it rest) as (-> & _).
    eapply same_options_trans; [|apply IH].
    apply (call_options nlp (it_callback it) (enter this n it)).
Qed.

(** X5: a sequence of calls, whatever their outcomes, never changes
    [max_iter], [max_cpu_time], [constr_viol_tol], [acceptable_iter],
    [acceptable_tol], [acceptable_constr_viol_tol],
    [acceptable_obj_change_tol], [diverging_iterates_tol] or [mu_target]. *)
Theorem X5_calls_keep_the_options (nlp : IpoptNLP Number UserState)
    (its : list (Iteration Number)) (this : Checker)
    (n : NLPState Number UserState) :
  same_options this (checker_after nlp this n its).
Proof. apply calls_same_options. Qed.

(** X6: the relaxation of a square problem is never taken back.  Once a call
    has got past the callback on a square problem, the stored [dual_inf_tol]
    and [compl_inf_tol] are 1e300, they are still 1e300 after any further
    sequence of calls, and the primary test of a later call compares the two
    quantities with 1e300 whether or not that call sees a square problem. *)
Theorem X6_relaxation_is_kept (nlp : IpoptNLP Number UserState) (flag : bool)
    (st : State) (its : list (Iteration Number)) :
  square (IpData st) = true ->
  callback_stops nlp flag st = false ->
  let st1 := snd (CheckConvergence nlp flag st) in
  let this2 := checker_after nlp (checker st1) (IpNLP st1) its in
  (dual_inf_tol_ (checker st1) = Num 1e300
   /\ compl_inf_tol_ (checker st1) = Num 1e300)
  /\ (dual_inf_tol_ this2 = Num 1e300 /\ compl_inf_tol_ this2 = Num 1e300)
  /\ (forall st2 : State,
        checker st2 = this2 ->
        primary_test st2
        = (curr_nlp_error (IpCq st2) <=? tol (IpData st2))%num
          && (unscaled_curr_dual_infeasibility (IpCq st2) NORM_MAX <=? Num 1e300)%num
          && (unscaled_curr_nlp_constraint_violation (IpCq st2) NORM_MAX
              <=? constr_viol_tol_ (checker st))%num
          && (unscaled_curr_complementarity (IpCq st2) (mu_target_ (checker st))
                NORM_MAX <=? Num 1e300)%num).
Proof.
  intros Hsq Hstop st1 this2.
  assert (H1 : dual_inf_tol_ (checker st1) = Num 1e300
               /\ compl_inf_tol_ (checker st1) = Num 1e300).
  { destruct (call_options nlp flag st) as (_ & Hd & Hc). cbv zeta in Hd, Hc.
    rewrite Hstop, Hsq in Hd, Hc. auto. }
  assert (Hkeep : forall (l : list (Iteration Number)) (c : Checker)
                         (m : NLPState Number UserState),
             dual_inf_tol_ c = Num 1e300 /\ compl_inf_tol_ c = Num 1e300 ->
             dual_inf_tol_ (checker_after nlp c m l) = Num 1e300
             /\ compl_inf_tol_ (checker_after nlp c m l) = Num 1e300).
  { induction l as [|it rest IH]; intros c m [Hd Hc]; [auto|].
    destruct (checker_after_cons nlp c m it rest) as (-> & _).
    apply IH.
    destruct (call_options nlp (it_callback it) (enter c m it)) as (_ & Hd' & Hc').
    cbv zeta in Hd', Hc'. fields.
    destruct (callback_stops nlp (it_callback it) (enter c m it));
      [split; congruence|].
    destruct (square (it_data it)); split; congruence. }
  assert (H2 := Hkeep its (checker st1) (IpNLP st1) H1). fold this2 in H2.
  split; [exact H1|]. split; [exact H2|].
  intros st2 Hst2. destruct H2 as [Hd Hc].
  assert (Ho : same_options (checker st) this2).
  { eapply same_options_trans;
      [apply (call_options nlp flag st)|apply calls_same_options]. }
  destruct Ho as (_ & _ & Hv & _ & _ & _ & _ & _ & Hm).
  destruct (primary_checker_options st2) as ((_ & _ & Pv & _) & _ & _ & _ & _ & Pd & Pc).
  unfold primary_test. rewrite Pd, Pc, Pv, Hst2, Hd, Hc, Hv, Hm.
  destruct (square (IpData st2)); reflexivity.
Qed.

(** X7: with [acceptable_iter] at zero (or below) the acceptable heuristic is
    off.  The call never returns CONVERGED_TO_ACCEPTABLE_POINT and never
    evaluates [CurrentIsAcceptable]: the record of the objective and the
    acceptable tolerances stay as they are and no "A" is appended to the
    info string; and unless the call ends with USER_STOP or CONVERGED the
    counter is set to zero. *)
Theorem X7_heuristic_disabled (nlp : IpoptNLP Number UserState) (flag : bool)
    (st : State) :
  acceptable_iter_ (checker st) <= 0 ->
  let st' := snd (CheckConvergence nlp flag st) in
  fst (CheckConvergence nlp flag st) <> CONVERGED_TO_ACCEPTABLE_POINT
  /\ acceptable_test nlp flag st = None
  /\ same_objective_record (checker st) (checker st')
  /\ acceptable_dual_inf_tol_ (checker st') = acceptable_dual_inf_tol_ (checker st)
  /\ acceptable_compl_inf_tol_ (checker st') = acceptable_compl_inf_tol_ (checker st)
  /\ IpData st' = IpData st
  /\ (callback_stops nlp flag st = false -> primary_test st = false ->
      acceptable_counter_ (checker st') = 0).
Proof.
  intros Hoff. cbv zeta.
  assert (Hnone : acceptable_test nlp flag st = None).
  { unfold acceptable_test.
    destruct (callback_stops nlp flag st); [reflexivity|].
    destruct (primary_test st); [reflexivity|].
    destruct (acceptable_iter_ (checker st) >? 0) eqn:G; [|reflexivity].
    apply Z.gtb_lt in G. lia. }
  split.
  { destruct (status_cases nlp flag st)
      as [(-> & _)|[(-> & _)|[(_ & _ & _ & Ha & _)|(-> & _)]]];
      try discriminate; [congruence|apply limits_not_converged]. }
  split; [exact Hnone|].
  destruct (CheckConvergence_state nlp flag st) as (-> & -> & _).
  destruct (primary_checker_options st) as (_ & Po & Pd & Pc & _).
  destruct (set_acceptable_counter_options (primary_checker st) 0)
    as (_ & _ & _ & So & Sd & Sc).
  rewrite Hnone.
  destruct (callback_stops nlp flag st);
    [unfold same_objective_record; repeat split; discriminate|].
  destruct (primary_test st);
    [repeat split; try apply Po; try assumption; discriminate|].
  unfold same_objective_record in *.
  repeat split; try congruence; try (destruct Po as (P1 & P2 & P3);
    destruct So as (S1 & S2 & S3); congruence).
Qed.

(** X8: what a call does to the data it is shown.  It appends "A" to the
    info string exactly when the acceptable test passed on this call (also
    when the call then returns CONVERGED_TO_ACCEPTABLE_POINT or a limit
    status), changes nothing else of the data, and never touches the
    calculated quantities or the clock. *)
Theorem X8_info_string (nlp : IpoptNLP Number UserState) (flag : bool)
    (st : State) :
  let st' := snd (CheckConvergence nlp flag st) in
  (acceptable_test nlp flag st = Some true ->
   IpData st' = Append_info_string (IpData st) "A")
  /\ (acceptable_test nlp flag st <> Some true -> IpData st' = IpData st)
  /\ IpCq st' = IpCq st
  /\ CpuTime st' = CpuTime st.
Proof.
  cbv zeta.
  destruct (CheckConvergence_state nlp flag st) as (_ & -> & -> & -> & _).
  split; [|split; [|split; reflexivity]].
  - intros Ha. destruct (acceptable_test_evaluated _ _ _ _ Ha) as [-> ->].
    rewrite Ha. reflexivity.
  - intros Ha.
    destruct (callback_stops nlp flag st); [reflexivity|].
    destruct (primary_test st); [reflexivity|].
    destruct (acceptable_test nlp flag st) as [[|]|]; [congruence| |]; reflexivity.
Qed.

(** X9: a call that returns CONVERGED leaves the acceptable counter, the
    record of the objective and the acceptable tolerances as they were: the
    only members it may have changed are [dual_inf_tol] and [compl_inf_tol],
    overwritten with 1e300 when the problem is square. *)
Theorem X9_converged_keeps_the_counter (nlp : IpoptNLP Number UserState)
    (flag : bool) (st : State) :
  fst (CheckConvergence nlp flag st) = CONVERGED ->
  let this' := checker (snd (CheckConvergence nlp flag st)) in
  this' = primary_checker st
  /\ acceptable_counter_ this' = acceptable_counter_ (checker st)
  /\ same_objective_record (checker st) this'
  /\ acceptable_dual_inf_tol_ this' = acceptable_dual_inf_tol_ (checker st)
  /\ acceptable_compl_inf_tol_ this' = acceptable_compl_inf_tol_ (checker st)
  /\ (square (IpData st) = false -> this' = checker st).
Proof.
  intros Hconv. cbv zeta.
  assert (Hs : callback_stops nlp flag st = false /\ primary_test st = true).
  { destruct (status_cases nlp flag st)
      as [(E & _)|[(_ & Hs & Hp)|[(E & _)|(E & _)]]].
    - rewrite E in Hconv. discriminate.
    - auto.
    - rewrite E in Hconv. discriminate.
    - rewrite E in Hconv. exfalso.
      exact (proj1 (limits_not_converged st) Hconv). }
  destruct Hs as [Hs Hp].
  rewrite (CheckConvergence_converged nlp flag st Hs Hp). fields.
  destruct (primary_checker_options st) as (_ & Po & Pd & Pc & Pk & _).
  repeat split; try assumption; try apply Po.
  intros Hsq. unfold primary_checker. rewrite Hsq. reflexivity.
Qed.

(** ** The record of the objective *)

Lemma CurrentIsAcceptable_idempotent (this : Checker) (d : IpoptData Number)
    (q : IpoptCalculatedQuantities Number) :
  CurrentIsAcceptable (snd (CurrentIsAcceptable this d q)) d q
  = CurrentIsAcceptable this d q.
Proof.
  unfold CurrentIsAcceptable. fields.
  destruct (iter_count d =? last_obj_val_iter_ this) eqn:E; fields;
    destruct (square d); fields; rewrite ?Z.eqb_refl, ?E; fields; reflexivity.
Qed.

(** X10: asking [CurrentIsAcceptable] again at the same iteration, with the
    same quantities, gives the same answer and leaves the checker as the
    first evaluation left it: the objective is recorded once per iteration
    count. *)
Theorem X10_CurrentIsAcceptable_again (this : Checker) (d : IpoptData Number)
    (q : IpoptCalculatedQuantities Number) :
  CurrentIsAcceptable (snd (CurrentIsAcceptable this d q)) d q
  = CurrentIsAcceptable this d q.
Proof. apply CurrentIsAcceptable_idempotent. Qed.

(** X11: evaluated at two different iterations in a row, the acceptable test
    compares the objective of the second with the objective of the first:
    after the second evaluation the stored last value is the objective of the
    first evaluation and the relative change is
    |f2 - f1| / Max(1, |f2|). *)
Theorem X11_objective_change_between_evaluations (this : Checker)
    (d1 d2 : IpoptData Number) (q1 q2 : IpoptCalculatedQuantities Number) :
  iter_count d1 <> last_obj_val_iter_ this ->
  iter_count d2 <> iter_count d1 ->
  let first := snd (CurrentIsAcceptable this d1 q1) in
  let second := snd (CurrentIsAcceptable first d2 q2) in
  last_obj_val_ second = curr_f q1
  /\ curr_obj_val_ second = curr_f q2
  /\ last_obj_val_iter_ second = iter_count d2
  /\ obj_change second
     = (fabs (curr_f q2 - curr_f q1) / Max (Num 1) (fabs (curr_f q2)))%num.
Proof.
  intros H1 H2. cbv zeta. unfold obj_change, CurrentIsAcceptable. fields.
  apply Z.eqb_neq in H1. apply Z.eqb_neq in H2. rewrite H1. fields.
  destruct (square d1); fields; rewrite H2; fields;
    destruct (square d2); fields; repeat split.
Qed.

(** The answer of [CurrentIsAcceptable] does not depend on the counter or on
    the primary tolerances, and of the data only on the iteration count and
    on whether the problem is square. *)
Lemma CurrentIsAcceptable_irrelevant (c : Checker) (k : Index) (t1 t2 : Number)
    (d d' : IpoptData Number) (q : IpoptCalculatedQuantities Number) :
  iter_count d' = iter_count d ->
  square d' = square d ->
  fst (CurrentIsAcceptable (set_acceptable_counter c k) d' q)
  = fst (CurrentIsAcceptable c d q)
  /\ fst (CurrentIsAcceptable (set_primary_tols (set_acceptable_counter c k) t1 t2)
            d' q)
     = fst (CurrentIsAcceptable c d q)
  /\ same_objective_record
       (snd (CurrentIsAcceptable c d q))
       (snd (CurrentIsAcceptable (set_acceptable_counter c k) d' q))
  /\ same_objective_record
       (snd (CurrentIsAcceptable c d q))
       (snd (CurrentIsAcceptable
               (set_primary_tols (set_acceptable_counter c k) t1 t2) d' q)).
Proof.
  intros Hi Hs. unfold CurrentIsAcceptable, same_objective_record. fields.
  rewrite Hi, Hs.
  destruct (iter_count d =? last_obj_val_iter_ c); fields;
    destruct (square d); fields; repeat split.
Qed.

(** X12: a second call in the same iteration counts the iterate a second
    time.  When the acceptable test passed on a call and [CheckConvergence]
    is called again on the state that call left (same quantities, same
    clock), without a stop request, the acceptable test passes again against
    the unchanged record of the objective and the counter ends two above
    where it started. *)
Theorem X12_second_call_counts_again (nlp : IpoptNLP Number UserState)
    (flag flag' : bool) (st : State) :
  acceptable_test nlp flag st = Some true ->
  let st1 := snd (CheckConvergence nlp flag st) in
  callback_stops nlp flag' st1 = false ->
  let st2 := snd (CheckConvergence nlp flag' st1) in
  acceptable_test nlp flag' st1 = Some true
  /\ acceptable_counter_ (checker st2) = acceptable_counter_ (checker st) + 2
  /\ same_objective_record (checker st1) (checker st2).
Proof.
  intros Hacc st1 Hstop' st2.
  destruct (acceptable_test_evaluated _ _ _ _ Hacc) as [Hstop Hprim].
  assert (Hgt : (acceptable_iter_ (checker st) >? 0) = true
                /\ fst (CurrentIsAcceptable (primary_checker st) (IpData st) (IpCq st))
                   = true).
  { unfold acceptable_test in Hacc. rewrite Hstop, Hprim in Hacc.
    destruct (acceptable_iter_ (checker st) >? 0); [|discriminate].
    injection Hacc as Hacc. auto. }
  destruct Hgt as [Hgt Htrue].
  set (after := snd (CurrentIsAcceptable (primary_checker st) (IpData st) (IpCq st))).
  assert (Hst1 : checker st1
                 = set_acceptable_counter after (acceptable_counter_ (checker st) + 1)
                 /\ IpData st1 = Append_info_string (IpData st) "A"
                 /\ IpCq st1 = IpCq st).
  { destruct (CheckConvergence_state nlp flag st) as (Hc & Hd & Hq & _).
    cbv zeta in Hc, Hd. rewrite Hstop, Hprim, Hacc in Hc, Hd.
    unfold st1. auto. }
  destruct Hst1 as (Hc1 & Hd1 & Hq1).
  assert (Hsq : square (IpData st1) = square (IpData st))
    by (rewrite Hd1; reflexivity).
  assert (Hit : iter_count (IpData st1) = iter_count (IpData st))
    by (rewrite Hd1; reflexivity).
  pose proof (CurrentIsAcceptable_options (primary_checker st) (IpData st) (IpCq st))
    as ((_ & _ & Av & Ai & _ & _ & _ & _ & Am) & Ad & Ac & Ak).
  cbv zeta in Av, Ai, Am, Ad, Ac, Ak. fold after in Av, Ai, Am, Ad, Ac, Ak.
  destruct (primary_checker_options st)
    as ((_ & _ & Pv & Pi & _ & _ & _ & _ & Pm) & _ & _ & _ & _ & Pd & Pc).
  assert (Hprim1 : primary_test st1 = false).
  { destruct (primary_checker_options st1)
      as ((_ & _ & Pv1 & _) & _ & _ & _ & _ & Pd1 & Pc1).
    rewrite <- Hprim. unfold primary_test.
    rewrite Pd1, Pc1, Pv1, Pd, Pc, Pv, Hsq, Hc1, Hq1, Hd1. fields.
    rewrite Am, Av, Ad, Ac, Pm, Pv, Pd, Pc.
    destruct (square (IpData st)); reflexivity. }
  assert (Hagain : fst (CurrentIsAcceptable (primary_checker st1)
                          (IpData st1) (IpCq st1)) = true
                   /\ same_objective_record after
                        (snd (CurrentIsAcceptable (primary_checker st1)
                                (IpData st1) (IpCq st1)))).
  { pose proof (CurrentIsAcceptable_idempotent (primary_checker st) (IpData st)
                  (IpCq st)) as Hidem. fold after in Hidem.
    destruct (CurrentIsAcceptable_irrelevant after
                (acceptable_counter_ (checker st) + 1) (Num 1e300) (Num 1e300)
                (IpData st) (IpData st1) (IpCq st) Hit Hsq)
      as (I1 & I2 & I3 & I4).
    rewrite Hidem in I1, I2, I3, I4. fold after in I3, I4.
    unfold primary_checker. rewrite Hc1, Hq1.
    destruct (square (IpData st1)); split; try congruence; assumption. }
  destruct Hagain as [Htrue1 Hrec].
  assert (Hacc1 : acceptable_test nlp flag' st1 = Some true).
  { unfold acceptable_test. rewrite Hstop', Hprim1, Hc1. fields.
    rewrite Ai, Pi, Hgt, Htrue1. reflexivity. }
  split; [exact Hacc1|].
  destruct (CheckConvergence_state nlp flag' st1) as (Hc2 & _).
  cbv zeta in Hc2. rewrite Hstop', Hprim1, Hacc1 in Hc2.
  unfold st2. rewrite Hc2, Hc1. fields. split; [lia|].
  unfold same_objective_record in *. fields. exact Hrec.
Qed.

(** ** Sequences of calls *)

(** X13: over any sequence of calls the callback is called exactly once at
    every call that enables it, with the scalars and the objects of that
    call, in the order of the calls, and never otherwise: the user's state
    after the sequence is what these applications of [IntermediateCallBack]
    leave, whatever the callback answers, and the reverse calls made are the
    ones of the enabling calls.  A sequence that never enables the callback
    leaves the user's side untouched. *)
Theorem X13_one_reverse_call_per_enabled_call (nlp : IpoptNLP Number UserState)
    (its : list (Iteration Number)) (this : Checker)
    (n : NLPState Number UserState) :
  nlp_after_calls nlp this n its
  = mkNLPState (callbacks_applied nlp (user_state n) its)
      (callback_calls n
       ++ map (fun it => intermediate_info (it_data it) (it_cq it))
            (filter (fun it => it_callback it) its))
  /\ (Forall (fun it => it_callback it = false) its ->
      nlp_after_calls nlp this n its = n).
Proof.
  revert this n. induction its as [|it rest IH]; intros this n.
  - split; [|reflexivity]. unfold nlp_after_calls.
    cbn [CheckConvergence_calls snd callbacks_applied filter map].
    rewrite app_nil_r. destruct n; reflexivity.
  - destruct (checker_after_cons nlp this n it rest) as (_ & -> & _).
    destruct (CheckConvergence_state nlp (it_callback it) (enter this n it))
      as (_ & _ & _ & _ & Hn).
    destruct (IH (checker (snd (CheckConvergence nlp (it_callback it) (enter this n it))))
                 (IpNLP (snd (CheckConvergence nlp (it_callback it) (enter this n it)))))
      as [IH1 IH2].
    rewrite Hn in IH1, IH2 |- *. unfold nlp_after in *.
    cbn [filter callbacks_applied].
    destruct (it_callback it) eqn:Hflag.
    + split.
      * rewrite IH1. unfold request_stop, enter. fields.
        destruct (IntermediateCallBack nlp _ _ _ _). fields.
        cbn [map]. rewrite <- app_assoc. reflexivity.
      * intros Hall. inversion Hall as [|? ? Hhead _]. congruence.
    + split.
      * rewrite IH1. fields. reflexivity.
      * intros Hall. inversion Hall as [|? ? _ Htail]. fields. apply IH2.
        exact Htail.
Qed.

(** X14: a run of calls on each of which the acceptable test passes, for any
    threshold and any starting count: call number [i] (from zero) returns
    CONVERGED_TO_ACCEPTABLE_POINT exactly when the starting count plus [i+1]
    has reached [acceptable_iter].  In particular the counter is not reset
    when the status is returned: every further passing call returns it
    again. *)
Theorem X14_passes_reach_any_threshold (nlp : IpoptNLP Number UserState)
    (its : list (Iteration Number)) (this : Checker)
    (n : NLPState Number UserState) :
  acceptable_tests nlp this n its = repeat (Some true) (List.length its) ->
  List.length (statuses_of nlp this n its) = List.length its
  /\ (forall (i : nat) (s : ConvergenceStatus),
        nth_error (statuses_of nlp this n its) i = Some s ->
        (s = CONVERGED_TO_ACCEPTABLE_POINT
         <-> acceptable_iter_ this <= acceptable_counter_ this + Z.of_nat i + 1))
  /\ (forall (i j : nat) (s : ConvergenceStatus),
        nth_error (statuses_of nlp this n its) i
        = Some CONVERGED_TO_ACCEPTABLE_POINT ->
        (i <= j)%nat ->
        nth_error (statuses_of nlp this n its) j = Some s ->
        s = CONVERGED_TO_ACCEPTABLE_POINT).
Proof.
  intros Hall. destruct (passing_run nlp its this n Hall) as [Hlen Hnth].
  cbv zeta in Hlen, Hnth. fold (statuses_of nlp this n its) in Hlen, Hnth.
  split; [exact Hlen|]. split; [exact Hnth|].
  intros i j s Hi Hij Hj.
  apply (Hnth j s Hj). pose proof (proj1 (Hnth i _ Hi) eq_refl). lia.
Qed.

(** However a sequence of calls goes, CONVERGED_TO_ACCEPTABLE_POINT is not
    returned before the counter can have reached the threshold. *)
Lemma no_early_acceptable (nlp : IpoptNLP Number UserState)
    (its : list (Iteration Number)) :
  forall (this : Checker) (n : NLPState Number UserState) (i : nat),
    0 <= acceptable_counter_ this ->
    nth_error (statuses_of nlp this n its) i = Some CONVERGED_TO_ACCEPTABLE_POINT ->
    0 < acceptable_iter_ this <= acceptable_counter_ this + Z.of_nat i + 1.
Proof.
  induction its as [|it rest IH]; intros this n i Hpos Hi.
  - destruct i; discriminate.
  - destruct (checker_after_cons nlp this n it rest) as (_ & _ & Hs).
    rewrite Hs in Hi.
    destruct (call_counter nlp (it_callback it) (enter this n it)) as [Hiter Hcnt].
    cbv zeta in Hiter, Hcnt. fields.
    destruct i as [|i].
    + cbn [nth_error] in Hi. injection Hi as Hi.
      destruct (status_cases nlp (it_callback it) (enter this n it))
        as [(E & _)|[(E & _)|[(_ & _ & _ & Ha & Hc)|(E & _)]]];
        try (rewrite E in Hi; discriminate).
      * fields. split; [|cbn [Z.of_nat]; lia].
        unfold acceptable_test in Ha.
        destruct (callback_stops _ _ _); [discriminate|].
        destruct (primary_test _); [discriminate|].
        fields. destruct (acceptable_iter_ this >? 0) eqn:G; [|discriminate].
        apply Z.gtb_lt in G. exact G.
      * rewrite E in Hi. exfalso.
        exact (proj2 (limits_not_converged _) Hi).
    + cbn [nth_error] in Hi.
      assert (Hle : 0 <= acceptable_counter_
                           (checker (snd (CheckConvergence nlp (it_callback it)
                                            (enter this n it))))
                    <= acceptable_counter_ this + 1).
      { rewrite Hcnt.
        destruct (callback_stops _ _ _); [lia|].
        destruct (primary_test _); [lia|].
        destruct (acceptable_test _ _ _) as [[|]|]; lia. }
      specialize (IH _ _ _ (proj1 Hle) Hi).
      rewrite Hiter in IH. rewrite Nat2Z.inj_succ. lia.
Qed.

(** X15: after [InitializeImpl], whatever the iterates and the callback do,
    none of the first [acceptable_iter - 1] calls returns
    CONVERGED_TO_ACCEPTABLE_POINT, and with [acceptable_iter] at zero or
    below no call ever does. *)
Theorem X15_not_acceptable_before_the_threshold (nlp : IpoptNLP Number UserState)
    (options : OptionsList Number) (prefix : string) (before : Checker)
    (n : NLPState Number UserState) (its : list (Iteration Number)) (i : nat) :
  let this := snd (InitializeImpl options prefix before) in
  nth_error (statuses_of nlp this n its) i = Some CONVERGED_TO_ACCEPTABLE_POINT ->
  0 < GetIntegerValue options "acceptable_iter" prefix <= Z.of_nat i + 1.
Proof.
  intros this Hi.
  apply (no_early_acceptable nlp its this n i); [apply Z.le_refl|exact Hi].
Qed.

(** X16: [InitializeImpl] does not assign [last_obj_val_], and this never
    shows.  Two checkers initialised from the same options, whatever they
    held before, give the same status on any first call at an iteration
    count that is not negative, and the same answer and checker from a first
    [CurrentIsAcceptable]: the stale member is overwritten before it is
    read. *)
Theorem X16_stale_last_objective_is_never_read (nlp : IpoptNLP Number UserState)
    (options : OptionsList Number) (prefix : string) (before1 before2 : Checker)
    (flag : bool) (d : IpoptData Number) (q : IpoptCalculatedQuantities Number)
    (now : Number) (n : NLPState Number UserState) :
  0 <= iter_count d ->
  let this1 := snd (InitializeImpl options prefix before1) in
  let this2 := snd (InitializeImpl options prefix before2) in
  CurrentIsAcceptable this1 d q = CurrentIsAcceptable this2 d q
  /\ fst (CheckConvergence nlp flag (mkCheckState this1 d q now n))
     = fst (CheckConvergence nlp flag (mkCheckState this2 d q now n)).
Proof.
  intros Hiter this1 this2.
  assert (Hneq : negb (iter_count d =? -1) = true)
    by (apply negb_true_iff, Z.eqb_neq; lia).
  assert (Hcia : forall t1 t2 : Number,
            CurrentIsAcceptable (set_primary_tols this1 t1 t2) d q
            = CurrentIsAcceptable (set_primary_tols this2 t1 t2) d q
            /\ CurrentIsAcceptable this1 d q = CurrentIsAcceptable this2 d q).
  { intros t1 t2. unfold CurrentIsAcceptable, this1, this2, InitializeImpl.
    fields. rewrite Hneq. split; reflexivity. }
  split; [apply (Hcia (Num 0) (Num 0))|].
  set (st1 := mkCheckState this1 d q now n).
  set (st2 := mkCheckState this2 d q now n).
  assert (Hs : callback_stops nlp flag st1 = callback_stops nlp flag st2)
    by reflexivity.
  assert (Hp : primary_test st1 = primary_test st2).
  { unfold primary_test, primary_checker, st1, st2. fields.
    destruct (square d); reflexivity. }
  assert (Hl : limits st1 = limits st2) by reflexivity.
  assert (Ha : acceptable_test nlp flag st1 = acceptable_test nlp flag st2).
  { unfold acceptable_test. rewrite Hs, Hp.
    replace (acceptable_iter_ (checker st2)) with (acceptable_iter_ (checker st1))
      by reflexivity.
    assert (Hc : fst (CurrentIsAcceptable (primary_checker st1) (IpData st1) (IpCq st1))
                 = fst (CurrentIsAcceptable (primary_checker st2) (IpData st2) (IpCq st2))).
    { unfold primary_checker, st1, st2. fields.
      destruct (square d).
      - rewrite (proj1 (Hcia (Num 1e300) (Num 1e300))). reflexivity.
      - rewrite (proj2 (Hcia (Num 0) (Num 0))). reflexivity. }
    rewrite Hc. reflexivity. }
  rewrite !CheckConvergence_status, Hs, Hp, Ha, Hl. reflexivity.
Qed.

End MoreProperties.

(** * Properties of the BLAS wrappers *)

Section BlasProperties.

Context {Number : Type} {ops : NumberOps Number} {arith : NumberArith Number}.

Lemma strided_spec (size : nat) (incY a : Z) :
  forall y : Z,
    strided size y incY a = true
    <-> exists k : Z, 0 <= k < Z.of_nat size /\ a = y + k * incY.
Proof.
  induction size as [|size IH]; intros y.
  - cbn [strided]. split; [discriminate|]. intros (k & Hk & _). cbn in Hk. lia.
  - cbn [strided]. rewrite orb_true_iff, IH, Z.eqb_eq. split.
    + intros [->|(k & Hk & ->)].
      * exists 0. split; lia.
      * exists (k + 1). split; lia.
    + intros (k & Hk & ->).
      destruct (Z.eq_dec k 0) as [->|Hne]; [left; lia|right].
      exists (k - 1). split; lia.
Qed.

Lemma Dcopy_loop_spec (size : nat) (x incY : Z) :
  forall (mem : Memory Number) (y a : Z),
    Dcopy_loop size mem x y incY a
    = if strided size y incY a then mem x else mem a.
Proof.
  induction size as [|size IH]; intros mem y a; [reflexivity|].
  cbn [Dcopy_loop strided]. rewrite IH. unfold store.
  rewrite Z.eqb_refl || idtac.
  destruct (strided size (y + incY) incY a).
  - rewrite orb_true_r. destruct (x =? y); reflexivity.
  - rewrite orb_false_r. destruct (a =? y); reflexivity.
Qed.

(** X18: [IpBlasDcopy] with a stride [incX] that is not positive and a size
    that is not negative copies the one number at [x] into the [size] cells
    [y], [y + incY], ... and changes no other cell; the source cell keeps
    its value even when it is among the cells written.  The stride [incX]
    itself is never used: no cell but [x] is read. *)
Theorem X18_Dcopy_broadcasts (f77 : F77 Number) (mem : Memory Number)
    (size : Index) (x : Z) (incX : Index) (y : Z) (incY : Index) :
  incX <= 0 ->
  0 <= size ->
  exists mem' : Memory Number,
    IpBlasDcopy f77 mem size x incX y incY = Some mem'
    /\ (forall k : Z, 0 <= k < size -> mem' (y + k * incY) = mem x)
    /\ (forall a : Z,
          (forall k : Z, 0 <= k < size -> a <> y + k * incY) -> mem' a = mem a)
    /\ mem' x = mem x.
Proof.
  intros HincX Hsize.
  exists (Dcopy_loop (Z.to_nat size) mem x y incY).
  assert (Hcall : IpBlasDcopy f77 mem size x incX y incY
                  = Some (Dcopy_loop (Z.to_nat size) mem x y incY)).
  { unfold IpBlasDcopy.
    destruct (incX >? 0) eqn:G; [apply Z.gtb_lt in G; lia|].
    destruct (size <? 0) eqn:L; [apply Z.ltb_lt in L; lia|].
    destruct (incY =? 1) eqn:E; [apply Z.eqb_eq in E; subst incY|]; reflexivity. }
  split; [exact Hcall|]. split; [|split].
  - intros k Hk. rewrite Dcopy_loop_spec.
    replace (strided (Z.to_nat size) y incY (y + k * incY)) with true;
      [reflexivity|].
    symmetry. apply strided_spec. exists k. split; [lia|reflexivity].
  - intros a Ha. rewrite Dcopy_loop_spec.
    destruct (strided (Z.to_nat size) y incY a) eqn:S; [|reflexivity].
    apply strided_spec in S. destruct S as (k & Hk & ->).
    exfalso. apply (Ha k); [lia|reflexivity].
  - rewrite Dcopy_loop_spec. destruct (strided _ _ _ _); reflexivity.
Qed.

Lemma strided_ahead (size : nat) (incY y : Z) :
  incY <> 0 ->
  forall j : Z, 0 < j -> strided size (y + j * incY) incY y = false.
Proof.
  intros Hinc. induction size as [|size IH]; intros j Hj; [reflexivity|].
  cbn [strided]. apply orb_false_iff. split.
  - apply Z.eqb_neq. nia.
  - replace (y + j * incY + incY) with (y + (j + 1) * incY) by lia.
    apply IH. lia.
Qed.

Lemma Daxpy_loop_spec (size : nat) (alpha : Number) (x incY : Z) :
  incY <> 0 ->
  forall (mem : Memory Number) (y a : Z),
    strided size y incY x = false ->
    Daxpy_loop size alpha mem x y incY a
    = if strided size y incY a then (mem a + alpha * mem x)%num else mem a.
Proof.
  intros Hinc. induction size as [|size IH]; intros mem y a Hx; [reflexivity|].
  cbn [Daxpy_loop strided] in *. apply orb_false_iff in Hx. destruct Hx as [Hxy Hx].
  rewrite (IH _ _ _ Hx). unfold store. rewrite Hxy.
  destruct (a =? y) eqn:E.
  - apply Z.eqb_eq in E. subst a.
    replace (strided size (y + incY) incY y) with false; [reflexivity|].
    symmetry. replace (y + incY) with (y + 1 * incY) by lia.
    apply strided_ahead; [exact Hinc|lia].
  - rewrite orb_false_l. destruct (strided size (y + incY) incY a); reflexivity.
Qed.

(** X19: [IpBlasDaxpy] with a stride [incX] that is not positive, a size that
    is not negative and a stride [incY] other than zero adds [alpha] times
    the one number at [x] to each of the [size] cells [y], [y + incY], ...,
    provided [x] is not one of them, and changes no other cell. *)
Theorem X19_Daxpy_adds_a_multiple (f77 : F77 Number) (mem : Memory Number)
    (size : Index) (alpha : Number) (x : Z) (incX : Index) (y : Z)
    (incY : Index) :
  incX <= 0 ->
  0 <= size ->
  incY <> 0 ->
  (forall k : Z, 0 <= k < size -> x <> y + k * incY) ->
  exists mem' : Memory Number,
    IpBlasDaxpy f77 mem size alpha x incX y incY = Some mem'
    /\ (forall k : Z, 0 <= k < size ->
        mem' (y + k * incY) = (mem (y + k * incY)%Z + alpha * mem x)%num)
    /\ (forall a : Z,
          (forall k : Z, 0 <= k < size -> a <> y + k * incY) -> mem' a = mem a).
Proof.
  intros HincX Hsize HincY Hx.
  exists (Daxpy_loop (Z.to_nat size) alpha mem x y incY).
  assert (Hcall : IpBlasDaxpy f77 mem size alpha x incX y incY
                  = Some (Daxpy_loop (Z.to_nat size) alpha mem x y incY)).
  { unfold IpBlasDaxpy.
    destruct (incX >? 0) eqn:G; [apply Z.gtb_lt in G; lia|].
    destruct (size <? 0) eqn:L; [apply Z.ltb_lt in L; lia|].
    destruct (incY =? 1) eqn:E; [apply Z.eqb_eq in E; subst incY|]; reflexivity. }
  assert (Hxs : strided (Z.to_nat size) y incY x = false).
  { destruct (strided (Z.to_nat size) y incY x) eqn:S; [|reflexivity].
    apply strided_spec in S. destruct S as (k & Hk & E).
    exfalso. apply (Hx k); [lia|exact E]. }
  split; [exact Hcall|]. split.
  - intros k Hk. rewrite (Daxpy_loop_spec _ _ _ _ HincY _ _ _ Hxs).
    replace (strided (Z.to_nat size) y incY (y + k * incY)) with true;
      [reflexivity|].
    symmetry. apply strided_spec. exists k. split; [lia|reflexivity].
  - intros a Ha. rewrite (Daxpy_loop_spec _ _ _ _ HincY _ _ _ Hxs).
    destruct (strided (Z.to_nat size) y incY a) eqn:S; [|reflexivity].
    apply strided_spec in S. destruct S as (k & Hk & ->).
    exfalso. apply (Ha k); [lia|reflexivity].
Qed.

Lemma Ddot_loop_fold (mem : Memory Number) (x incX y incY : Z) (size : nat) :
  forall (start : nat) (s : Number),
    Ddot_loop size mem (x + Z.of_nat start * incX) incX
      (y + Z.of_nat start * incY) incY s
    = fold_left
        (fun (s : Number) (k : nat) =>
           (s + mem (x + Z.of_nat k * incX)%Z * mem (y + Z.of_nat k * incY)%Z)%num)
        (seq start size) s.
Proof.
  induction size as [|size IH]; intros start s; [reflexivity|].
  cbn [Ddot_loop seq fold_left]. rewrite <- IH. f_equal; lia.
Qed.

(** X20: [IpBlasDdot] with a stride that is not positive on either side and
    a size that is not negative never calls the Fortran routine: it returns
    the products [x[k * incX] * y[k * incY]], [k = 0 .. size - 1], added one
    after the other in this order onto [0.0], each addition rounded as the
    number type rounds; for the size zero that is [0.0]. *)
Theorem X20_Ddot_accumulates_in_order (f77 : F77 Number) (mem : Memory Number)
    (size : Index) (x : Z) (incX : Index) (y : Z) (incY : Index) :
  incX <= 0 \/ incY <= 0 ->
  0 <= size ->
  IpBlasDdot f77 mem size x incX y incY
  = Some
      (fold_left
         (fun (s : Number) (k : nat) =>
            (s + mem (x + Z.of_nat k * incX)%Z * mem (y + Z.of_nat k * incY)%Z)%num)
         (seq 0 (Z.to_nat size)) (Num 0.0)).
Proof.
  intros Hinc Hsize. unfold IpBlasDdot.
  replace ((incX >? 0) && (incY >? 0)) with false.
  - replace (size <? 0) with false by (symmetry; apply Z.ltb_ge; exact Hsize).
    rewrite <- (Ddot_loop_fold mem x incX y incY (Z.to_nat size) 0 (Num 0.0)).
    do 2 f_equal; cbn [Z.of_nat]; lia.
  - symmetry. apply andb_false_iff.
    destruct Hinc as [H|H]; [left|right]; rewrite Z.gtb_ltb; apply Z.ltb_ge;
      exact H.
Qed.

End BlasProperties.

(** X17: [RegisterOptions] registers thirteen options under names that are
    all different, and [InitializeImpl] reads these and nothing else, each
    with the type it was registered with: two options lists that give the
    thirteen registered options the same values give the same checker,
    whatever else they hold.  Every option reaches the member of its name;
    the counter starts at zero and the sentinels are -1e50 and -1.  From an
    options list in which nothing is set, [InitializeImpl] builds the checker
    of the registered defaults. *)
Theorem X17_registered_options_reach_the_checker {Number : Type}
    {ops : NumberOps Number} (options : OptionsList Number) (prefix : string)
    (this : OptimalityErrorConvergenceCheck Number) :
  let roptions := RegisterOptions (Number:=Number) [] in
  let c := snd (InitializeImpl options prefix this) in
  NoDup (map option_name roptions)
  /\ List.length roptions = 13%nat
  /\ (forall other : OptionsList Number,
        same_registered_values roptions prefix options other ->
        InitializeImpl other prefix this = InitializeImpl options prefix this)
  /\ (max_iterations_ c = GetIntegerValue options "max_iter" prefix
      /\ max_cpu_time_ c = GetNumericValue options "max_cpu_time" prefix
      /\ dual_inf_tol_ c = GetNumericValue options "dual_inf_tol" prefix
      /\ constr_viol_tol_ c = GetNumericValue options "constr_viol_tol" prefix
      /\ compl_inf_tol_ c = GetNumericValue options "compl_inf_tol" prefix
      /\ acceptable_iter_ c = GetIntegerValue options "acceptable_iter" prefix
      /\ acceptable_tol_ c = GetNumericValue options "acceptable_tol" prefix
      /\ acceptable_dual_inf_tol_ c
         = GetNumericValue options "acceptable_dual_inf_tol" prefix
      /\ acceptable_constr_viol_tol_ c
         = GetNumericValue options "acceptable_constr_viol_tol" prefix
      /\ acceptable_compl_inf_tol_ c
         = GetNumericValue options "acceptable_compl_inf_tol" prefix
      /\ acceptable_obj_change_tol_ c
         = GetNumericValue options "acceptable_obj_change_tol" prefix
      /\ diverging_iterates_tol_ c
         = GetNumericValue options "diverging_iterates_tol" prefix
      /\ mu_target_ c = GetNumericValue options "mu_target" prefix
      /\ acceptable_counter_ c = 0
      /\ curr_obj_val_ c = Num (-1e50)
      /\ last_obj_val_iter_ c = -1)
  /\ InitializeImpl default_options prefix this
     = (true,
        mkChecker 3000 (Num 1e6) (Num 1) (Num 1e-4) (Num 1e-4) 15 (Num 1e-6)
          (Num 1e10) (Num 1e-2) (Num 1e-2) (Num 1e20) (Num 1e20) (Num 0)
          0 (Num (-1e50)) (last_obj_val_ this) (-1)).
Proof.
  cbv zeta. split; [|split; [reflexivity|split; [|split; [|reflexivity]]]].
  - assert (E : map option_name (RegisterOptions (Number:=Number) [])
                = ["max_iter"; "max_cpu_time"; "dual_inf_tol"; "constr_viol_tol";
                   "compl_inf_tol"; "acceptable_tol"; "acceptable_iter";
                   "acceptable_dual_inf_tol"; "acceptable_constr_viol_tol";
                   "acceptable_compl_inf_tol"; "acceptable_obj_change_tol";
                   "diverging_iterates_tol"; "mu_target"]%string)
      by reflexivity.
    rewrite E.
    repeat (constructor;
            [cbn [In]; intros H;
             repeat (destruct H as [H|H]; [discriminate H|]); exact H|]).
    constructor.
  - intros other H. unfold same_registered_values in H.
    cbv [RegisterOptions AddLowerBoundedIntegerOption
         AddLowerBoundedNumberOption app] in H.
    unfold InitializeImpl.
    repeat match type of H with
      | Forall _ (_ :: _) =>
          let E := fresh "E" in
          apply Forall_cons_iff in H as [E H];
          cbv beta iota in E; rewrite <- E; clear E
      end.
    reflexivity.
  - repeat split.
Qed.

(** * The further statements at concrete inputs *)

(** The fifteenth acceptable iterate in a row, on doubles. *)
Lemma X1_witness :
  let st := fifteenth_state (Number:=float) in
  fst (CheckConvergence nlp_go true st) = CONVERGED_TO_ACCEPTABLE_POINT
  /\ acceptable_test nlp_go true st = Some true
  /\ 0 < acceptable_iter_ (checker st) <= acceptable_counter_ (checker st) + 1.
Proof.
  cbv zeta.
  assert (H : fst (CheckConvergence nlp_go true (fifteenth_state (Number:=float)))
              = CONVERGED_TO_ACCEPTABLE_POINT) by (vm_compute; reflexivity).
  split; [exact H|].
  pose proof (X1_status_is_justified nlp_go true (fifteenth_state (Number:=float)))
    as T.
  cbv zeta in T. destruct T as (_ & _ & T & _). exact (T H).
Defined.

(** Scenario 4 of the spec on doubles, with both budgets exhausted as well. *)
Lemma X2_witness :
  let st := diverging_state (Number:=float) in
  (iter_count (IpData st) >=? max_iterations_ (checker st)) = true
  /\ (elapsed st >? max_cpu_time_ (checker st))%num = true
  /\ (Amax (curr_x (IpData st)) >? diverging_iterates_tol_ (checker st))%num = true
  /\ fst (CheckConvergence nlp_go false st) = DIVERGING.
Proof.
  cbv zeta. repeat (split; [vm_compute; reflexivity|]).
  apply (X2_diverging nlp_go false (diverging_state (Number:=float)));
    first [vm_compute; reflexivity | vm_compute; discriminate].
Defined.

(** Scenario 5 of the spec on doubles, with the time budget exhausted as
    well. *)
Lemma X3_witness :
  let st := maxiter_state (Number:=float) in
  (elapsed st >? max_cpu_time_ (checker st))%num = true
  /\ (max_cpu_time_ (checker st) <? Num 999999)%num = true
  /\ max_iterations_ (checker st) <= iter_count (IpData st)
  /\ fst (CheckConvergence nlp_go false st) = MAXITER_EXCEEDED.
Proof.
  cbv zeta. repeat (split; [vm_compute; reflexivity|]).
  assert (H : max_iterations_ (checker (maxiter_state (Number:=float)))
              <= iter_count (IpData (maxiter_state (Number:=float))))
    by (apply Z.leb_le; vm_compute; reflexivity).
  split; [exact H|].
  apply (X3_maxiter_exceeded nlp_go false (maxiter_state (Number:=float)));
    first [exact H | vm_compute; reflexivity | vm_compute; discriminate].
Defined.

(** Scenario 2 of the spec on doubles. *)
Lemma X4_witness :
  fst (CheckConvergence nlp_go true (scenario2 (Number:=float))) = CONTINUE.
Proof.
  apply (proj2 (X4_continue_iff nlp_go true (scenario2 (Number:=float)))).
  repeat split; first [vm_compute; reflexivity | vm_compute; discriminate].
Defined.

(** A square problem first, fifteen iterates of a problem that is not square
    after it: the stored tolerances are still 1e300. *)
Lemma X6_witness :
  let st := square_state (Number:=float) in
  let st1 := snd (CheckConvergence nlp_go true st) in
  square (IpData st) = true
  /\ callback_stops nlp_go true st = false
  /\ dual_inf_tol_ (checker st) = Num 1
  /\ dual_inf_tol_ (checker_after nlp_go (checker st1) (IpNLP st1) fifteen_acceptable)
     = Num 1e300.
Proof.
  cbv zeta. split; [reflexivity|]. split; [reflexivity|]. split; [reflexivity|].
  pose proof (X6_relaxation_is_kept nlp_go true (square_state (Number:=float))
                fifteen_acceptable eq_refl eq_refl) as T.
  cbv zeta in T. destruct T as (_ & (T & _) & _). exact T.
Defined.

(** The heuristic disabled on doubles: a counter left at 4 goes to zero. *)
Lemma X7_witness :
  let st := disabled_state (Number:=float) in
  acceptable_iter_ (checker st) <= 0
  /\ acceptable_counter_ (checker st) = 4
  /\ acceptable_counter_ (checker (snd (CheckConvergence nlp_go true st))) = 0.
Proof.
  cbv zeta.
  assert (H : acceptable_iter_ (checker (disabled_state (Number:=float))) <= 0)
    by (apply Z.leb_le; vm_compute; reflexivity).
  split; [exact H|]. split; [reflexivity|].
  pose proof (X7_heuristic_disabled nlp_go true (disabled_state (Number:=float)) H)
    as T.
  cbv zeta in T. destruct T as (_ & _ & _ & _ & _ & _ & T).
  apply T; vm_compute; reflexivity.
Defined.

Lemma X8_witness :
  let st := second_call_state (Number:=float) 1 in
  acceptable_test nlp_go true st = Some true
  /\ info_string (IpData (snd (CheckConvergence nlp_go true st))) = "A"%string.
Proof.
  cbv zeta.
  assert (H : acceptable_test nlp_go true (second_call_state (Number:=float) 1)
              = Some true) by (vm_compute; reflexivity).
  split; [exact H|].
  rewrite (proj1 (X8_info_string nlp_go true (second_call_state (Number:=float) 1)) H).
  reflexivity.
Defined.

Lemma X9_witness :
  let st := scenario1 (Number:=float) 7 in
  fst (CheckConvergence nlp_go true st) = CONVERGED
  /\ square (IpData st) = false
  /\ checker (snd (CheckConvergence nlp_go true st)) = checker st.
Proof.
  cbv zeta.
  assert (H : fst (CheckConvergence nlp_go true (scenario1 (Number:=float) 7))
              = CONVERGED) by (vm_compute; reflexivity).
  split; [exact H|]. split; [reflexivity|].
  pose proof (X9_converged_keeps_the_counter nlp_go true
                (scenario1 (Number:=float) 7) H) as T.
  cbv zeta in T. destruct T as (_ & _ & _ & _ & _ & T). apply T. reflexivity.
Defined.

(** The objectives 2 at iteration 0 and 3 at iteration 1, on doubles. *)
Lemma X11_witness :
  let this := default_checker (Number:=float) in
  let q1 := quantities (Num 1e-7) (Num 1e-9) (Num 1e-9) (Num 1e-9) (Num 2) in
  let q2 := quantities (Num 1e-7) (Num 1e-9) (Num 1e-9) (Num 1e-9) (Num 3) in
  let first := snd (CurrentIsAcceptable this (data_at 5 2 0) q1) in
  let second := snd (CurrentIsAcceptable first (data_at 5 2 1) q2) in
  last_obj_val_ second = Num 2 /\ curr_obj_val_ second = Num 3.
Proof.
  cbv zeta.
  pose proof (X11_objective_change_between_evaluations
                (default_checker (Number:=float)) (data_at 5 2 0) (data_at 5 2 1)
                (quantities (Num 1e-7) (Num 1e-9) (Num 1e-9) (Num 1e-9) (Num 2))
                (quantities (Num 1e-7) (Num 1e-9) (Num 1e-9) (Num 1e-9) (Num 3)))
    as T.
  cbv zeta in T.
  destruct T as (T1 & T2 & _); [vm_compute; discriminate|vm_compute; discriminate|].
  split; [exact T1|exact T2].
Defined.

Lemma X12_witness :
  let st := second_call_state (Number:=float) 1 in
  let st1 := snd (CheckConvergence nlp_go true st) in
  let st2 := snd (CheckConvergence nlp_go true st1) in
  acceptable_test nlp_go true st = Some true
  /\ callback_stops nlp_go true st1 = false
  /\ acceptable_counter_ (checker st) = 0
  /\ acceptable_counter_ (checker st2) = acceptable_counter_ (checker st) + 2.
Proof.
  cbv zeta.
  assert (H1 : acceptable_test nlp_go true (second_call_state (Number:=float) 1)
               = Some true) by (vm_compute; reflexivity).
  assert (H2 : callback_stops nlp_go true
                 (snd (CheckConvergence nlp_go true
                         (second_call_state (Number:=float) 1))) = false)
    by (vm_compute; reflexivity).
  split; [exact H1|]. split; [exact H2|]. split; [vm_compute; reflexivity|].
  pose proof (X12_second_call_counts_again nlp_go true true
                (second_call_state (Number:=float) 1) H1) as T.
  cbv zeta in T. exact (proj1 (proj2 (T H2))).
Defined.

(** Three calls on doubles, the second with the callback disabled, and a
    callback that asks to stop every time: it has been called twice. *)
Lemma X13_witness :
  let its := [square_iteration (Number:=float) true 1; square_iteration false 2;
              square_iteration true 3] in
  user_state (nlp_after_calls nlp_stop default_checker no_calls its) = 2%nat
  /\ map (fun info => cb_iter info)
       (callback_calls (nlp_after_calls nlp_stop default_checker no_calls its))
     = [1; 3].
Proof.
  cbv zeta.
  rewrite (proj1 (X13_one_reverse_call_per_enabled_call (Number:=float) nlp_stop
                    [square_iteration true 1; square_iteration false 2;
                     square_iteration true 3] default_checker no_calls)).
  split; reflexivity.
Defined.

Lemma X14_witness :
  let start := after_first_call (Number:=float) in
  acceptable_tests nlp_go (checker start) (IpNLP start) fifteen_acceptable
  = repeat (Some true) (List.length (fifteen_acceptable (Number:=float)))
  /\ nth_error (statuses_of nlp_go (checker start) (IpNLP start) fifteen_acceptable)
       14 = Some CONVERGED_TO_ACCEPTABLE_POINT
  /\ acceptable_iter_ (checker start)
     <= acceptable_counter_ (checker start) + Z.of_nat 14 + 1.
Proof.
  cbv zeta.
  assert (H : acceptable_tests nlp_go (checker (after_first_call (Number:=float)))
                (IpNLP after_first_call) fifteen_acceptable
              = repeat (Some true) (List.length (fifteen_acceptable (Number:=float))))
    by (vm_compute; reflexivity).
  assert (H14 : nth_error
                  (statuses_of nlp_go (checker (after_first_call (Number:=float)))
                     (IpNLP after_first_call) fifteen_acceptable) 14
                = Some CONVERGED_TO_ACCEPTABLE_POINT) by (vm_compute; reflexivity).
  split; [exact H|]. split; [exact H14|].
  exact (proj1 (proj1 (proj2 (X14_passes_reach_any_threshold nlp_go
                                fifteen_acceptable _ _ H)) 14%nat _ H14) eq_refl).
Defined.

(** A solve with the default options on doubles: the sixteenth call is the
    first that returns CONVERGED_TO_ACCEPTABLE_POINT. *)
Lemma X15_witness :
  let its := acceptable_iteration (Number:=float) 0 :: fifteen_acceptable in
  nth_error
    (statuses_of nlp_go (snd (InitializeImpl default_options "" blank_checker))
       no_calls its) 15
  = Some CONVERGED_TO_ACCEPTABLE_POINT
  /\ 0 < GetIntegerValue (default_options (Number:=float)) "acceptable_iter" ""
     <= Z.of_nat 15 + 1.
Proof.
  cbv zeta.
  assert (H : nth_error
                (statuses_of nlp_go
                   (snd (InitializeImpl (default_options (Number:=float)) ""
                           blank_checker))
                   no_calls (acceptable_iteration 0 :: fifteen_acceptable)) 15
              = Some CONVERGED_TO_ACCEPTABLE_POINT) by (vm_compute; reflexivity).
  split; [exact H|].
  exact (X15_not_acceptable_before_the_threshold nlp_go default_options ""
           blank_checker no_calls (acceptable_iteration 0 :: fifteen_acceptable)
           15 H).
Defined.

(** Two checkers that held different objectives before they were
    initialised. *)
Lemma X16_witness :
  let before2 := set_obj_vals (blank_checker (Number:=float)) (Num 0) (Num 5) 0 in
  let q := quantities (Num 1e-7) (Num 1e-9) (Num 1e-9) (Num 1e-9) (Num 2) in
  0 <= iter_count (data_at (Number:=float) 5 2 0)
  /\ fst (CheckConvergence nlp_go true
            (mkCheckState (snd (InitializeImpl default_options "" blank_checker))
               (data_at 5 2 0) q (Num 10) no_calls))
     = fst (CheckConvergence nlp_go true
              (mkCheckState (snd (InitializeImpl default_options "" before2))
                 (data_at 5 2 0) q (Num 10) no_calls)).
Proof.
  cbv zeta.
  assert (H : 0 <= iter_count (data_at (Number:=float) 5 2 0))
    by (apply Z.leb_le; reflexivity).
  split; [exact H|].
  exact (proj2 (X16_stale_last_objective_is_never_read nlp_go default_options ""
                  blank_checker
                  (set_obj_vals (blank_checker (Number:=float)) (Num 0) (Num 5) 0)
                  true (data_at 5 2 0)
                  (quantities (Num 1e-7) (Num 1e-9) (Num 1e-9) (Num 1e-9) (Num 2))
                  (Num 10) no_calls H)).
Defined.

(** The number at address 0 copied to the addresses 10, 12 and 14, on
    doubles. *)
Lemma X18_witness :
  exists mem' : Memory float,
    IpBlasDcopy no_f77 sample_memory 3 0 0 10 2 = Some mem'
    /\ mem' 12 = sample_memory 0
    /\ mem' 11 = sample_memory 11.
Proof.
  destruct (X18_Dcopy_broadcasts (Number:=float) no_f77 sample_memory 3 0 0 10 2)
    as (mem' & Hcall & Hw & Hk & _); [lia|lia|].
  exists mem'. split; [exact Hcall|]. split.
  - apply (Hw 1). lia.
  - apply Hk. intros k Hk'. lia.
Defined.

(** Twice the number at address 0 added at the addresses 10, 12 and 14. *)
Lemma X19_witness :
  exists mem' : Memory float,
    IpBlasDaxpy no_f77 sample_memory 3 (Num 2) 0 0 10 2 = Some mem'
    /\ mem' 12 = (sample_memory 12 + Num 2 * sample_memory 0)%num
    /\ mem' 11 = sample_memory 11.
Proof.
  destruct (X19_Daxpy_adds_a_multiple (Number:=float) no_f77 sample_memory 3
              (Num 2) 0 0 10 2) as (mem' & Hcall & Hw & Hk);
    [lia|lia|lia|intros k Hk; lia|].
  exists mem'. split; [exact Hcall|]. split.
  - apply (Hw 1). lia.
  - apply Hk. intros k Hk'. lia.
Defined.

(** The number 0.1 against the numbers 1e16, 1, -1e16 and 3 on doubles: the
    sum in the order of the loop, which is not 0.1 times the sum of the
    four. *)
Lemma X20_witness :
  IpBlasDdot (Number:=float) no_f77 rounding_memory 4 0 0 10 1
  = Some 0.42500000000000004%float.
Proof.
  rewrite (X20_Ddot_accumulates_in_order (Number:=float) no_f77 rounding_memory
             4 0 0 10 1); [|left; lia|lia].
  vm_compute. reflexivity.
Defined.

(** An options list that differs from the defaults at a tag that is not
    registered gives the checker of the defaults. *)
Lemma X17_witness :
  (GetNumericValue (options_with_stray_tag (Number:=float)) "no_such_option" ""
   <=? GetNumericValue default_options "no_such_option" "")%num = false
  /\ InitializeImpl (options_with_stray_tag (Number:=float)) "" blank_checker
     = InitializeImpl default_options "" blank_checker.
Proof.
  split; [vm_compute; reflexivity|].
  pose proof (X17_registered_options_reach_the_checker (Number:=float)
                default_options "" blank_checker) as T.
  cbv zeta in T. destruct T as (_ & _ & T & _).
  apply T. unfold same_registered_values.
  repeat (constructor; [reflexivity|]). constructor.
Defined.
